(** * V4L2 decode component and decoder: a shallow embedding

    The development follows the two translation units of the repository:
    [components/V4L2Decoder.cpp] (the driver of the V4L2 device) and
    [components/V4L2DecodeComponent.cpp] (the Codec2 component that owns the
    decoder).  Integers of the C++ code are [Z] with their wrap-around
    written out, containers are lists, [std::map] is a key-sorted association
    list, and a call that is undefined behaviour in C++ ([front()] of an empty
    container, dereferencing [end()]) makes the model return [None]. *)

From Stdlib Require Import ZArith List Bool Lia.
Import ListNotations.
Open Scope Z_scope.

Declare Scope ub_scope.
Delimit Scope ub_scope with ub.
Open Scope ub_scope.

(** Sequencing of computations that may hit undefined behaviour. *)
Notation "x <- e ;; k" :=
  (match e with Some x => k | None => None end)
    (at level 61, e at next level, k at level 200, right associativity,
     format "'[v' x  <-  e  ;;  '/' k ']'") : ub_scope.
Notation "' ( x , y ) <- e ;; k" :=
  (match e with Some (x, y) => k | None => None end)
    (at level 61, x name, y name, e at next level, k at level 200,
     right associativity) : ub_scope.

(** ** Shared types ([common/VideoTypes.h], [common/Common.h], [C2.h]) *)

Inductive VideoCodec := H264 | VP8 | VP9 | HEVC.

Inductive HalPixelFormat := YCBCR_420_888.

Inductive c2_status_t :=
| C2_OK | C2_BAD_VALUE | C2_BAD_STATE | C2_CORRUPTED | C2_NOT_FOUND
| C2_BLOCKING | C2_OMITTED | C2_NO_MEMORY | C2_REFUSED.

Inductive c2_blocking_t := C2_DONT_BLOCK | C2_MAY_BLOCK.

(** [VideoDecoder::DecodeStatus]. *)
Inductive DecodeStatus := kOk | kAborted | kError.

Definition c2_status_eqb (a b : c2_status_t) : bool :=
  match a, b with
  | C2_OK, C2_OK | C2_BAD_VALUE, C2_BAD_VALUE | C2_BAD_STATE, C2_BAD_STATE
  | C2_CORRUPTED, C2_CORRUPTED | C2_NOT_FOUND, C2_NOT_FOUND
  | C2_BLOCKING, C2_BLOCKING | C2_OMITTED, C2_OMITTED
  | C2_NO_MEMORY, C2_NO_MEMORY | C2_REFUSED, C2_REFUSED => true
  | _, _ => false
  end.

Definition VideoCodec_eqb (a b : VideoCodec) : bool :=
  match a, b with
  | H264, H264 | VP8, VP8 | VP9, VP9 | HEVC, HEVC => true
  | _, _ => false
  end.

(** Machine integers. *)
Definition INT_MAX : Z := 2147483647.
Definition INT_MIN : Z := -2147483648.
Definition in_int32 (z : Z) : bool := (INT_MIN <=? z) && (z <=? INT_MAX).
Definition to_uint32 (z : Z) : Z := z mod 2 ^ 32.
Definition to_int32 (z : Z) : Z := (z + 2 ^ 31) mod 2 ^ 32 - 2 ^ 31.
Definition to_uint64 (z : Z) : Z := z mod 2 ^ 64.

(** [ui::Size] and [android::Rect], both with [int32_t] members. *)
Record Size := mkSize { width : Z; height : Z }.
Record Rect := mkRect { left : Z; top : Z; right : Z; bottom : Z }.

(** [Rect(w, h)]: the rectangle with origin (0, 0). *)
Definition Rect_wh (w h : Z) : Rect := mkRect 0 0 w h.

(** [Rect::isEmpty()] of libui: width or height not positive, the
    subtraction being done on [int32_t] without overflow check. *)
Definition Rect_isEmpty (r : Rect) : bool :=
  (to_int32 (right r - left r) <=? 0) || (to_int32 (bottom r - top r) <=? 0).

(** Modelled from the spec: [contains] of [common/Common.h] is not under
    src/; the spec speaks of a rectangle "contained in coded size", which is
    the edge-wise comparison below. *)
Definition contains (rect1 rect2 : Rect) : bool :=
  (left rect1 <=? left rect2) && (right rect2 <=? right rect1) &&
  (top rect1 <=? top rect2) && (bottom rect2 <=? bottom rect1).

(** Modelled from the spec: [isEmpty(ui::Size)] of [common/Common.h]. *)
Definition Size_isEmpty (s : Size) : bool := (width s =? 0) || (height s =? 0).

(** Modelled from the spec: [getArea] of [common/Common.h] is not under
    src/; its [std::optional<int>] result is the product of the two [int]
    members when that product is representable, and empty otherwise. *)
Definition getArea (s : Size) : option Z :=
  if in_int32 (width s * height s) then Some (width s * height s) else None.

Definition value_or {A} (o : option A) (d : A) : A :=
  match o with Some a => a | None => d end.

(** ** [std::map] with integer keys

    A key-sorted association list: iteration visits the keys in increasing
    order, [insert] keeps an existing entry (as [std::map::insert] does). *)
Module OMap.
Section WithValue.
Context {V : Type}.

Definition t := list (Z * V).

Definition empty : t := [].

Fixpoint find (k : Z) (m : t) : option V :=
  match m with
  | [] => None
  | (k', v) :: m' => if k' =? k then Some v else find k m'
  end.

(** [insert] returns the map and whether the insertion took place. *)
Fixpoint insert (k : Z) (v : V) (m : t) : t * bool :=
  match m with
  | [] => ([(k, v)], true)
  | (k', v') :: m' =>
      if k <? k' then ((k, v) :: (k', v') :: m', true)
      else if k =? k' then ((k', v') :: m', false)
      else let (r, b) := insert k v m' in ((k', v') :: r, b)
  end.

(** Overwrites the value stored under [k] (writing through an iterator
    or through a pointer to the mapped object). *)
Fixpoint update (k : Z) (v : V) (m : t) : t :=
  match m with
  | [] => []
  | (k', v') :: m' =>
      if k' =? k then (k', v) :: m' else (k', v') :: update k v m'
  end.

Fixpoint erase (k : Z) (m : t) : t :=
  match m with
  | [] => []
  | (k', v') :: m' => if k' =? k then m' else (k', v') :: erase k m'
  end.

Definition size (m : t) : Z := Z.of_nat (length m).

Definition values (m : t) : list V := map snd m.
End WithValue.
Arguments t : clear implicits.
End OMap.

(** ** The V4L2 device (external to the repository)

    [V4L2Device] and [V4L2Queue] are only used through their interface.  The
    model keeps the bookkeeping the decoder can observe (free and queued
    buffers of each queue, the buffers and events the driver has ready) and
    lets the driver answer every request freely: the outcome of the n-th
    request is [answers n]. *)

Record v4l2_rect := mkV4L2Rect
  { r_left : Z; r_top : Z; r_width : Z; r_height : Z }.

Record v4l2_event := mkV4L2Event
  { isSourceChange : bool; hasResolutionChange : bool }.

Record DevAnswer := mkDevAnswer
  { ok : bool;              (* the request succeeded *)
    value : Z;              (* a number it returns (control value, size) *)
    selection : v4l2_rect;  (* the rectangle of G_SELECTION or G_CROP *)
    pix_size : Size;        (* fmt.pix_mp.width and height of G_FMT *)
    pixelformats : list Z   (* the enumerated pixel formats *) }.

(** A buffer handed back by DQBUF. *)
Record V4L2ReadableBuffer := mkReadable
  { bufferId : Z; timestampSec : Z; planeBytesUsed : Z; isLast : bool }.

(** What the next call of [dequeueBuffer] finds: a failure of the ioctl, or
    a buffer; an empty list means no buffer is ready. *)
Inductive DqResult := DqFailure | DqBuffer (b : V4L2ReadableBuffer).

Record V4L2Queue := mkQueue
  { allocatedBuffersCount : Z;
    freeBuffers : list Z;          (* ids of the free buffers *)
    queuedBuffersCount : nat;
    isStreaming : bool;
    readyToDequeue : list DqResult }.

(** A VIDIOC_DECODER_CMD ioctl as the device saw it: the command, and the
    number of buffers queued on the input queue at that moment. *)
Record DecoderCmd := mkDecoderCmd
  { cmdIsStart : bool; inputQueuedAtCmd : nat }.

Record V4L2Device := mkDevice
  { mInputQueue : V4L2Queue;
    mOutputQueue : V4L2Queue;
    pendingEvents : list v4l2_event;
    isPolling : bool;
    nextRequest : nat;
    answers : nat -> DevAnswer;
    issuedDecoderCmds : list DecoderCmd }.

Definition set_mInputQueue (q : V4L2Queue) (dev : V4L2Device) : V4L2Device :=
  mkDevice q (mOutputQueue dev) (pendingEvents dev) (isPolling dev)
           (nextRequest dev) (answers dev) (issuedDecoderCmds dev).
Definition set_mOutputQueue (q : V4L2Queue) (dev : V4L2Device) : V4L2Device :=
  mkDevice (mInputQueue dev) q (pendingEvents dev) (isPolling dev)
           (nextRequest dev) (answers dev) (issuedDecoderCmds dev).
Definition set_pendingEvents (l : list v4l2_event) (dev : V4L2Device) :=
  mkDevice (mInputQueue dev) (mOutputQueue dev) l (isPolling dev)
           (nextRequest dev) (answers dev) (issuedDecoderCmds dev).
Definition set_isPolling (b : bool) (dev : V4L2Device) : V4L2Device :=
  mkDevice (mInputQueue dev) (mOutputQueue dev) (pendingEvents dev) b
           (nextRequest dev) (answers dev) (issuedDecoderCmds dev).

(** One request to the driver: read its answer, move to the next one. *)
Definition request (dev : V4L2Device) : DevAnswer * V4L2Device :=
  (answers dev (nextRequest dev),
   mkDevice (mInputQueue dev) (mOutputQueue dev) (pendingEvents dev)
            (isPolling dev) (S (nextRequest dev)) (answers dev)
            (issuedDecoderCmds dev)).

(** [ioctl(VIDIOC_DECODER_CMD, cmd)]: the device sees the command with the
    input queue as it is now. *)
Definition ioctl_DECODER_CMD (start : bool) (dev : V4L2Device)
  : bool * V4L2Device :=
  let (a, dev1) := request dev in
  (ok a,
   mkDevice (mInputQueue dev1) (mOutputQueue dev1) (pendingEvents dev1)
            (isPolling dev1) (nextRequest dev1) (answers dev1)
            (issuedDecoderCmds dev1 ++
               [mkDecoderCmd start (queuedBuffersCount (mInputQueue dev1))])).

(** [ioctl(VIDIOC_G_SELECTION)] and [ioctl(VIDIOC_G_CROP)]. *)
Definition ioctl_G_SELECTION (dev : V4L2Device)
  : option v4l2_rect * V4L2Device :=
  let (a, dev1) := request dev in
  (if ok a then Some (selection a) else None, dev1).
Definition ioctl_G_CROP (dev : V4L2Device) : option v4l2_rect * V4L2Device :=
  let (a, dev1) := request dev in
  (if ok a then Some (selection a) else None, dev1).

(** [ioctl(VIDIOC_G_FMT)] and [ioctl(VIDIOC_G_CTRL)]. *)
Definition ioctl_G_FMT (dev : V4L2Device) : option Size * V4L2Device :=
  let (a, dev1) := request dev in
  (if ok a then Some (pix_size a) else None, dev1).
Definition ioctl_G_CTRL (dev : V4L2Device) : option Z * V4L2Device :=
  let (a, dev1) := request dev in
  (if ok a then Some (value a) else None, dev1).

(** [ioctl(VIDIOC_DQEVENT)]: fails when no event is pending. *)
Definition ioctl_DQEVENT (dev : V4L2Device)
  : option v4l2_event * V4L2Device :=
  match pendingEvents dev with
  | [] => (None, dev)
  | ev :: rest => (Some ev, set_pendingEvents rest dev)
  end.

(** *** Queue operations *)

Definition streamoff (q : V4L2Queue) : V4L2Queue :=
  mkQueue (allocatedBuffersCount q)
          (map Z.of_nat (seq 0 (Z.to_nat (allocatedBuffersCount q))))
          0%nat false [].
Definition set_streaming (b : bool) (q : V4L2Queue) : V4L2Queue :=
  mkQueue (allocatedBuffersCount q) (freeBuffers q) (queuedBuffersCount q) b
          (readyToDequeue q).
Definition deallocateBuffers (q : V4L2Queue) : V4L2Queue :=
  mkQueue 0 [] 0%nat (isStreaming q) [].
Definition allocateBuffers (n : Z) (q : V4L2Queue) : V4L2Queue :=
  mkQueue n (map Z.of_nat (seq 0 (Z.to_nat n))) 0%nat (isStreaming q) [].
Definition freeBuffersCount (q : V4L2Queue) : Z :=
  Z.of_nat (length (freeBuffers q)).

(** [getFreeBuffer()]: takes a free buffer out of the free list. *)
Definition getFreeBuffer (q : V4L2Queue) : option (Z * V4L2Queue) :=
  match freeBuffers q with
  | [] => None
  | b :: rest =>
      Some (b, mkQueue (allocatedBuffersCount q) rest (queuedBuffersCount q)
                       (isStreaming q) (readyToDequeue q))
  end.

Definition remove_id (b : Z) (l : list Z) : list Z :=
  filter (fun x => negb (x =? b)) l.

(** [getFreeBuffer(bufferId)]: takes that buffer if it is free. *)
Definition getFreeBufferById (b : Z) (q : V4L2Queue)
  : option (Z * V4L2Queue) :=
  if existsb (Z.eqb b) (freeBuffers q)
  then Some (b, mkQueue (allocatedBuffersCount q)
                        (remove_id b (freeBuffers q))
                        (queuedBuffersCount q) (isStreaming q)
                        (readyToDequeue q))
  else None.

(** A buffer reference that goes out of scope returns to the free list. *)
Definition releaseBuffer (b : Z) (q : V4L2Queue) : V4L2Queue :=
  mkQueue (allocatedBuffersCount q) (b :: freeBuffers q)
          (queuedBuffersCount q) (isStreaming q) (readyToDequeue q).

(** A writable buffer after [queueDMABuf]: queued on success, free again on
    failure. *)
Definition queueDMABuf (b : Z) (success : bool) (q : V4L2Queue) : V4L2Queue :=
  if success
  then mkQueue (allocatedBuffersCount q) (freeBuffers q)
               (S (queuedBuffersCount q)) (isStreaming q) (readyToDequeue q)
  else releaseBuffer b q.

(** [dequeueBuffer()]: the pair (success, buffer) of the C++ code. *)
Definition dequeueBuffer (q : V4L2Queue)
  : bool * option V4L2ReadableBuffer * V4L2Queue :=
  match readyToDequeue q with
  | [] => (true, None, q)
  | DqFailure :: rest =>
      (false, None,
       mkQueue (allocatedBuffersCount q) (freeBuffers q)
               (queuedBuffersCount q) (isStreaming q) rest)
  | DqBuffer b :: rest =>
      (true, Some b,
       mkQueue (allocatedBuffersCount q) (freeBuffers q)
               (Nat.pred (queuedBuffersCount q)) (isStreaming q) rest)
  end.

(** ** [V4L2Decoder.cpp] *)

(** [V4L2Decoder::State]. *)
Inductive State := Idle | Decoding | Draining | Error.

Definition State_eqb (a b : State) : bool :=
  match a, b with
  | Idle, Idle | Decoding, Decoding | Draining, Draining | Error, Error => true
  | _, _ => false
  end.

(** [ConstBitstreamBuffer]: the id, the window of the linear block and the
    file descriptor of its dma-buf. *)
Record ConstBitstreamBuffer := mkBitstreamBuffer
  { id : Z; offset : Z; size : Z; dmabuf_fd : Z }.

(** [VideoFrame]: the file descriptors of its graphic block, and what the
    decoder stamps on it. *)
Record VideoFrame := mkVideoFrame
  { frameFDs : list Z; frameBitstreamId : Z; frameVisibleRect : Rect }.

Definition setBitstreamId (i : Z) (f : VideoFrame) : VideoFrame :=
  mkVideoFrame (frameFDs f) i (frameVisibleRect f).
Definition setVisibleRect (r : Rect) (f : VideoFrame) : VideoFrame :=
  mkVideoFrame (frameFDs f) (frameBitstreamId f) r.

(** Modelled from the spec: [VideoFramePool] is not under src/; it
    "satisfies one outstanding allocation request at a time", so
    [getVideoFrame] is refused while a request is outstanding. *)
Record VideoFramePool := mkPool { requestOutstanding : bool }.

Definition getVideoFrame (p : VideoFramePool) : bool * VideoFramePool :=
  if requestOutstanding p then (false, p) else (true, mkPool true).

(** The currently supported output formats, [kSupportedOutputFourccs]:
    YU12, YV12, YM12, YM21, NV12, NV21, NM12, NM21 as V4L2 fourcc codes. *)
Definition fourcc (a b c d : Z) : Z :=
  a + Z.shiftl b 8 + Z.shiftl c 16 + Z.shiftl d 24.
Definition kSupportedOutputFourccs : list Z :=
  [ fourcc 89 85 49 50; fourcc 89 86 49 50; fourcc 89 77 49 50;
    fourcc 89 77 50 49; fourcc 78 86 49 50; fourcc 78 86 50 49;
    fourcc 78 77 49 50; fourcc 78 77 50 49 ].

Definition kNumExtraOutputBuffers : Z := 4.

Section Decoder.
(** The decoder is written against the callbacks it is given: a decode
    callback type ([DecodeCB]) and a client whose state the callbacks act
    on.  A callback that runs into undefined behaviour yields [None]. *)
Context {DecodeCB Client : Type}.

(** [DecodeRequest]: a null buffer marks a drain request. *)
Record DecodeRequest := mkRequest
  { buffer : option ConstBitstreamBuffer; decodeCb : DecodeCB }.

(** What the decoder posts to its task runner. *)
Inductive DecoderTask :=
| TaskRunDecodeCb (cb : DecodeCB) (status : DecodeStatus)
| TaskPumpDecodeRequest
| TaskTryFetchVideoFrame.

Record Callbacks := mkCallbacks
  { runDecodeCb : DecodeCB -> DecodeStatus -> Client -> option Client;
    mOutputCb : VideoFrame -> Client -> option Client;
    mErrorCb : Client -> option Client;
    mGetPoolCb : Size -> HalPixelFormat -> Z -> Client ->
                 option (option VideoFramePool * Client);
    postTask : DecoderTask -> Client -> Client }.

Record V4L2Decoder := mkDecoder
  { mState : State;
    mDecodeRequests : list DecodeRequest;
    mPendingDecodeCbs : OMap.t DecodeCB;
    mDrainCb : option DecodeCB;
    mDevice : V4L2Device;
    mFrameAtDevice : OMap.t VideoFrame;
    mBlockIdToV4L2Id : OMap.t Z;
    mVideoFramePool : option VideoFramePool;
    mCodedSize : Size;
    mVisibleRect : Rect;
    mMinNumOutputBuffers : Z }.

Definition set_mState (s : State) (d : V4L2Decoder) : V4L2Decoder :=
  mkDecoder s (mDecodeRequests d) (mPendingDecodeCbs d) (mDrainCb d)
    (mDevice d) (mFrameAtDevice d) (mBlockIdToV4L2Id d) (mVideoFramePool d)
    (mCodedSize d) (mVisibleRect d) (mMinNumOutputBuffers d).
Definition set_mDecodeRequests (l : list DecodeRequest) (d : V4L2Decoder) :=
  mkDecoder (mState d) l (mPendingDecodeCbs d) (mDrainCb d)
    (mDevice d) (mFrameAtDevice d) (mBlockIdToV4L2Id d) (mVideoFramePool d)
    (mCodedSize d) (mVisibleRect d) (mMinNumOutputBuffers d).
Definition set_mPendingDecodeCbs (m : OMap.t DecodeCB) (d : V4L2Decoder) :=
  mkDecoder (mState d) (mDecodeRequests d) m (mDrainCb d)
    (mDevice d) (mFrameAtDevice d) (mBlockIdToV4L2Id d) (mVideoFramePool d)
    (mCodedSize d) (mVisibleRect d) (mMinNumOutputBuffers d).
Definition set_mDrainCb (cb : option DecodeCB) (d : V4L2Decoder) :=
  mkDecoder (mState d) (mDecodeRequests d) (mPendingDecodeCbs d) cb
    (mDevice d) (mFrameAtDevice d) (mBlockIdToV4L2Id d) (mVideoFramePool d)
    (mCodedSize d) (mVisibleRect d) (mMinNumOutputBuffers d).
Definition set_mDevice (dev : V4L2Device) (d : V4L2Decoder) :=
  mkDecoder (mState d) (mDecodeRequests d) (mPendingDecodeCbs d) (mDrainCb d)
    dev (mFrameAtDevice d) (mBlockIdToV4L2Id d) (mVideoFramePool d)
    (mCodedSize d) (mVisibleRect d) (mMinNumOutputBuffers d).
Definition set_mFrameAtDevice (m : OMap.t VideoFrame) (d : V4L2Decoder) :=
  mkDecoder (mState d) (mDecodeRequests d) (mPendingDecodeCbs d) (mDrainCb d)
    (mDevice d) m (mBlockIdToV4L2Id d) (mVideoFramePool d)
    (mCodedSize d) (mVisibleRect d) (mMinNumOutputBuffers d).
Definition set_mBlockIdToV4L2Id (m : OMap.t Z) (d : V4L2Decoder) :=
  mkDecoder (mState d) (mDecodeRequests d) (mPendingDecodeCbs d) (mDrainCb d)
    (mDevice d) (mFrameAtDevice d) m (mVideoFramePool d)
    (mCodedSize d) (mVisibleRect d) (mMinNumOutputBuffers d).
Definition set_mVideoFramePool (p : option VideoFramePool) (d : V4L2Decoder) :=
  mkDecoder (mState d) (mDecodeRequests d) (mPendingDecodeCbs d) (mDrainCb d)
    (mDevice d) (mFrameAtDevice d) (mBlockIdToV4L2Id d) p
    (mCodedSize d) (mVisibleRect d) (mMinNumOutputBuffers d).
Definition set_mCodedSize (s : Size) (d : V4L2Decoder) :=
  mkDecoder (mState d) (mDecodeRequests d) (mPendingDecodeCbs d) (mDrainCb d)
    (mDevice d) (mFrameAtDevice d) (mBlockIdToV4L2Id d) (mVideoFramePool d)
    s (mVisibleRect d) (mMinNumOutputBuffers d).
Definition set_mVisibleRect (r : Rect) (d : V4L2Decoder) :=
  mkDecoder (mState d) (mDecodeRequests d) (mPendingDecodeCbs d) (mDrainCb d)
    (mDevice d) (mFrameAtDevice d) (mBlockIdToV4L2Id d) (mVideoFramePool d)
    (mCodedSize d) r (mMinNumOutputBuffers d).

Definition inputQueue (d : V4L2Decoder) : V4L2Queue :=
  mInputQueue (mDevice d).
Definition outputQueue (d : V4L2Decoder) : V4L2Queue :=
  mOutputQueue (mDevice d).
Definition set_inputQueue (q : V4L2Queue) (d : V4L2Decoder) :=
  set_mDevice (set_mInputQueue q (mDevice d)) d.
Definition set_outputQueue (q : V4L2Queue) (d : V4L2Decoder) :=
  set_mDevice (set_mOutputQueue q (mDevice d)) d.

Variable cbs : Callbacks.

(** [V4L2Decoder::setState]. *)
Definition setState (newState : State) (d : V4L2Decoder) : V4L2Decoder :=
  if State_eqb (mState d) newState then d
  else if State_eqb (mState d) Error then d
  else
    let newState :=
      match newState with
      | Draining =>
          if negb (State_eqb (mState d) Decoding) then Error else Draining
      | s => s
      end in
    set_mState newState d.

(** [V4L2Decoder::onError]. *)
Definition onError (d : V4L2Decoder) (c : Client)
  : option (V4L2Decoder * Client) :=
  let d1 := setState Error d in
  c1 <- mErrorCb cbs c ;;
  Some (d1, c1).

(** [V4L2Decoder::sendV4L2DecoderCmd]. *)
Definition sendV4L2DecoderCmd (start : bool) (d : V4L2Decoder)
  : bool * V4L2Decoder :=
  let (success, dev) := ioctl_DECODER_CMD start (mDevice d) in
  (success, set_mDevice dev d).

(** [streamon()] of a queue and [startPolling()] of the device: the
    driver may refuse. *)
Definition streamonInput (d : V4L2Decoder) : bool * V4L2Decoder :=
  let (a, dev) := request (mDevice d) in
  (ok a,
   set_mDevice
     (set_mInputQueue
        (if ok a then set_streaming true (mInputQueue dev)
         else mInputQueue dev) dev) d).
Definition streamonOutput (d : V4L2Decoder) : bool * V4L2Decoder :=
  let (a, dev) := request (mDevice d) in
  (ok a,
   set_mDevice
     (set_mOutputQueue
        (if ok a then set_streaming true (mOutputQueue dev)
         else mOutputQueue dev) dev) d).
Definition startPolling (d : V4L2Decoder) : bool * V4L2Decoder :=
  let (a, dev) := request (mDevice d) in
  (ok a, set_mDevice (if ok a then set_isPolling true dev else dev) d).
Definition stopPolling (d : V4L2Decoder) : V4L2Decoder :=
  set_mDevice (set_isPolling false (mDevice d)) d.

(** The loop of [V4L2Decoder::pumpDecodeRequest]; [reqs] is
    [mDecodeRequests d], the queue the loop pops from. *)
Fixpoint pumpDecodeRequest_loop (reqs : list DecodeRequest)
    (d : V4L2Decoder) (c : Client) : option (V4L2Decoder * Client) :=
  match reqs with
  | [] => Some (d, c)
  | req :: rest =>
      match buffer req with
      | None =>
          (* Drain the decoder. *)
          if Nat.ltb 0 (queuedBuffersCount (inputQueue d)) then Some (d, c)
          else
            let d1 := set_mDecodeRequests rest d in
            let (sent, d2) := sendV4L2DecoderCmd false d1 in
            if negb sent then
              c1 <- runDecodeCb cbs (decodeCb req) kError c ;;
              onError d2 c1
            else
              Some (setState Draining
                      (set_mDrainCb (Some (decodeCb req)) d2), c)
      | Some buf =>
          (* Pause if no free input buffer. *)
          match getFreeBuffer (inputQueue d) with
          | None => Some (d, c)
          | Some (inputBuffer, q1) =>
              let d1 := set_mDecodeRequests rest (set_inputQueue q1 d) in
              let (a, dev2) := request (mDevice d1) in
              let planeSize := value a in
              let d2 := set_mDevice dev2 d1 in
              if planeSize <? size buf then
                onError (set_inputQueue
                           (releaseBuffer inputBuffer (inputQueue d2)) d2) c
              else
                let (a', dev3) := request (mDevice d2) in
                let d3 :=
                  set_mDevice
                    (set_mInputQueue
                       (queueDMABuf inputBuffer (ok a') (mInputQueue dev3))
                       dev3) d2 in
                if negb (ok a') then onError d3 c
                else
                  let d4 :=
                    set_mPendingDecodeCbs
                      (fst (OMap.insert (id buf) (decodeCb req)
                              (mPendingDecodeCbs d3))) d3 in
                  pumpDecodeRequest_loop rest d4 c
          end
      end
  end.

(** [V4L2Decoder::pumpDecodeRequest]. *)
Definition pumpDecodeRequest (d : V4L2Decoder) (c : Client)
  : option (V4L2Decoder * Client) :=
  if negb (State_eqb (mState d) Decoding) then Some (d, c)
  else pumpDecodeRequest_loop (mDecodeRequests d) d c.

(** [V4L2Decoder::decode]. *)
Definition decode (buf : ConstBitstreamBuffer) (decodeCb : DecodeCB)
    (d : V4L2Decoder) (c : Client) : option (V4L2Decoder * Client) :=
  if State_eqb (mState d) Error then
    Some (d, postTask cbs (TaskRunDecodeCb decodeCb kError) c)
  else
    let d1 := if State_eqb (mState d) Idle then setState Decoding d else d in
    pumpDecodeRequest
      (set_mDecodeRequests
         (mDecodeRequests d1 ++ [mkRequest (Some buf) decodeCb]) d1) c.

(** [V4L2Decoder::drain]. *)
Definition drain (drainCb : DecodeCB) (d : V4L2Decoder) (c : Client)
  : option (V4L2Decoder * Client) :=
  match mState d with
  | Idle => Some (d, postTask cbs (TaskRunDecodeCb drainCb kOk) c)
  | Decoding =>
      pumpDecodeRequest
        (set_mDecodeRequests
           (mDecodeRequests d ++ [mkRequest None drainCb]) d) c
  | Draining | Error =>
      Some (d, postTask cbs (TaskRunDecodeCb drainCb kError) c)
  end.

(** [V4L2Decoder::tryFetchVideoFrame]. *)
Definition tryFetchVideoFrame (d : V4L2Decoder) (c : Client)
  : option (V4L2Decoder * Client) :=
  match mVideoFramePool d with
  | None => onError d c
  | Some pool =>
      if freeBuffersCount (outputQueue d) =? 0 then Some (d, c)
      else
        let (_, pool1) := getVideoFrame pool in
        Some (set_mVideoFramePool (Some pool1) d, c)
  end.

(** Runs every callback of [mPendingDecodeCbs], in key order. *)
Fixpoint runPendingDecodeCbs (cs : OMap.t DecodeCB) (status : DecodeStatus)
    (c : Client) : option Client :=
  match cs with
  | [] => Some c
  | (_, cb) :: cs' =>
      c1 <- runDecodeCb cbs cb status c ;;
      runPendingDecodeCbs cs' status c1
  end.

(** [V4L2Decoder::flush]. *)
Definition flush (d : V4L2Decoder) (c : Client)
  : option (V4L2Decoder * Client) :=
  if State_eqb (mState d) Idle then Some (d, c)
  else if State_eqb (mState d) Error then Some (d, c)
  else
    (* Call all pending callbacks. *)
    c1 <- runPendingDecodeCbs (mPendingDecodeCbs d) kAborted c ;;
    let d1 := set_mPendingDecodeCbs OMap.empty d in
    '(d2, c2) <- match mDrainCb d1 with
                 | Some cb =>
                     c' <- runDecodeCb cbs cb kAborted c1 ;;
                     Some (set_mDrainCb None d1, c')
                 | None => Some (d1, c1)
                 end ;;
    (* Streamoff both V4L2 queues to drop input and output buffers. *)
    let isOutputStreaming := isStreaming (outputQueue d2) in
    let d3 := stopPolling d2 in
    let d4 := set_outputQueue (streamoff (outputQueue d3)) d3 in
    let d5 := set_mFrameAtDevice OMap.empty d4 in
    let d6 := set_inputQueue (streamoff (inputQueue d5)) d5 in
    (* Streamon both V4L2 queues. *)
    let d7 := snd (streamonInput d6) in
    let d8 := if isOutputStreaming then snd (streamonOutput d7) else d7 in
    '(d9, c3) <- match mVideoFramePool d8 with
                 | Some _ => tryFetchVideoFrame d8 c2
                 | None => Some (d8, c2)
                 end ;;
    let (polling, d10) := startPolling d9 in
    if negb polling then onError d10 c3
    else Some (setState Idle d10, c3).

(** [V4L2Decoder::getVisibleRect]: the rectangle and the device after the
    one or two ioctls. *)
Definition rectOfV4L2 (r : v4l2_rect) : Rect :=
  mkRect (r_left r) (r_top r)
         (to_int32 (r_left r + r_width r)) (to_int32 (r_top r + r_height r)).

Definition checkVisibleRect (codedSize : Size) (visible_rect : v4l2_rect)
  : Rect :=
  let rect := rectOfV4L2 visible_rect in
  if negb (contains (Rect_wh (width codedSize) (height codedSize)) rect)
  then Rect_wh (width codedSize) (height codedSize)
  else if Rect_isEmpty rect
  then Rect_wh (width codedSize) (height codedSize)
  else rect.

Definition getVisibleRect (codedSize : Size) (dev : V4L2Device)
  : Rect * V4L2Device :=
  match ioctl_G_SELECTION dev with
  | (Some r, dev1) => (checkVisibleRect codedSize r, dev1)
  | (None, dev1) =>
      (* Fallback to VIDIOC_G_CROP *)
      match ioctl_G_CROP dev1 with
      | (None, dev2) =>
          (Rect_wh (width codedSize) (height codedSize), dev2)
      | (Some r, dev2) => (checkVisibleRect codedSize r, dev2)
      end
  end.

(** [V4L2Decoder::getFormatInfo] and [V4L2Decoder::getNumOutputBuffers]
    ([ctrl.value + kNumExtraOutputBuffers] is computed on [size_t]). *)
Definition getFormatInfo (d : V4L2Decoder) : option Size * V4L2Decoder :=
  let (r, dev) := ioctl_G_FMT (mDevice d) in (r, set_mDevice dev d).
Definition getNumOutputBuffers (d : V4L2Decoder) : option Z * V4L2Decoder :=
  let (r, dev) := ioctl_G_CTRL (mDevice d) in
  (match r with
   | Some v => Some (to_uint64 (v + kNumExtraOutputBuffers))
   | None => None
   end, set_mDevice dev d).

(** [V4L2Decoder::setupOutputFormat]: the first supported pixel format
    the output queue accepts. *)
Fixpoint setupOutputFormat_loop (pixfmts : list Z) (d : V4L2Decoder)
  : bool * V4L2Decoder :=
  match pixfmts with
  | [] => (false, d)
  | pixfmt :: rest =>
      if negb (existsb (Z.eqb pixfmt) kSupportedOutputFourccs)
      then setupOutputFormat_loop rest d
      else
        let (a, dev) := request (mDevice d) in
        if ok a then (true, set_mDevice dev d)
        else setupOutputFormat_loop rest (set_mDevice dev d)
  end.
Definition setupOutputFormat (sz : Size) (d : V4L2Decoder)
  : bool * V4L2Decoder :=
  let (a, dev) := request (mDevice d) in
  setupOutputFormat_loop (pixelformats a) (set_mDevice dev d).

(** [V4L2Decoder::dequeueResolutionChangeEvent]. *)
Fixpoint dequeueResolutionChangeEvent_loop (evs : list v4l2_event)
  : bool * list v4l2_event :=
  match evs with
  | [] => (false, [])
  | ev :: rest =>
      if isSourceChange ev && hasResolutionChange ev then (true, rest)
      else dequeueResolutionChangeEvent_loop rest
  end.
Definition dequeueResolutionChangeEvent (d : V4L2Decoder)
  : bool * V4L2Decoder :=
  let (found, rest) :=
    dequeueResolutionChangeEvent_loop (pendingEvents (mDevice d)) in
  (found, set_mDevice (set_pendingEvents rest (mDevice d)) d).

(** [V4L2Decoder::changeResolution]. *)
Definition changeResolution (d : V4L2Decoder) (c : Client)
  : option (bool * V4L2Decoder * Client) :=
  let (format, d1) := getFormatInfo d in
  let (numOutputBuffers, d2) := getNumOutputBuffers d1 in
  match format, numOutputBuffers with
  | Some fmt, Some num =>
      let num := Z.max num (mMinNumOutputBuffers d2) in
      let codedSize := mkSize (width fmt) (height fmt) in
      let (formatSet, d3) := setupOutputFormat codedSize d2 in
      if negb formatSet then Some (false, d3, c)
      else
        let (adjustedFormat, d4) := getFormatInfo d3 in
        match adjustedFormat with
        | None => Some (false, d4, c)
        | Some adj =>
            let d5 := set_mCodedSize (mkSize (width adj) (height adj)) d4 in
            let (rect, dev6) := getVisibleRect (mCodedSize d5) (mDevice d5) in
            let d6 := set_mVisibleRect rect (set_mDevice dev6 d5) in
            if Size_isEmpty (mCodedSize d6) then Some (false, d6, c)
            else
              let d7 :=
                set_outputQueue
                  (deallocateBuffers (streamoff (outputQueue d6))) d6 in
              let d8 :=
                set_mBlockIdToV4L2Id OMap.empty
                  (set_mFrameAtDevice OMap.empty d7) in
              let (a, dev9) := request (mDevice d8) in
              let adjustedNumOutputBuffers := value a in
              let d9 :=
                set_mDevice
                  (set_mOutputQueue
                     (allocateBuffers adjustedNumOutputBuffers
                        (mOutputQueue dev9)) dev9) d8 in
              if adjustedNumOutputBuffers =? 0 then Some (false, d9, c)
              else
                let (streaming, d10) := streamonOutput d9 in
                if negb streaming then Some (false, d10, c)
                else
                  let d11 := set_mVideoFramePool None d10 in
                  '(pool, c1) <- mGetPoolCb cbs (mCodedSize d11)
                                   YCBCR_420_888 adjustedNumOutputBuffers c ;;
                  let d12 := set_mVideoFramePool pool d11 in
                  match pool with
                  | None => Some (false, d12, c1)
                  | Some _ =>
                      '(d13, c2) <- tryFetchVideoFrame d12 c1 ;;
                      Some (true, d13, c2)
                  end
        end
  | _, _ => Some (false, d2, c)
  end.

(** [V4L2Decoder::onVideoFrameReady]; the pool has answered its one
    outstanding request when it runs this callback. *)
Definition onVideoFrameReady (frameWithBlockId : option (VideoFrame * Z))
    (d : V4L2Decoder) (c : Client) : option (V4L2Decoder * Client) :=
  let d := set_mVideoFramePool
             (match mVideoFramePool d with
              | Some _ => Some (mkPool false)
              | None => None
              end) d in
  match frameWithBlockId with
  | None => onError d c
  | Some (frame, blockId) =>
      let (outputBuffer, d1) :=
        match OMap.find blockId (mBlockIdToV4L2Id d) with
        | Some v4l2BufferId =>
            (getFreeBufferById v4l2BufferId (outputQueue d), d)
        | None =>
            if OMap.size (mBlockIdToV4L2Id d)
               <? allocatedBuffersCount (outputQueue d)
            then
              let v4l2BufferId := OMap.size (mBlockIdToV4L2Id d) in
              let d' :=
                set_mBlockIdToV4L2Id
                  (fst (OMap.insert blockId v4l2BufferId
                          (mBlockIdToV4L2Id d))) d in
              (getFreeBufferById v4l2BufferId (outputQueue d'), d')
            else (None, d)
        end in
      match outputBuffer with
      | None => onError d1 c
      | Some (v4l2Id, q1) =>
          let (a, dev2) := request (mDevice (set_outputQueue q1 d1)) in
          let d2 :=
            set_mDevice
              (set_mOutputQueue
                 (queueDMABuf v4l2Id (ok a) (mOutputQueue dev2)) dev2) d1 in
          if negb (ok a) then onError d2 c
          else
            match OMap.find v4l2Id (mFrameAtDevice d2) with
            | Some _ => onError d2 c
            | None =>
                tryFetchVideoFrame
                  (set_mFrameAtDevice
                     (fst (OMap.insert v4l2Id frame (mFrameAtDevice d2)))
                     d2) c
            end
      end
  end.

(** How a dequeue loop of [serviceDeviceTask] ends: it falls through with
    its "dequeued" flag, or the function has returned from inside it. *)
Inductive LoopExit := LoopDone (dequeued : bool) | LoopReturned.

(** The input loop of [serviceDeviceTask]; [ready] is the list of
    buffers the driver has ready on the input queue, one of which is
    consumed by every call of [dequeueBuffer]. *)
Fixpoint serviceInputQueue (ready : list DqResult) (inputDequeued : bool)
    (d : V4L2Decoder) (c : Client)
  : option (LoopExit * V4L2Decoder * Client) :=
  if negb (Nat.ltb 0 (queuedBuffersCount (inputQueue d)))
  then Some (LoopDone inputDequeued, d, c)
  else
    match ready, dequeueBuffer (inputQueue d) with
    | _ :: rest, (false, _, q1) =>
        '(d1, c1) <- onError (set_inputQueue q1 d) c ;;
        Some (LoopReturned, d1, c1)
    | _ :: rest, (true, Some dequeuedBuffer, q1) =>
        let d1 := set_inputQueue q1 d in
        (* Run the corresponding decode callback. *)
        let id := to_int32 (timestampSec dequeuedBuffer) in
        '(d2, c2) <- match OMap.find id (mPendingDecodeCbs d1) with
                     | None => Some (d1, c)
                     | Some cb =>
                         c' <- runDecodeCb cbs cb kOk c ;;
                         Some (set_mPendingDecodeCbs
                                 (OMap.erase id (mPendingDecodeCbs d1)) d1,
                               c')
                     end ;;
        serviceInputQueue rest true
          (set_inputQueue
             (releaseBuffer (bufferId dequeuedBuffer) (inputQueue d2)) d2)
          c2
    | _, (_, _, q1) =>
        Some (LoopDone inputDequeued, set_inputQueue q1 d, c)
    end.

(** The output loop of [serviceDeviceTask]. *)
Fixpoint serviceOutputQueue (ready : list DqResult) (outputDequeued : bool)
    (d : V4L2Decoder) (c : Client)
  : option (LoopExit * V4L2Decoder * Client) :=
  if negb (Nat.ltb 0 (queuedBuffersCount (outputQueue d)))
  then Some (LoopDone outputDequeued, d, c)
  else
    match ready, dequeueBuffer (outputQueue d) with
    | _ :: rest, (false, _, q1) =>
        '(d1, c1) <- onError (set_outputQueue q1 d) c ;;
        Some (LoopReturned, d1, c1)
    | _ :: rest, (true, Some dequeuedBuffer, q1) =>
        let d1 := set_outputQueue q1 d in
        let bufferId := bufferId dequeuedBuffer in
        let bitstreamId := to_int32 (timestampSec dequeuedBuffer) in
        let bytesUsed := planeBytesUsed dequeuedBuffer in
        (* Get the corresponding VideoFrame of the dequeued buffer. *)
        frame <- OMap.find bufferId (mFrameAtDevice d1) ;;
        let d2 :=
          set_mFrameAtDevice (OMap.erase bufferId (mFrameAtDevice d1)) d1 in
        r <- (if 0 <? bytesUsed then
                c' <- mOutputCb cbs
                        (setVisibleRect (mVisibleRect d2)
                           (setBitstreamId bitstreamId frame)) c ;;
                Some (LoopDone true,
                      set_outputQueue
                        (releaseBuffer bufferId (outputQueue d2)) d2, c')
              else
                (* Recycle the empty buffer back to the output queue. *)
                let q2 := releaseBuffer bufferId (outputQueue d2) in
                '(outputBuffer, q3) <- getFreeBufferById bufferId q2 ;;
                let (a, dev4) := request (mDevice (set_outputQueue q3 d2)) in
                let d4 :=
                  set_mDevice
                    (set_mOutputQueue
                       (queueDMABuf outputBuffer (ok a) (mOutputQueue dev4))
                       dev4) d2 in
                if negb (ok a) then
                  '(d5, c5) <- onError d4 c ;;
                  Some (LoopReturned, d5, c5)
                else
                  Some (LoopDone true,
                        set_mFrameAtDevice
                          (fst (OMap.insert bufferId frame
                                  (mFrameAtDevice d4))) d4, c)) ;;
        match r with
        | (LoopReturned, d5, c5) => Some (LoopReturned, d5, c5)
        | (LoopDone _, d5, c5) =>
            '(d6, c6) <- match mDrainCb d5 with
                         | Some drainCb =>
                             if isLast dequeuedBuffer then
                               (* All buffers are drained. *)
                               let d' := snd (sendV4L2DecoderCmd true d5) in
                               c' <- runDecodeCb cbs drainCb kOk c5 ;;
                               Some (setState Idle (set_mDrainCb None d'),
                                     c')
                             else Some (d5, c5)
                         | None => Some (d5, c5)
                         end ;;
            serviceOutputQueue rest true d6 c6
        end
    | _, (_, _, q1) =>
        Some (LoopDone outputDequeued, set_outputQueue q1 d, c)
    end.

(** [V4L2Decoder::serviceDeviceTask]. *)
Definition serviceDeviceTask (event : bool) (d : V4L2Decoder) (c : Client)
  : option (V4L2Decoder * Client) :=
  if State_eqb (mState d) Error then Some (d, c)
  else
    (* Dequeue output and input queue. *)
    r1 <- serviceInputQueue (readyToDequeue (inputQueue d)) false d c ;;
    match r1 with
    | (LoopReturned, d1, c1) => Some (d1, c1)
    | (LoopDone inputDequeued, d1, c1) =>
        r2 <- serviceOutputQueue (readyToDequeue (outputQueue d1)) false
                d1 c1 ;;
        match r2 with
        | (LoopReturned, d2, c2) => Some (d2, c2)
        | (LoopDone outputDequeued, d2, c2) =>
            (* Handle resolution change event. *)
            r3 <- (if event then
                     let (changed, d3) := dequeueResolutionChangeEvent d2 in
                     if changed then
                       '(res, c3) <- changeResolution d3 c2 ;;
                       let (resolved, d4) := res in
                       if negb resolved then
                         '(d5, c5) <- onError d4 c3 ;;
                         Some (LoopReturned, d5, c5)
                       else Some (LoopDone true, d4, c3)
                     else Some (LoopDone true, d3, c2)
                   else Some (LoopDone true, d2, c2)) ;;
            match r3 with
            | (LoopReturned, d5, c5) => Some (d5, c5)
            | (LoopDone _, d5, c5) =>
                let c6 := if inputDequeued
                          then postTask cbs TaskPumpDecodeRequest c5
                          else c5 in
                let c7 := if outputDequeued
                          then postTask cbs TaskTryFetchVideoFrame c6
                          else c6 in
                Some (d5, c7)
            end
        end
    end.
End Decoder.

Arguments DecodeRequest : clear implicits.
Arguments DecoderTask : clear implicits.
Arguments V4L2Decoder : clear implicits.
Arguments Callbacks : clear implicits.

(** ** [V4L2DecodeComponent.cpp]: the Codec2 work model *)

(** [C2FrameData::flags_t] (a [uint32_t] bit mask). *)
Definition FLAG_DROP_FRAME : Z := Z.shiftl 1 0.
Definition FLAG_END_OF_STREAM : Z := Z.shiftl 1 1.
Definition FLAG_CODEC_CONFIG : Z := Z.shiftl 1 31.

(** [flags & FLAG] used as a condition. *)
Definition has_flag (flags flag : Z) : bool := negb (Z.land flags flag =? 0).

(** [c2_cntr64_t]: a 64-bit counter whose order tolerates wrap-around. *)
Definition cntr64_lt (a b : Z) : bool :=
  (to_uint64 (b - a) <? 2 ^ 63) && negb (a =? b).

Record C2WorkOrdinalStruct := mkOrdinal { timestamp : Z; frameIndex : Z }.

Record ColorAspects := mkColorAspects
  { range : Z; primaries : Z; transfer : Z; matrix : Z }.

(** A linear block of compressed data; [codedColorAspects] is what the NAL
    parser ([parseCodedColorAspects]) finds in its bytes. *)
Record C2ConstLinearBlock := mkLinearBlock
  { blockOffset : Z; blockSize : Z; blockFd : Z;
    codedColorAspects : option ColorAspects }.

(** An input [C2Buffer] and an output (graphic) [C2Buffer] with its info. *)
Record C2LinearBuffer := mkLinearBuffer
  { linearBlocks : list C2ConstLinearBlock }.
Record C2GraphicBuffer := mkGraphicBuffer
  { graphicBlock : VideoFrame; info : option ColorAspects }.

Record C2FrameData (B : Type) := mkFrameData
  { flags : Z; ordinal : C2WorkOrdinalStruct; buffers : list B }.
Arguments mkFrameData {B}.
Arguments flags {B}.
Arguments ordinal {B}.
Arguments buffers {B}.

Record C2Worklet := mkWorklet { output : C2FrameData C2GraphicBuffer }.

(** [C2Work]; an input buffer is a [shared_ptr], null once released. *)
Record C2Work := mkWork
  { input : C2FrameData (option C2LinearBuffer);
    worklets : list C2Worklet;
    result : c2_status_t;
    workletsProcessed : Z }.

Definition set_flags {B} (f : Z) (fd : C2FrameData B) : C2FrameData B :=
  mkFrameData f (ordinal fd) (buffers fd).
Definition set_ordinal {B} (o : C2WorkOrdinalStruct) (fd : C2FrameData B) :=
  mkFrameData (flags fd) o (buffers fd).
Definition set_buffers {B} (l : list B) (fd : C2FrameData B) :=
  mkFrameData (flags fd) (ordinal fd) l.
Definition set_input (i : C2FrameData (option C2LinearBuffer)) (w : C2Work) :=
  mkWork i (worklets w) (result w) (workletsProcessed w).
Definition set_worklets (l : list C2Worklet) (w : C2Work) :=
  mkWork (input w) l (result w) (workletsProcessed w).
Definition set_result (r : c2_status_t) (w : C2Work) :=
  mkWork (input w) (worklets w) r (workletsProcessed w).
Definition set_workletsProcessed (n : Z) (w : C2Work) :=
  mkWork (input w) (worklets w) (result w) n.

(** [work->input.buffers.front().reset()]: undefined on an empty list. *)
Definition reset_front_input (w : C2Work) : option C2Work :=
  match buffers (input w) with
  | [] => None
  | _ :: rest => Some (set_input (set_buffers (None :: rest) (input w)) w)
  end.

(** [f] applied to the output of [work->worklets.front()]: undefined on an
    empty list. *)
Definition map_front_output
    (f : C2FrameData C2GraphicBuffer -> C2FrameData C2GraphicBuffer)
    (w : C2Work) : option C2Work :=
  match worklets w with
  | [] => None
  | wl :: rest => Some (set_worklets (mkWorklet (f (output wl)) :: rest) w)
  end.

(** Mask against 30 bits to avoid wraparound on signed integer. *)
Definition frameIndexToBitstreamId (frameIndex : Z) : Z :=
  Z.land (to_uint64 frameIndex) 1073741823.

(** [isWorkDone]. *)
Definition isWorkDone (work : C2Work) : option bool :=
  (* Exception: EOS work should be processed by reportEOSWork(). *)
  if has_flag (flags (input work)) FLAG_END_OF_STREAM then Some false
  else
    front <- hd_error (buffers (input work)) ;;
    worklet <- hd_error (worklets work) ;;
    let inputReleased := match front with None => true | Some _ => false end in
    let outputReturned :=
      negb (match buffers (output worklet) with [] => true | _ => false end) in
    let ignoreOutput :=
      has_flag (flags (input work)) FLAG_CODEC_CONFIG ||
      has_flag (flags (output worklet)) FLAG_DROP_FRAME in
    Some (inputReleased && (outputReturned || ignoreOutput)).

(** [isNoShowFrameWork]. *)
Definition isNoShowFrameWork (work : C2Work) (currOrdinal : C2WorkOrdinalStruct)
  : option bool :=
  worklet <- hd_error (worklets work) ;;
  let smallOrdinal :=
    cntr64_lt (timestamp (ordinal (input work))) (timestamp currOrdinal) &&
    cntr64_lt (frameIndex (ordinal (input work))) (frameIndex currOrdinal) in
  let outputReturned :=
    negb (match buffers (output worklet) with [] => true | _ => false end) in
  let specialWork :=
    has_flag (flags (input work)) FLAG_END_OF_STREAM ||
    has_flag (flags (input work)) FLAG_CODEC_CONFIG ||
    has_flag (flags (output worklet)) FLAG_DROP_FRAME in
  Some (smallOrdinal && negb outputReturned && negb specialWork).

(** ** [V4L2DecodeComponent.cpp]: the component *)

(** [V4L2DecodeComponent::ComponentState]. *)
Inductive ComponentState := STOPPED | RUNNING | RELEASED | ERROR.

Definition ComponentState_eqb (a b : ComponentState) : bool :=
  match a, b with
  | STOPPED, STOPPED | RUNNING, RUNNING | RELEASED, RELEASED
  | ERROR, ERROR => true
  | _, _ => false
  end.

(** The decode callbacks the component binds for the decoder:
    [onDecodeDone] with a bitstream id, and [onDrainDone]. *)
Inductive ComponentCb := OnDecodeDone (bitstreamId : Z) | OnDrainDone.

(** What sits in the queue of the decoder task runner. *)
Inductive Task :=
| DecoderPosted (t : DecoderTask ComponentCb)
| TaskPumpPendingWorks
| TaskQueueTask (work : C2Work)
| TaskFlushTask
| TaskDrainTask.

(** A [C2Component::Listener], known by its identity, and the calls it
    receives. *)
Definition Listener := Z.
Inductive ListenerCall :=
| onWorkDone_nb (l : Listener) (workItems : list C2Work)
| onError_nb (l : Listener) (errorCode : c2_status_t).

(** What the collaborators of the component answer: the interface
    ([mIntfImpl]), the block pool lookup and the frame pool factory. *)
Record Collaborators := mkCollaborators
  { getVideoCodec : option VideoCodec;
    configStatus : c2_status_t;                 (* mIntfImpl->config *)
    queryColorAspects : option ColorAspects;    (* [Some] when it is C2_OK *)
    blockPoolStatus : c2_status_t;              (* GetCodec2BlockPool *)
    createdPool : option VideoFramePool         (* VideoFramePool::Create *) }.

Record Component := mkComponent
  { mComponentState : ComponentState;
    mListener : option Listener;
    mPendingWorks : list C2Work;
    mWorksAtDecoder : OMap.t C2Work;
    mOutputBitstreamIds : list Z;
    mIsDraining : bool;
    mIsSecure : bool;
    mCurrentColorAspects : option ColorAspects;
    mPendingColorAspectsChange : bool;
    mPendingColorAspectsChangeFrameIndex : Z;
    mIntfImpl : Collaborators;
    decoderThreadIsRunning : bool;    (* mDecoderThread.IsRunning() *)
    sharedThisIsAlive : bool;         (* weak_from_this().lock() != nullptr *)
    postedTasks : list Task;          (* tasks posted and not yet run *)
    listenerCalls : list ListenerCall (* calls made to the listener so far *) }.

Definition set_mComponentState (s : ComponentState) (c : Component) :=
  mkComponent s (mListener c) (mPendingWorks c) (mWorksAtDecoder c)
    (mOutputBitstreamIds c) (mIsDraining c) (mIsSecure c)
    (mCurrentColorAspects c) (mPendingColorAspectsChange c)
    (mPendingColorAspectsChangeFrameIndex c) (mIntfImpl c)
    (decoderThreadIsRunning c) (sharedThisIsAlive c) (postedTasks c)
    (listenerCalls c).
Definition set_mListener (l : option Listener) (c : Component) :=
  mkComponent (mComponentState c) l (mPendingWorks c) (mWorksAtDecoder c)
    (mOutputBitstreamIds c) (mIsDraining c) (mIsSecure c)
    (mCurrentColorAspects c) (mPendingColorAspectsChange c)
    (mPendingColorAspectsChangeFrameIndex c) (mIntfImpl c)
    (decoderThreadIsRunning c) (sharedThisIsAlive c) (postedTasks c)
    (listenerCalls c).
Definition set_mPendingWorks (l : list C2Work) (c : Component) :=
  mkComponent (mComponentState c) (mListener c) l (mWorksAtDecoder c)
    (mOutputBitstreamIds c) (mIsDraining c) (mIsSecure c)
    (mCurrentColorAspects c) (mPendingColorAspectsChange c)
    (mPendingColorAspectsChangeFrameIndex c) (mIntfImpl c)
    (decoderThreadIsRunning c) (sharedThisIsAlive c) (postedTasks c)
    (listenerCalls c).
Definition set_mWorksAtDecoder (m : OMap.t C2Work) (c : Component) :=
  mkComponent (mComponentState c) (mListener c) (mPendingWorks c) m
    (mOutputBitstreamIds c) (mIsDraining c) (mIsSecure c)
    (mCurrentColorAspects c) (mPendingColorAspectsChange c)
    (mPendingColorAspectsChangeFrameIndex c) (mIntfImpl c)
    (decoderThreadIsRunning c) (sharedThisIsAlive c) (postedTasks c)
    (listenerCalls c).
Definition set_mOutputBitstreamIds (l : list Z) (c : Component) :=
  mkComponent (mComponentState c) (mListener c) (mPendingWorks c)
    (mWorksAtDecoder c) l (mIsDraining c) (mIsSecure c)
    (mCurrentColorAspects c) (mPendingColorAspectsChange c)
    (mPendingColorAspectsChangeFrameIndex c) (mIntfImpl c)
    (decoderThreadIsRunning c) (sharedThisIsAlive c) (postedTasks c)
    (listenerCalls c).
Definition set_mIsDraining (b : bool) (c : Component) :=
  mkComponent (mComponentState c) (mListener c) (mPendingWorks c)
    (mWorksAtDecoder c) (mOutputBitstreamIds c) b (mIsSecure c)
    (mCurrentColorAspects c) (mPendingColorAspectsChange c)
    (mPendingColorAspectsChangeFrameIndex c) (mIntfImpl c)
    (decoderThreadIsRunning c) (sharedThisIsAlive c) (postedTasks c)
    (listenerCalls c).
Definition set_mCurrentColorAspects (a : option ColorAspects) (c : Component) :=
  mkComponent (mComponentState c) (mListener c) (mPendingWorks c)
    (mWorksAtDecoder c) (mOutputBitstreamIds c) (mIsDraining c) (mIsSecure c)
    a (mPendingColorAspectsChange c)
    (mPendingColorAspectsChangeFrameIndex c) (mIntfImpl c)
    (decoderThreadIsRunning c) (sharedThisIsAlive c) (postedTasks c)
    (listenerCalls c).
Definition set_mPendingColorAspectsChange (b : bool) (c : Component) :=
  mkComponent (mComponentState c) (mListener c) (mPendingWorks c)
    (mWorksAtDecoder c) (mOutputBitstreamIds c) (mIsDraining c) (mIsSecure c)
    (mCurrentColorAspects c) b
    (mPendingColorAspectsChangeFrameIndex c) (mIntfImpl c)
    (decoderThreadIsRunning c) (sharedThisIsAlive c) (postedTasks c)
    (listenerCalls c).
Definition set_mPendingColorAspectsChangeFrameIndex (i : Z) (c : Component) :=
  mkComponent (mComponentState c) (mListener c) (mPendingWorks c)
    (mWorksAtDecoder c) (mOutputBitstreamIds c) (mIsDraining c) (mIsSecure c)
    (mCurrentColorAspects c) (mPendingColorAspectsChange c) i (mIntfImpl c)
    (decoderThreadIsRunning c) (sharedThisIsAlive c) (postedTasks c)
    (listenerCalls c).
Definition set_postedTasks (l : list Task) (c : Component) :=
  mkComponent (mComponentState c) (mListener c) (mPendingWorks c)
    (mWorksAtDecoder c) (mOutputBitstreamIds c) (mIsDraining c) (mIsSecure c)
    (mCurrentColorAspects c) (mPendingColorAspectsChange c)
    (mPendingColorAspectsChangeFrameIndex c) (mIntfImpl c)
    (decoderThreadIsRunning c) (sharedThisIsAlive c) l (listenerCalls c).
Definition set_listenerCalls (l : list ListenerCall) (c : Component) :=
  mkComponent (mComponentState c) (mListener c) (mPendingWorks c)
    (mWorksAtDecoder c) (mOutputBitstreamIds c) (mIsDraining c) (mIsSecure c)
    (mCurrentColorAspects c) (mPendingColorAspectsChange c)
    (mPendingColorAspectsChangeFrameIndex c) (mIntfImpl c)
    (decoderThreadIsRunning c) (sharedThisIsAlive c) (postedTasks c) l.

(** [mDecoderTaskRunner->PostTask] and a call of the listener. *)
Definition PostTask (t : Task) (c : Component) : Component :=
  set_postedTasks (postedTasks c ++ [t]) c.
Definition callListener (call : ListenerCall) (c : Component) : Component :=
  set_listenerCalls (listenerCalls c ++ [call]) c.

(** [V4L2DecodeComponent::reportError]. *)
Definition reportError (error : c2_status_t) (c : Component) : Component :=
  if ComponentState_eqb (mComponentState c) ERROR then c
  else
    let c1 := set_mComponentState ERROR c in
    match mListener c1 with
    | None => c1
    | Some l => callListener (onError_nb l error) c1
    end.

(** [V4L2DecodeComponent::reportWork]. *)
Definition reportWork (work : C2Work) (c : Component) : bool * Component :=
  match mListener c with
  | None => (false, c)
  | Some l => (true, callListener (onWorkDone_nb l [work]) c)
  end.

(** [V4L2DecodeComponent::reportWorkIfFinished]. *)
Definition reportWorkIfFinished (bitstreamId : Z) (c : Component)
  : option (bool * Component) :=
  (* EOS work will not be reported here. reportEOSWork() does it. *)
  if mIsDraining c && (OMap.size (mWorksAtDecoder c) =? 1) then Some (false, c)
  else
    match OMap.find bitstreamId (mWorksAtDecoder c) with
    | None => Some (true, c)
    | Some work =>
        done <- isWorkDone work ;;
        if negb done then Some (false, c)
        else
          let c1 :=
            set_mWorksAtDecoder
              (OMap.erase bitstreamId (mWorksAtDecoder c)) c in
          let work :=
            set_workletsProcessed
              (to_uint32 (Z.of_nat (length (worklets work))))
              (set_result C2_OK work) in
          worklet <- hd_error (worklets work) ;;
          work <- (if has_flag (flags (output worklet)) FLAG_DROP_FRAME
                   then map_front_output (set_flags 0) work
                   else Some work) ;;
          Some (reportWork work c1)
    end.

(** [V4L2DecodeComponent::pumpReportWork]; [ids] is
    [mOutputBitstreamIds c], the queue the loop pops from. *)
Fixpoint pumpReportWork_loop (ids : list Z) (c : Component)
  : option Component :=
  match ids with
  | [] => Some c
  | front :: rest =>
      '(reported, c1) <- reportWorkIfFinished front c ;;
      if negb reported then Some c1
      else pumpReportWork_loop rest (set_mOutputBitstreamIds rest c1)
  end.
Definition pumpReportWork (c : Component) : option Component :=
  pumpReportWork_loop (mOutputBitstreamIds c) c.

(** [V4L2DecodeComponent::reportAbandonedWorks]. *)
Definition abandon (work : C2Work) : C2Work :=
  let work := set_result C2_NOT_FOUND work in
  match buffers (input work) with
  | [] => work
  | _ :: rest => set_input (set_buffers (None :: rest) (input work)) work
  end.

Definition reportAbandonedWorks (c : Component) : Component :=
  let abandonedWorks := mPendingWorks c ++ OMap.values (mWorksAtDecoder c) in
  let c1 := set_mWorksAtDecoder OMap.empty (set_mPendingWorks [] c) in
  let abandonedWorks := map abandon abandonedWorks in
  match abandonedWorks with
  | [] => c1
  | _ :: _ =>
      match mListener c1 with
      | None => c1
      | Some l => callListener (onWorkDone_nb l abandonedWorks) c1
      end
  end.

(** [std::find_if] over the works at the decoder, in key order. *)
Fixpoint find_if (p : C2Work -> bool) (m : OMap.t C2Work)
  : option (Z * C2Work) :=
  match m with
  | [] => None
  | (k, w) :: m' => if p w then Some (k, w) else find_if p m'
  end.

(** [V4L2DecodeComponent::reportEOSWork]. *)
Definition reportEOSWork (c : Component) : option (bool * Component) :=
  match find_if (fun w => has_flag (flags (input w)) FLAG_END_OF_STREAM)
                (mWorksAtDecoder c) with
  | None => Some (false, c)
  | Some (k, eosWork) =>
      let c1 := set_mWorksAtDecoder (OMap.erase k (mWorksAtDecoder c)) c in
      let eosWork :=
        set_workletsProcessed
          (to_uint32 (Z.of_nat (length (worklets eosWork))))
          (set_result C2_OK eosWork) in
      eosWork <- map_front_output (set_flags FLAG_END_OF_STREAM) eosWork ;;
      let eosWork :=
        match buffers (input eosWork) with
        | [] => eosWork
        | _ :: rest =>
            set_input (set_buffers (None :: rest) (input eosWork)) eosWork
        end in
      let c2 := match mWorksAtDecoder c1 with
                | [] => c1
                | _ :: _ => reportAbandonedWorks c1
                end in
      Some (reportWork eosWork c2)
  end.

(** [V4L2DecodeComponent::onDecodeDone]; [it] is dereferenced whatever the
    status, so an id that is not in [mWorksAtDecoder] is undefined. *)
Definition onDecodeDone (bitstreamId : Z) (status : DecodeStatus)
    (c : Component) : option Component :=
  work <- OMap.find bitstreamId (mWorksAtDecoder c) ;;
  match status with
  | kAborted =>
      work <- reset_front_input work ;;
      work <- map_front_output
                (fun o => set_flags (Z.land (flags o) FLAG_DROP_FRAME) o)
                work ;;
      let c1 :=
        set_mWorksAtDecoder
          (OMap.update bitstreamId work (mWorksAtDecoder c)) c in
      let c2 :=
        set_mOutputBitstreamIds (mOutputBitstreamIds c1 ++ [bitstreamId]) c1 in
      pumpReportWork c2
  | kError => Some (reportError C2_CORRUPTED c)
  | kOk =>
      (* Release the input buffer. *)
      work <- reset_front_input work ;;
      let c1 :=
        set_mWorksAtDecoder
          (OMap.update bitstreamId work (mWorksAtDecoder c)) c in
      let c2 :=
        if has_flag (flags (input work)) FLAG_CODEC_CONFIG
        then set_mOutputBitstreamIds
               (mOutputBitstreamIds c1 ++ [bitstreamId]) c1
        else c1 in
      pumpReportWork c2
  end.

(** [V4L2DecodeComponent::onDrainDone]. *)
Definition onDrainDone (status : DecodeStatus) (c : Component)
  : option Component :=
  match status with
  | kAborted => Some c
  | kError => Some (reportError C2_CORRUPTED c)
  | kOk =>
      let c1 := set_mIsDraining false c in
      '(reported, c2) <- reportEOSWork c1 ;;
      if negb reported then Some (reportError C2_CORRUPTED c2)
      else Some (PostTask TaskPumpPendingWorks c2)
  end.

(** [V4L2DecodeComponent::detectNoShowFrameWorksAndReportIfFinished]: the
    detection loop, then the reports. *)
Fixpoint detectNoShowFrameWorks (m : OMap.t C2Work)
    (currOrdinal : C2WorkOrdinalStruct) : option (OMap.t C2Work * list Z) :=
  match m with
  | [] => Some ([], [])
  | (bitstreamId, work) :: m' =>
      noShow <- isNoShowFrameWork work currOrdinal ;;
      work <- (if noShow
               then map_front_output (set_flags FLAG_DROP_FRAME) work
               else Some work) ;;
      '(m1, ids) <- detectNoShowFrameWorks m' currOrdinal ;;
      Some ((bitstreamId, work) :: m1,
            if noShow then bitstreamId :: ids else ids)
  end.

Fixpoint reportEachIfFinished (ids : list Z) (c : Component)
  : option Component :=
  match ids with
  | [] => Some c
  | bitstreamId :: rest =>
      '(_, c1) <- reportWorkIfFinished bitstreamId c ;;
      reportEachIfFinished rest c1
  end.

Definition detectNoShowFrameWorksAndReportIfFinished
    (currOrdinal : C2WorkOrdinalStruct) (c : Component) : option Component :=
  '(m1, noShowFrameBitstreamIds) <-
     detectNoShowFrameWorks (mWorksAtDecoder c) currOrdinal ;;
  reportEachIfFinished noShowFrameBitstreamIds (set_mWorksAtDecoder m1 c).

(** [V4L2DecodeComponent::onOutputFrameReady]. *)
Definition onOutputFrameReady (frame : VideoFrame) (c : Component)
  : option Component :=
  let bitstreamId := frameBitstreamId frame in
  match OMap.find bitstreamId (mWorksAtDecoder c) with
  | None => Some (reportError C2_CORRUPTED c)
  | Some work =>
      let c1 :=
        if mPendingColorAspectsChange c &&
           (mPendingColorAspectsChangeFrameIndex c
              <=? to_uint64 (frameIndex (ordinal (input work))))
        then
          set_mPendingColorAspectsChange false
            (match queryColorAspects (mIntfImpl c) with
             | Some a => set_mCurrentColorAspects (Some a) c
             | None => c
             end)
        else c in
      let buffer := mkGraphicBuffer frame (mCurrentColorAspects c1) in
      work <- map_front_output
                (fun o => set_buffers (buffers o ++ [buffer]) o) work ;;
      let c2 :=
        set_mWorksAtDecoder
          (OMap.update bitstreamId work (mWorksAtDecoder c1)) c1 in
      (* Check no-show frame by timestamps for VP8/VP9 cases. *)
      c3 <- (match getVideoCodec (mIntfImpl c2) with
             | Some VP8 | Some VP9 =>
                 detectNoShowFrameWorksAndReportIfFinished
                   (ordinal (input work)) c2
             | _ => Some c2
             end) ;;
      pumpReportWork
        (set_mOutputBitstreamIds (mOutputBitstreamIds c3 ++ [bitstreamId]) c3)
  end.

(** [V4L2DecodeComponent::getVideoFramePool]. *)
Definition kMaximumSupportedArea : Z := 4096 * 4096.

Definition getVideoFramePool (sz : Size) (pixelFormat : HalPixelFormat)
    (numBuffers : Z) (c : Component) : option VideoFramePool * Component :=
  if negb (sharedThisIsAlive c) then (None, c)
  else if kMaximumSupportedArea <? value_or (getArea sz) INT_MAX then
    (None, reportError C2_BAD_VALUE c)
  else
    let status := blockPoolStatus (mIntfImpl c) in
    if negb (c2_status_eqb status C2_OK) then (None, reportError status c)
    else (createdPool (mIntfImpl c), c).

(** The callbacks [startTask] hands to [V4L2Decoder::Create], and the
    decode callbacks bound in [pumpPendingWorks] and [drainTask]. *)
Definition componentCallbacks : Callbacks ComponentCb Component :=
  mkCallbacks
    (fun cb status c =>
       match cb with
       | OnDecodeDone bitstreamId => onDecodeDone bitstreamId status c
       | OnDrainDone => onDrainDone status c
       end)
    onOutputFrameReady
    (fun c => Some (reportError C2_CORRUPTED c))
    (fun sz pixelFormat numBuffers c =>
       Some (getVideoFramePool sz pixelFormat numBuffers c))
    (fun t c => PostTask (DecoderPosted t) c).

(** The decoder as the component owns it. *)
Definition Decoder := V4L2Decoder ComponentCb.

(** The loop of [V4L2DecodeComponent::pumpPendingWorks]; [works] is
    [mPendingWorks c], the queue the loop pops from. *)
Fixpoint pumpPendingWorks_loop (works : list C2Work) (d : Decoder)
    (c : Component) : option (Decoder * Component) :=
  match works with
  | [] => Some (d, c)
  | pendingWork :: rest =>
      if mIsDraining c then Some (d, c)
      else
        let c := set_mPendingWorks rest c in
        let bitstreamId :=
          frameIndexToBitstreamId (frameIndex (ordinal (input pendingWork))) in
        let isCSDWork := has_flag (flags (input pendingWork)) FLAG_CODEC_CONFIG in
        front <- hd_error (buffers (input pendingWork)) ;;
        let isEmptyWork := match front with None => true | Some _ => false end in
        let isEOSWork :=
          has_flag (flags (input pendingWork)) FLAG_END_OF_STREAM in
        let (works1, inserted) :=
          OMap.insert bitstreamId pendingWork (mWorksAtDecoder c) in
        let c := set_mWorksAtDecoder works1 c in
        r <- match front with
             | None => Some (false, d, c)
             | Some inputBuffer =>
                 (* [work] points to the work that was moved into the map:
                    it dangles when the insertion did not take place. *)
                 if negb inserted then None
                 else
                   linearBlock <- hd_error (linearBlocks inputBuffer) ;;
                   (* Color aspects of the CSD work of non-secure H264. *)
                   let parsed :=
                     if isCSDWork && negb (mIsSecure c) &&
                        match getVideoCodec (mIntfImpl c) with
                        | Some H264 => true
                        | _ => false
                        end
                     then codedColorAspects linearBlock
                     else None in
                   match parsed with
                   | Some _ =>
                       if negb (c2_status_eqb (configStatus (mIntfImpl c)) C2_OK)
                       then
                         Some (true, d,
                               reportError (configStatus (mIntfImpl c)) c)
                       else
                         let c :=
                           set_mPendingColorAspectsChangeFrameIndex
                             (to_uint64
                                (frameIndex (ordinal (input pendingWork))))
                             (set_mPendingColorAspectsChange true c) in
                         '(d1, c1) <-
                            decode componentCallbacks
                              (mkBitstreamBuffer bitstreamId
                                 (blockOffset linearBlock)
                                 (blockSize linearBlock) (blockFd linearBlock))
                              (OnDecodeDone bitstreamId) d c ;;
                         Some (false, d1, c1)
                   | None =>
                       '(d1, c1) <-
                          decode componentCallbacks
                            (mkBitstreamBuffer bitstreamId
                               (blockOffset linearBlock)
                               (blockSize linearBlock) (blockFd linearBlock))
                            (OnDecodeDone bitstreamId) d c ;;
                       Some (false, d1, c1)
                   end
             end ;;
        match r with
        | (true, d, c) => Some (d, c)      (* returned after reportError *)
        | (false, d, c) =>
            '(d, c) <- (if isEOSWork then
                          '(d1, c1) <- drain componentCallbacks OnDrainDone
                                         d c ;;
                          Some (d1, set_mIsDraining true c1)
                        else Some (d, c)) ;;
            (* Directly report the empty CSD work as finished. *)
            c <- (if isCSDWork && isEmptyWork
                  then '(_, c1) <- reportWorkIfFinished bitstreamId c ;;
                       Some c1
                  else Some c) ;;
            pumpPendingWorks_loop rest d c
        end
  end.

(** [V4L2DecodeComponent::pumpPendingWorks]. *)
Definition pumpPendingWorks (d : Decoder) (c : Component)
  : option (Decoder * Component) :=
  if negb (ComponentState_eqb (mComponentState c) RUNNING) then Some (d, c)
  else pumpPendingWorks_loop (mPendingWorks c) d c.

(** [V4L2DecodeComponent::queueTask]. *)
Definition queueTask (work : C2Work) (d : Decoder) (c : Component)
  : option (Decoder * Component) :=
  if negb (Z.of_nat (length (worklets work)) =? 1) ||
     (1 <? Z.of_nat (length (buffers (input work))))
  then
    let work := set_result C2_CORRUPTED work in
    Some (d, snd (reportWork work c))
  else
    work <- map_front_output
              (fun o => set_ordinal (ordinal (input work))
                          (set_buffers [] (set_flags 0 o))) work ;;
    match buffers (input work) with
    | [] =>
        (* A work with no input buffer should be EOS or CSD. *)
        if (Z.land (flags (input work)) FLAG_END_OF_STREAM =? 0) &&
           (Z.land (flags (input work)) FLAG_CODEC_CONFIG =? 0)
        then Some (d, reportError C2_BAD_VALUE c)
        else
          (* Emplace a nullptr to unify the check for work done. *)
          let work := set_input (set_buffers [None] (input work)) work in
          pumpPendingWorks d (set_mPendingWorks (mPendingWorks c ++ [work]) c)
    | _ :: _ =>
        pumpPendingWorks d (set_mPendingWorks (mPendingWorks c ++ [work]) c)
    end.

(** [V4L2DecodeComponent::flushTask]. *)
Definition flushTask (d : Decoder) (c : Component)
  : option (Decoder * Component) :=
  '(d1, c1) <- flush componentCallbacks d c ;;
  let c2 := reportAbandonedWorks c1 in
  (* Pending EOS work will be abandoned here due to component flush. *)
  Some (d1, set_mIsDraining false c2).

(** [f] applied to [l.back()]. *)
Fixpoint map_back {A} (f : A -> A) (l : list A) : list A :=
  match l with
  | [] => []
  | [x] => [f x]
  | x :: l' => x :: map_back f l'
  end.

(** [V4L2DecodeComponent::drainTask]. *)
Definition drainTask (d : Decoder) (c : Component)
  : option (Decoder * Component) :=
  match mPendingWorks c with
  | _ :: _ =>
      (* Set EOS flag at last queued work. *)
      Some (d,
            set_mPendingWorks
              (map_back
                 (fun w =>
                    set_input
                      (set_flags
                         (Z.lor (flags (input w)) FLAG_END_OF_STREAM)
                         (input w)) w)
                 (mPendingWorks c)) c)
  | [] =>
      match mWorksAtDecoder c with
      | _ :: _ =>
          (* Drain the pending works at the decoder. *)
          '(d1, c1) <- drain componentCallbacks OnDrainDone d c ;;
          Some (d1, set_mIsDraining true c1)
      | [] => Some (d, c)
      end
  end.

(** [V4L2DecodeComponent::setListenerTask] and
    [V4L2DecodeComponent::setListener_vb]; the caller of [setListener_vb]
    waits for the task it posts, so the task is run in place. *)
Definition setListenerTask (listener : option Listener) (c : Component)
  : Component :=
  set_mListener listener c.

Definition setListener_vb (listener : option Listener)
    (mayBlock : c2_blocking_t) (c : Component) : c2_status_t * Component :=
  let currentState := mComponentState c in
  if ComponentState_eqb currentState RELEASED ||
     (ComponentState_eqb currentState RUNNING &&
      match listener with Some _ => true | None => false end)
  then (C2_BAD_STATE, c)
  else if ComponentState_eqb currentState RUNNING &&
          match mayBlock with C2_MAY_BLOCK => false | _ => true end
  then (C2_BLOCKING, c)
  else if negb (decoderThreadIsRunning c)
  then (C2_OK, set_mListener listener c)
  else (C2_OK, setListenerTask listener c).

(** [V4L2DecodeComponent::queue_nb], [flush_sm] and [drain_nb]: they check
    the state and post the task. *)
Inductive flush_mode_t := FLUSH_COMPONENT | FLUSH_CHAIN.
Inductive drain_mode_t :=
  DRAIN_COMPONENT_WITH_EOS | DRAIN_COMPONENT_NO_EOS | DRAIN_CHAIN.

Definition queue_nb (items : list C2Work) (c : Component)
  : c2_status_t * Component :=
  if negb (ComponentState_eqb (mComponentState c) RUNNING)
  then (C2_BAD_STATE, c)
  else (C2_OK, fold_left (fun c w => PostTask (TaskQueueTask w) c) items c).

Definition flush_sm (mode : flush_mode_t) (c : Component)
  : c2_status_t * Component :=
  if negb (ComponentState_eqb (mComponentState c) RUNNING)
  then (C2_BAD_STATE, c)
  else match mode with
       | FLUSH_COMPONENT => (C2_OK, PostTask TaskFlushTask c)
       | _ => (C2_OMITTED, c)
       end.

Definition drain_nb (mode : drain_mode_t) (c : Component)
  : c2_status_t * Component :=
  if negb (ComponentState_eqb (mComponentState c) RUNNING)
  then (C2_BAD_STATE, c)
  else match mode with
       | DRAIN_CHAIN => (C2_OMITTED, c)
       | DRAIN_COMPONENT_NO_EOS => (C2_OK, c)
       | DRAIN_COMPONENT_WITH_EOS => (C2_OK, PostTask TaskDrainTask c)
       end.

(** One task of the decoder sequence. *)
Definition runTask (t : Task) (d : Decoder) (c : Component)
  : option (Decoder * Component) :=
  match t with
  | DecoderPosted (TaskRunDecodeCb cb status) =>
      c1 <- runDecodeCb componentCallbacks cb status c ;; Some (d, c1)
  | DecoderPosted TaskPumpDecodeRequest =>
      pumpDecodeRequest componentCallbacks d c
  | DecoderPosted TaskTryFetchVideoFrame =>
      tryFetchVideoFrame componentCallbacks d c
  | TaskPumpPendingWorks => pumpPendingWorks d c
  | TaskQueueTask work => queueTask work d c
  | TaskFlushTask => flushTask d c
  | TaskDrainTask => drainTask d c
  end.

(** ** A client that records what the decoder calls

    The decoder never looks at the state of its client, so its behaviour is
    told by the calls it makes.  This client keeps them, in order; its frame
    pool factory answers with [poolAnswer]. *)
Inductive ClientCall (DecodeCB : Type) :=
| Ran (cb : DecodeCB) (status : DecodeStatus)
| Posted (t : DecoderTask DecodeCB)
| OutputFrame (frame : VideoFrame)
| ErrorReported
| PoolRequested (sz : Size) (numBuffers : Z).
Arguments Ran {DecodeCB}.
Arguments Posted {DecodeCB}.
Arguments OutputFrame {DecodeCB}.
Arguments ErrorReported {DecodeCB}.
Arguments PoolRequested {DecodeCB}.

Definition recorder (DecodeCB : Type) (poolAnswer : option VideoFramePool)
  : Callbacks DecodeCB (list (ClientCall DecodeCB)) :=
  mkCallbacks
    (fun cb status calls => Some (calls ++ [Ran cb status]))
    (fun frame calls => Some (calls ++ [OutputFrame frame]))
    (fun calls => Some (calls ++ [ErrorReported]))
    (fun sz _ numBuffers calls =>
       Some (poolAnswer, calls ++ [PoolRequested sz numBuffers]))
    (fun t calls => calls ++ [Posted t]).


(** ** The specification's wording of some operations *)



(** The driver's answer to the [startPolling] of a flush that starts in
    [d]: the request for it comes after the [streamon] of the input queue
    and, when the output queue was streaming, the [streamon] of the output
    queue. *)
Definition pollingRestarts {DecodeCB} (d : V4L2Decoder DecodeCB) : bool :=
  ok (answers (mDevice d)
        (nextRequest (mDevice d) +
         (if isStreaming (outputQueue d) then 2 else 1))%nat).

(** [eos] is the work [found] as [reportEOSWork] hands it to the listener:
    result C2_OK, every worklet counted as processed, END_OF_STREAM as the
    flags of the output of the first worklet, the first input buffer (if
    any) released, and nothing else changed. *)
Definition reportedAsEOS (found eos : C2Work) : Prop :=
  result eos = C2_OK /\
  workletsProcessed eos = to_uint32 (Z.of_nat (length (worklets found))) /\
  flags (input eos) = flags (input found) /\
  ordinal (input eos) = ordinal (input found) /\
  buffers (input eos) =
    match buffers (input found) with
    | [] => []
    | _ :: rest => None :: rest
    end /\
  match worklets found, worklets eos with
  | first :: others, worklet :: others' =>
      flags (output worklet) = FLAG_END_OF_STREAM /\
      ordinal (output worklet) = ordinal (output first) /\
      buffers (output worklet) = buffers (output first) /\
      others' = others
  | _, _ => False
  end.

(** The done-check as the specification words it for a work whose first
    input buffer is [front] and whose first worklet is [worklet]: input
    released, and output present, or CSD, or DROP_FRAME. *)
Definition doneBySpec (work : C2Work) (front : option C2LinearBuffer)
    (worklet : C2Worklet) : Prop :=
  front = None /\
  (buffers (output worklet) <> [] \/
   Z.land (flags (input work)) FLAG_CODEC_CONFIG <> 0 \/
   Z.land (flags (output worklet)) FLAG_DROP_FRAME <> 0).

(** ** Executions of the decoder *)

(** A STOP command is safe when the device saw it with no buffer queued on
    the input queue. *)
Definition stopSeenWithEmptyInput (cmd : DecoderCmd) : Prop :=
  cmdIsStart cmd = false -> inputQueuedAtCmd cmd = 0%nat.

(** What the driver does on its own between two tasks: it finishes
    buffers, raises events and decides on its future answers.  The queue
    bookkeeping and the record of the commands it received stay. *)
Definition driverActs (dev dev' : V4L2Device) : Prop :=
  exists readyIn readyOut events future,
    dev' =
    mkDevice
      (mkQueue (allocatedBuffersCount (mInputQueue dev))
               (freeBuffers (mInputQueue dev))
               (queuedBuffersCount (mInputQueue dev))
               (isStreaming (mInputQueue dev)) readyIn)
      (mkQueue (allocatedBuffersCount (mOutputQueue dev))
               (freeBuffers (mOutputQueue dev))
               (queuedBuffersCount (mOutputQueue dev))
               (isStreaming (mOutputQueue dev)) readyOut)
      events (isPolling dev) (nextRequest dev) future
      (issuedDecoderCmds dev).

Section Executions.
Context {DecodeCB Client : Type}.
Variable cbs : Callbacks DecodeCB Client.

(** One step of an execution: a call of the decoder's interface, one of
    the tasks and callbacks it has registered, or activity of the driver or
    of the client in between. *)
Inductive DecoderStep
  : V4L2Decoder DecodeCB * Client -> V4L2Decoder DecodeCB * Client -> Prop :=
| step_decode buf cb d c s' :
    decode cbs buf cb d c = Some s' -> DecoderStep (d, c) s'
| step_drain cb d c s' :
    drain cbs cb d c = Some s' -> DecoderStep (d, c) s'
| step_flush d c s' :
    flush cbs d c = Some s' -> DecoderStep (d, c) s'
| step_pumpDecodeRequest d c s' :
    pumpDecodeRequest cbs d c = Some s' -> DecoderStep (d, c) s'
| step_serviceDeviceTask event d c s' :
    serviceDeviceTask cbs event d c = Some s' -> DecoderStep (d, c) s'
| step_tryFetchVideoFrame d c s' :
    tryFetchVideoFrame cbs d c = Some s' -> DecoderStep (d, c) s'
| step_onVideoFrameReady frame d c s' :
    onVideoFrameReady cbs frame d c = Some s' -> DecoderStep (d, c) s'
| step_driver d c dev' :
    driverActs (mDevice d) dev' -> DecoderStep (d, c) (set_mDevice dev' d, c)
| step_client d c c' : DecoderStep (d, c) (d, c').

Inductive Execution
  : V4L2Decoder DecodeCB * Client -> V4L2Decoder DecodeCB * Client -> Prop :=
| exec_start s : Execution s s
| exec_step s1 s2 s3 :
    Execution s1 s2 -> DecoderStep s2 s3 -> Execution s1 s3.
End Executions.

(** The commands that [serviceDeviceTask] sends are START commands. *)
Definition onlyStarts (new : list DecoderCmd) : Prop :=
  Forall (fun cmd => cmdIsStart cmd = true) new.



(** ** Sample states *)

Definition acceptingDriver : nat -> DevAnswer :=
  fun _ => mkDevAnswer true 4096 (mkV4L2Rect 0 0 0 0) (mkSize 0 0) [].


Definition idleQueue (n : nat) : V4L2Queue :=
  mkQueue (Z.of_nat n) (map Z.of_nat (seq 0 n)) 0%nat true [].

Definition sampleDevice (driver : nat -> DevAnswer) : V4L2Device :=
  mkDevice (idleQueue 16) (idleQueue 0) [] true 0%nat driver [].

Definition sampleDecoder {DecodeCB} (s : State) (driver : nat -> DevAnswer)
  : V4L2Decoder DecodeCB :=
  mkDecoder s [] OMap.empty None (sampleDevice driver) OMap.empty OMap.empty
            None (mkSize 0 0) (Rect_wh 0 0) 0.

Definition sampleCollaborators : Collaborators :=
  mkCollaborators (Some H264) C2_OK None C2_OK (Some (mkPool false)).

Definition sampleComponent (s : ComponentState) (l : option Listener)
  : Component :=
  mkComponent s l [] OMap.empty [] false false None false 0
              sampleCollaborators true true [] [].

Definition sampleBlock : C2ConstLinearBlock := mkLinearBlock 0 100 3 None.
Definition sampleInput : option C2LinearBuffer :=
  Some (mkLinearBuffer [sampleBlock]).

(** A frame work with index [i], input flags [f] and output flags [outf]. *)
Definition sampleWork (i f outf : Z) (bufs : list (option C2LinearBuffer))
  : C2Work :=
  mkWork (mkFrameData f (mkOrdinal i i) bufs)
         [mkWorklet (mkFrameData outf (mkOrdinal i i) [])] C2_OK 0.

(** The component in which work 1, queued with one input buffer, is at the
    decoder when its decode is aborted. *)
Definition abortedAtDecoder : Component :=
  set_mWorksAtDecoder [(1, sampleWork 1 0 0 [sampleInput])]
    (sampleComponent RUNNING (Some 7)).

(** A decoder, Decoding, whose first request is larger than the plane of
    an input buffer (the driver answers 4096), so that the next pump ends
    in [onError]. *)
Definition stuckBeforeDrain : V4L2Decoder Z :=
  set_mDecodeRequests [mkRequest (Some (mkBitstreamBuffer 1 0 5000 3)) 1]
    (sampleDecoder Decoding acceptingDriver).

(** A component with one work pending and one at the decoder. *)
Definition flushInput : Component :=
  set_mPendingWorks [sampleWork 2 0 0 [sampleInput]]
    (set_mWorksAtDecoder [(1, sampleWork 1 0 0 [None])]
       (sampleComponent RUNNING (Some 7))).

(** ** Words for what the listener and the client are told *)

(** A call of the listener that returns one work, finished without error
    and with its input buffer released. *)
Definition reportsOneFinishedWork (call : ListenerCall) : Prop :=
  exists l w, call = onWorkDone_nb l [w] /\ result w = C2_OK /\
              hd_error (buffers (input w)) = Some None.

(** The work as [queueTask] stores it: the output of its worklet is
    initialised, and a missing input buffer is replaced by a null one. *)
Definition asQueued (work queued : C2Work) : Prop :=
  exists worklet,
    hd_error (worklets queued) = Some worklet /\
    flags (output worklet) = 0 /\
    buffers (output worklet) = [] /\
    ordinal (output worklet) = ordinal (input work) /\
    flags (input queued) = flags (input work) /\
    ordinal (input queued) = ordinal (input work) /\
    buffers (input queued) =
      match buffers (input work) with
      | [] => [None]
      | bufs => bufs
      end.

(** The decode callbacks run among the calls, with their status. *)
Fixpoint ranCallbacks {DecodeCB} (calls : list (ClientCall DecodeCB))
  : list (DecodeCB * DecodeStatus) :=
  match calls with
  | [] => []
  | Ran cb status :: rest => (cb, status) :: ranCallbacks rest
  | _ :: rest => ranCallbacks rest
  end.

(** ** [V4L2Decoder.cpp]: starting the decoder *)

(** [VideoCodecToV4L2PixFmt]; the fourcc codes are those of
    [videodev2.h]: H264, VP80, VP90 and HEVC. *)
Definition VideoCodecToV4L2PixFmt (codec : VideoCodec) : Z :=
  match codec with
  | H264 => fourcc 72 50 54 52
  | VP8 => fourcc 86 80 56 48
  | VP9 => fourcc 86 80 57 48
  | HEVC => fourcc 72 69 86 67
  end.

Section DecoderStart.
Context {DecodeCB : Type}.

Definition set_mMinNumOutputBuffers (n : Z) (d : V4L2Decoder DecodeCB)
  : V4L2Decoder DecodeCB :=
  mkDecoder (mState d) (mDecodeRequests d) (mPendingDecodeCbs d) (mDrainCb d)
    (mDevice d) (mFrameAtDevice d) (mBlockIdToV4L2Id d) (mVideoFramePool d)
    (mCodedSize d) (mVisibleRect d) n.

(** A call of the device that succeeds or fails: [open],
    [hasCapabilities], an ioctl, [getQueue], [setFormat]. *)
Definition deviceCall (d : V4L2Decoder DecodeCB)
  : bool * V4L2Decoder DecodeCB :=
  let (a, dev) := request (mDevice d) in (ok a, set_mDevice dev d).

(** [V4L2Decoder::setupInputFormat]; the driver answers the formats it
    supports, and the number of buffers it has allocated of the
    [kNumInputBuffers] (16) asked for. *)
Definition setupInputFormat (inputPixelFormat inputBufferSize : Z)
    (d : V4L2Decoder DecodeCB) : bool * V4L2Decoder DecodeCB :=
  (* Check if the format is supported. *)
  let (a, dev) := request (mDevice d) in
  let d1 := set_mDevice dev d in
  if negb (existsb (Z.eqb inputPixelFormat) (pixelformats a)) then (false, d1)
  else
    (* Setup the input format. *)
    let (formatSet, d2) := deviceCall d1 in
    if negb formatSet then (false, d2)
    else
      let (a3, dev3) := request (mDevice d2) in
      let allocated := value a3 in
      let d3 :=
        set_mDevice
          (set_mInputQueue (allocateBuffers allocated (mInputQueue dev3)) dev3)
          d2 in
      if allocated =? 0 then (false, d3)
      else
        let (streaming, d4) := streamonInput d3 in
        if negb streaming then (false, d4) else (true, d4).

(** [V4L2Decoder::start]; the callbacks it stores are those of the
    decoder's [Callbacks], and [mDevice d] is the device that
    [V4L2Device::create] returns. *)
Definition start (codec : VideoCodec)
    (inputBufferSize minNumOutputBuffers : Z) (d : V4L2Decoder DecodeCB)
  : bool * V4L2Decoder DecodeCB :=
  let d := set_mMinNumOutputBuffers minNumOutputBuffers d in
  if State_eqb (mState d) Error then (false, d)
  else
    let inputPixelFormat := VideoCodecToV4L2PixFmt codec in
    let (opened, d1) := deviceCall d in
    if negb opened then (false, d1)
    else
      let (capable, d2) := deviceCall d1 in
      if negb capable then (false, d2)
      else
        (* VIDIOC_TRY_DECODER_CMD with V4L2_DEC_CMD_STOP *)
        let (stoppable, d3) := deviceCall d2 in
        if negb stoppable then (false, d3)
        else
          (* Subscribe to the resolution change event. *)
          let (subscribed, d4) := deviceCall d3 in
          if negb subscribed then (false, d4)
          else
            (* Create Input/Output V4L2Queue, and setup input queue. *)
            let (hasInputQueue, d5) := deviceCall d4 in
            let (hasOutputQueue, d6) := deviceCall d5 in
            if negb hasInputQueue || negb hasOutputQueue then (false, d6)
            else
              let (formatSet, d7) :=
                setupInputFormat inputPixelFormat inputBufferSize d6 in
              if negb formatSet then (false, d7)
              else
                let (polling, d8) := startPolling d7 in
                if negb polling then (false, d8)
                else (true, setState Idle d8).

(** [V4L2Decoder::Create]; [fresh] is the decoder as its constructor
    leaves it. *)
Definition Create (codec : VideoCodec)
    (inputBufferSize minNumOutputBuffers : Z) (fresh : V4L2Decoder DecodeCB)
  : option (V4L2Decoder DecodeCB) :=
  let (started, d) := start codec inputBufferSize minNumOutputBuffers fresh in
  if started then Some d else None.
End DecoderStart.

(** A driver that accepts every request, supports H264 and grants 16
    buffers. *)
Definition h264Driver : nat -> DevAnswer :=
  fun _ => mkDevAnswer true 16 (mkV4L2Rect 0 0 0 0) (mkSize 0 0)
             [fourcc 72 50 54 52].



(** A component in which work 1, marked as dropped and with its input
    released, is at the decoder, and its id is next in the output queue. *)
Definition droppedAtDecoder : Component :=
  set_mOutputBitstreamIds [1]
    (set_mWorksAtDecoder [(1, sampleWork 1 0 FLAG_DROP_FRAME [None])]
       (sampleComponent RUNNING (Some 7))).

(** A draining component with work 1 and the EOS work 2 at the decoder. *)
Definition drainingAtDecoder : Component :=
  set_mIsDraining true
    (set_mWorksAtDecoder
       [(1, sampleWork 1 0 0 [None]);
        (2, sampleWork 2 FLAG_END_OF_STREAM 0 [None])]
       (sampleComponent RUNNING (Some 7))).

(** A decoder with one input buffer at the device, which the driver has
    finished with; its decode callback is 11. *)
Definition inputAtDevice : V4L2Decoder Z :=
  set_mPendingDecodeCbs [(5, 11)]
    (set_inputQueue
       (mkQueue 16 (map Z.of_nat (seq 1 15)) 1%nat true
                [DqBuffer (mkReadable 0 5 100 false)])
       (sampleDecoder Decoding acceptingDriver)).

(** A draining decoder whose driver hands back the last, empty output
    buffer; the drain callback is 13. *)
Definition lastOutputAtDevice : V4L2Decoder Z :=
  set_mDrainCb (Some 13)
    (set_mFrameAtDevice [(0, mkVideoFrame [3] 0 (Rect_wh 0 0))]
       (set_outputQueue
          (mkQueue 4 [1; 2; 3] 1%nat true
                   [DqBuffer (mkReadable 0 5 0 true)])
          (sampleDecoder Draining acceptingDriver))).

(** A decoder with four free output buffers and a frame pool. *)
Definition waitingForFrame : V4L2Decoder Z :=
  set_mVideoFramePool (Some (mkPool true))
    (set_outputQueue (idleQueue 4) (sampleDecoder Decoding acceptingDriver)).

(** * Properties *)

(** ** Visible rectangle *)









(** ** The done-check *)

Lemma has_flag_true (f flag : Z) : has_flag f flag = true <-> Z.land f flag <> 0.
Proof.
  unfold has_flag. rewrite negb_true_iff, Z.eqb_neq. reflexivity.
Qed.

Lemma has_flag_false (f flag : Z) : has_flag f flag = false <-> Z.land f flag = 0.
Proof.
  unfold has_flag. rewrite negb_false_iff, Z.eqb_eq. reflexivity.
Qed.

(** C4, as stated, fails: a released work with the CODEC_CONFIG and the
    END_OF_STREAM flags is done in the specification's words, and
    [isWorkDone] answers false. *)
Lemma isWorkDone_eos_counterexample :
  let work := sampleWork 4 (Z.lor FLAG_END_OF_STREAM FLAG_CODEC_CONFIG) 0
                         [None] in
  doneBySpec work None (mkWorklet (mkFrameData 0 (mkOrdinal 4 4) [])) /\
  isWorkDone work = Some false.
Proof.
  cbv zeta. split; [| reflexivity].
  split; [reflexivity |]. right. left. vm_compute. discriminate.
Qed.

(** C4, amended: for a work with a first input buffer and a first worklet,
    [isWorkDone] returns true exactly when the work does not carry
    END_OF_STREAM and is done in the specification's words; the EOS
    exception sits in the done-check itself, and [reportWorkIfFinished]
    has one more: while draining with exactly one item in
    [mWorksAtDecoder] it reports nothing and returns false. *)
Theorem isWorkDone_iff (work : C2Work) (front : option C2LinearBuffer)
    (rest : list (option C2LinearBuffer)) (worklet : C2Worklet)
    (others : list C2Worklet) :
  buffers (input work) = front :: rest ->
  worklets work = worklet :: others ->
  (isWorkDone work = Some true <->
     Z.land (flags (input work)) FLAG_END_OF_STREAM = 0 /\
     doneBySpec work front worklet) /\
  (Z.land (flags (input work)) FLAG_END_OF_STREAM <> 0 ->
     isWorkDone work = Some false) /\
  (forall (bitstreamId : Z) (c : Component),
     mIsDraining c = true -> OMap.size (mWorksAtDecoder c) = 1 ->
     reportWorkIfFinished bitstreamId c = Some (false, c)).
Proof.
  intros Hb Hw. unfold isWorkDone, doneBySpec. rewrite Hb, Hw. cbn [hd_error].
  split; [| split].
  - destruct (has_flag (flags (input work)) FLAG_END_OF_STREAM) eqn:He.
    + apply has_flag_true in He. split; [discriminate | tauto].
    + apply has_flag_false in He.
      rewrite <- !has_flag_true.
      destruct front as [b|]; cbn [andb].
      * split; [discriminate | intros [_ [H _]]; discriminate].
      * destruct (buffers (output worklet)) as [|ob obs]; cbn [negb orb].
        -- destruct (has_flag (flags (input work)) FLAG_CODEC_CONFIG),
             (has_flag (flags (output worklet)) FLAG_DROP_FRAME); cbn;
             intuition congruence.
        -- intuition congruence.
  - intros He. apply has_flag_true in He. rewrite He. reflexivity.
  - intros bitstreamId c Hd Hs. unfold reportWorkIfFinished.
    rewrite Hd, Hs. reflexivity.
Qed.

Lemma isWorkDone_iff_witness :
  (isWorkDone (sampleWork 1 0 FLAG_DROP_FRAME [None]) = Some true <->
     Z.land 0 FLAG_END_OF_STREAM = 0 /\
     doneBySpec (sampleWork 1 0 FLAG_DROP_FRAME [None]) None
       (mkWorklet (mkFrameData FLAG_DROP_FRAME (mkOrdinal 1 1) []))) /\
  (Z.land 0 FLAG_END_OF_STREAM <> 0 ->
     isWorkDone (sampleWork 1 0 FLAG_DROP_FRAME [None]) = Some false) /\
  (forall (bitstreamId : Z) (c : Component),
     mIsDraining c = true -> OMap.size (mWorksAtDecoder c) = 1 ->
     reportWorkIfFinished bitstreamId c = Some (false, c)).
Proof.
  apply (isWorkDone_iff (sampleWork 1 0 FLAG_DROP_FRAME [None]) None []
           (mkWorklet (mkFrameData FLAG_DROP_FRAME (mkOrdinal 1 1) [])) []);
    reflexivity.
Defined.

(** ** Decode completion with status Aborted *)

(** The Aborted branch of [onDecodeDone] keeps of the output flags only
    their DROP_FRAME bit. *)
Lemma onDecodeDone_aborted_flags (bitstreamId : Z) (c : Component)
    (work : C2Work) (front : option C2LinearBuffer)
    (rest : list (option C2LinearBuffer)) (worklet : C2Worklet)
    (others : list C2Worklet) :
  OMap.find bitstreamId (mWorksAtDecoder c) = Some work ->
  buffers (input work) = front :: rest ->
  worklets work = worklet :: others ->
  onDecodeDone bitstreamId kAborted c =
    pumpReportWork
      (set_mOutputBitstreamIds (mOutputBitstreamIds c ++ [bitstreamId])
         (set_mWorksAtDecoder
            (OMap.update bitstreamId
               (mkWork (set_buffers (None :: rest) (input work))
                  (mkWorklet
                     (set_flags
                        (Z.land (flags (output worklet)) FLAG_DROP_FRAME)
                        (output worklet)) :: others)
                  (result work) (workletsProcessed work))
               (mWorksAtDecoder c)) c)).
Proof.
  intros Hf Hb Hw. unfold onDecodeDone. rewrite Hf.
  unfold reset_front_input. rewrite Hb.
  unfold map_front_output. cbn [worklets set_input]. rewrite Hw.
  reflexivity.
Qed.

(** C1: [onDecodeDone] with status Aborted, on a work whose output flags
    are 0 (as [queueTask] leaves them): the input buffer is released and the
    id is pushed, but the output flags are and-ed with DROP_FRAME, so the
    bit is not set, the work is not done and is not reported. *)
Theorem onDecodeDone_aborted_drop_frame_not_set :
  exists (c' : Component) (work' : C2Work) (worklet' : C2Worklet),
    onDecodeDone 1 kAborted abortedAtDecoder = Some c' /\
    OMap.find 1 (mWorksAtDecoder c') = Some work' /\
    buffers (input work') = [None] /\
    hd_error (worklets work') = Some worklet' /\
    Z.testbit (flags (output worklet')) 0 = false /\
    Z.land (flags (output worklet')) FLAG_DROP_FRAME = 0 /\
    isWorkDone work' = Some false /\
    mOutputBitstreamIds c' = [1] /\
    listenerCalls c' = [].
Proof.
  do 3 eexists. split; [reflexivity |].
  split; [reflexivity |]. repeat split; reflexivity.
Qed.

(** ** Invalid works in [queueTask] *)

(** C2, as stated, fails: a work with two worklets is reported with
    CORRUPTED, and the component stays Running. *)
Lemma queueTask_invalid_counterexample :
  let work := set_worklets [mkWorklet (mkFrameData 0 (mkOrdinal 1 1) []);
                            mkWorklet (mkFrameData 0 (mkOrdinal 1 1) [])]
                (sampleWork 1 0 0 [sampleInput]) in
  let d : Decoder := sampleDecoder Idle acceptingDriver in
  exists c' : Component,
    queueTask work d (sampleComponent RUNNING (Some 7)) = Some (d, c') /\
    listenerCalls c' = [onWorkDone_nb 7 [set_result C2_CORRUPTED work]] /\
    mComponentState c' = RUNNING /\
    mComponentState c' <> ERROR.
Proof.
  cbv zeta. eexists. split; [reflexivity |].
  repeat split; try reflexivity. discriminate.
Qed.

(** C2, amended: a work whose worklet count is not 1 or whose input-buffer
    count exceeds 1 gets the result CORRUPTED and, when a listener is
    installed, is reported alone to the listener; the component state does
    not change, the work is not enqueued and the decoder is not touched. *)
Theorem queueTask_invalid_reports_corrupted (work : C2Work) (d : Decoder)
    (c : Component) :
  length (worklets work) <> 1%nat \/
  (1 < length (buffers (input work)))%nat ->
  exists c' : Component,
    queueTask work d c = Some (d, c') /\
    listenerCalls c' =
      listenerCalls c ++
      match mListener c with
      | Some l => [onWorkDone_nb l [set_result C2_CORRUPTED work]]
      | None => []
      end /\
    mComponentState c' = mComponentState c /\
    mPendingWorks c' = mPendingWorks c /\
    mWorksAtDecoder c' = mWorksAtDecoder c /\
    postedTasks c' = postedTasks c.
Proof.
  intros H. unfold queueTask.
  assert (Hc : negb (Z.of_nat (length (worklets work)) =? 1) ||
               (1 <? Z.of_nat (length (buffers (input work)))) = true).
  { apply orb_true_iff. destruct H as [H | H].
    - left. apply negb_true_iff, Z.eqb_neq. lia.
    - right. apply Z.ltb_lt. lia. }
  rewrite Hc. unfold reportWork.
  destruct (mListener c) as [l|]; cbn [snd]; eexists; split;
    try reflexivity; cbn; rewrite ?app_nil_r; repeat split; reflexivity.
Qed.

Lemma queueTask_invalid_reports_corrupted_witness :
  exists c' : Component,
    queueTask (sampleWork 1 0 0 [sampleInput; sampleInput])
              (sampleDecoder Idle acceptingDriver)
              (sampleComponent RUNNING (Some 7))
    = Some (sampleDecoder Idle acceptingDriver, c') /\
    listenerCalls c' =
      [] ++ [onWorkDone_nb 7
               [set_result C2_CORRUPTED
                  (sampleWork 1 0 0 [sampleInput; sampleInput])]] /\
    mComponentState c' = RUNNING /\
    mPendingWorks c' = [] /\
    mWorksAtDecoder c' = [] /\
    postedTasks c' = [].
Proof.
  apply (queueTask_invalid_reports_corrupted
           (sampleWork 1 0 0 [sampleInput; sampleInput])
           (sampleDecoder Idle acceptingDriver)
           (sampleComponent RUNNING (Some 7))).
  right. cbn. lia.
Defined.

(** ** [setListener_vb] while Running *)

(** C3, as stated, fails: while Running a non-null listener is refused
    with BAD_STATE, whether the call may block or not. *)
Lemma setListener_running_counterexample :
  setListener_vb (Some 7) C2_MAY_BLOCK (sampleComponent RUNNING None)
    = (C2_BAD_STATE, sampleComponent RUNNING None) /\
  setListener_vb (Some 7) C2_DONT_BLOCK (sampleComponent RUNNING None)
    = (C2_BAD_STATE, sampleComponent RUNNING None) /\
  C2_BAD_STATE <> C2_OK /\ C2_BAD_STATE <> C2_BLOCKING.
Proof.
  repeat split; try reflexivity; discriminate.
Qed.

(** C3, amended: while Running, a non-null listener is refused with
    BAD_STATE and nothing changes; a null listener is refused with BLOCKING
    when the call may not block, and otherwise the call returns OK and the
    listener is cleared. *)
Theorem setListener_running (listener : option Listener)
    (mayBlock : c2_blocking_t) (c : Component) :
  mComponentState c = RUNNING ->
  setListener_vb listener mayBlock c =
    match listener, mayBlock with
    | Some _, _ => (C2_BAD_STATE, c)
    | None, C2_MAY_BLOCK => (C2_OK, set_mListener None c)
    | None, C2_DONT_BLOCK => (C2_BLOCKING, c)
    end /\
  mListener (set_mListener None c) = None.
Proof.
  intros Hs. split; [| reflexivity].
  unfold setListener_vb, setListenerTask. rewrite Hs.
  destruct listener as [l|], mayBlock; cbn; try reflexivity;
    destruct (decoderThreadIsRunning c); reflexivity.
Qed.

Lemma setListener_running_witness :
  setListener_vb None C2_MAY_BLOCK (sampleComponent RUNNING (Some 5))
    = (C2_OK, set_mListener None (sampleComponent RUNNING (Some 5))) /\
  mListener (set_mListener None (sampleComponent RUNNING (Some 5))) = None.
Proof.
  apply (setListener_running None C2_MAY_BLOCK
           (sampleComponent RUNNING (Some 5))).
  reflexivity.
Defined.

(** ** The frame-pool request *)

Lemma reportError_state (error : c2_status_t) (c : Component) :
  mComponentState (reportError error c) = ERROR.
Proof.
  unfold reportError.
  destruct (ComponentState_eqb (mComponentState c) ERROR) eqn:He.
  - destruct (mComponentState c); (discriminate || reflexivity).
  - cbn. destruct (mListener c); reflexivity.
Qed.

Lemma reportError_calls (error : c2_status_t) (c : Component) :
  listenerCalls (reportError error c) =
  listenerCalls c ++
  match mComponentState c, mListener c with
  | ERROR, _ | _, None => []
  | _, Some l => [onError_nb l error]
  end.
Proof.
  unfold reportError.
  destruct (mComponentState c); cbn; destruct (mListener c); cbn;
    rewrite ?app_nil_r; reflexivity.
Qed.

(** C8, as stated, fails: when the component instance is already
    destroyed, a request for 8192x8192 returns no pool and reports
    nothing; the state stays what it was. *)
Lemma getVideoFramePool_destroyed_counterexample :
  let c := mkComponent RUNNING (Some 7) [] OMap.empty [] false false None
             false 0 sampleCollaborators true false [] [] in
  kMaximumSupportedArea < 8192 * 8192 /\
  getVideoFramePool (mkSize 8192 8192) YCBCR_420_888 8 c = (None, c) /\
  mComponentState c = RUNNING /\ listenerCalls c = [].
Proof.
  cbv zeta. repeat split; reflexivity.
Qed.

(** C8, amended: for a frame-pool request made while the component
    instance is alive and whose size has an area above 4096x4096, the
    component goes through [reportError(C2_BAD_VALUE)] (the state is Error
    afterwards, and the listener, if any, gets onError(BAD_VALUE) unless the
    state was Error already) and returns no pool. *)
Theorem getVideoFramePool_oversized (sz : Size) (pixelFormat : HalPixelFormat)
    (numBuffers : Z) (c : Component) :
  sharedThisIsAlive c = true ->
  4096 * 4096 < width sz * height sz ->
  getVideoFramePool sz pixelFormat numBuffers c
    = (None, reportError C2_BAD_VALUE c) /\
  mComponentState (snd (getVideoFramePool sz pixelFormat numBuffers c))
    = ERROR /\
  listenerCalls (snd (getVideoFramePool sz pixelFormat numBuffers c)) =
    listenerCalls c ++
    match mComponentState c, mListener c with
    | ERROR, _ | _, None => []
    | _, Some l => [onError_nb l C2_BAD_VALUE]
    end.
Proof.
  intros Ha Hlarge.
  assert (E : getVideoFramePool sz pixelFormat numBuffers c
              = (None, reportError C2_BAD_VALUE c)).
  { unfold getVideoFramePool. rewrite Ha. cbn [negb].
    assert (Hlt : (kMaximumSupportedArea <? value_or (getArea sz) INT_MAX) = true).
    { apply Z.ltb_lt. unfold getArea, kMaximumSupportedArea.
      destruct (in_int32 (width sz * height sz)); cbn [value_or].
      - exact Hlarge.
      - unfold INT_MAX. lia. }
    rewrite Hlt. reflexivity. }
  rewrite E. cbn [snd].
  split; [reflexivity |].
  split; [apply reportError_state | apply reportError_calls].
Qed.

Lemma getVideoFramePool_oversized_witness :
  getVideoFramePool (mkSize 8192 8192) YCBCR_420_888 8
                    (sampleComponent RUNNING (Some 7))
    = (None, reportError C2_BAD_VALUE (sampleComponent RUNNING (Some 7))) /\
  mComponentState
    (snd (getVideoFramePool (mkSize 8192 8192) YCBCR_420_888 8
            (sampleComponent RUNNING (Some 7)))) = ERROR /\
  listenerCalls
    (snd (getVideoFramePool (mkSize 8192 8192) YCBCR_420_888 8
            (sampleComponent RUNNING (Some 7)))) =
    [] ++ [onError_nb 7 C2_BAD_VALUE].
Proof.
  apply (getVideoFramePool_oversized (mkSize 8192 8192) YCBCR_420_888 8
           (sampleComponent RUNNING (Some 7))).
  - reflexivity.
  - cbn. lia.
Defined.

(** ** Splitting a computation into its cases *)

Ltac head_scrutinee t :=
  lazymatch t with
  | match ?x with _ => _ end => head_scrutinee x
  | _ => t
  end.

(* One step along the computation in [H : ... = _]: a head [let] becomes
   a variable with its defining equation, a head [match] is split. *)
Ltac step_computation H :=
  lazymatch type of H with
  | (let x := ?t in @?b x) = ?r =>
      let v := fresh x in
      pose (v := t); change (b v = r) in H; cbv beta in H;
      let E := fresh "E" v in
      assert (E : v = t) by reflexivity; clearbody v
  | (match ?x with _ => _ end) = _ =>
      let s := head_scrutinee x in destruct s eqn:?
  end.

Ltac split_cases H := repeat step_computation H; try discriminate H.


(** ** The commands sent to the device *)

Section DecoderFacts.
Context {DecodeCB Client : Type}.
Variable cbs : Callbacks DecodeCB Client.
Local Notation "'D'" := (V4L2Decoder DecodeCB) (only parsing).

Local Notation "'cmdsOf' d" :=
  (issuedDecoderCmds (mDevice d)) (at level 10, d at level 9, only parsing).

Lemma setState_device (s : State) (d : D) : mDevice (setState s d) = mDevice d.
Proof.
  unfold setState.
  destruct (State_eqb (mState d) s); [reflexivity |].
  destruct (State_eqb (mState d) Error); [reflexivity |].
  destruct s; try reflexivity.
Qed.

Lemma onError_device d c d' c' :
  onError cbs d c = Some (d', c') -> mDevice d' = mDevice d.
Proof.
  unfold onError. destruct (mErrorCb cbs c); [| discriminate].
  intros H. inversion H. apply setState_device.
Qed.

Ltac break_hyp H :=
  match type of H with
  | context [match ?x with _ => _ end] => destruct x eqn:?
  | context [if ?x then _ else _] => destruct x eqn:?
  end.

Lemma pumpDecodeRequest_loop_cmds reqs : forall d c d' c',
  pumpDecodeRequest_loop cbs reqs d c = Some (d', c') ->
  exists new, cmdsOf d' = cmdsOf d ++ new /\ Forall stopSeenWithEmptyInput new.
Proof.
  induction reqs as [|req rest IH]; intros d c d' c' H; cbn [pumpDecodeRequest_loop] in H.
  - inversion H. exists []. rewrite app_nil_r. auto.
  - destruct (buffer req) as [buf|].
    + destruct (getFreeBuffer (inputQueue d)) as [[b q1]|] eqn:Hfree.
      2:{ inversion H. exists []. rewrite app_nil_r. auto. }
      unfold request in H. cbn -[pumpDecodeRequest_loop] in H.
      repeat break_hyp H.
      all: try (apply onError_device in H; exists []; rewrite app_nil_r; split; [|constructor]; rewrite H; reflexivity).
      apply IH in H. exact H.
    + destruct (Nat.ltb 0 (queuedBuffersCount (inputQueue d))) eqn:Hq.
      { inversion H. exists []. rewrite app_nil_r. auto. }
      apply Nat.ltb_ge in Hq.
      unfold sendV4L2DecoderCmd, ioctl_DECODER_CMD, request in H. cbn in H.
      repeat break_hyp H; try discriminate.
      * apply onError_device in H. eexists. rewrite H. cbn. split; [reflexivity|].
        constructor; [|constructor]. intros _. cbn. unfold inputQueue in Hq. lia.
      * inversion H. eexists. rewrite setState_device. cbn. split; [reflexivity|].
        constructor; [|constructor]. intros _. cbn. unfold inputQueue in Hq. lia.
Qed.


Lemma cmds_unchanged_safe (d d' : D) :
  cmdsOf d' = cmdsOf d ->
  exists new, cmdsOf d' = cmdsOf d ++ new /\ Forall stopSeenWithEmptyInput new.
Proof.
  intros H. exists []. rewrite H, app_nil_r. auto.
Qed.

Lemma pumpDecodeRequest_cmds d c d' c' :
  pumpDecodeRequest cbs d c = Some (d', c') ->
  exists new, cmdsOf d' = cmdsOf d ++ new /\ Forall stopSeenWithEmptyInput new.
Proof.
  unfold pumpDecodeRequest.
  destruct (negb (State_eqb (mState d) Decoding)).
  - intros H. inversion H. apply cmds_unchanged_safe. reflexivity.
  - apply pumpDecodeRequest_loop_cmds.
Qed.

Lemma decode_cmds buf cb d c d' c' :
  decode cbs buf cb d c = Some (d', c') ->
  exists new, cmdsOf d' = cmdsOf d ++ new /\ Forall stopSeenWithEmptyInput new.
Proof.
  unfold decode. destruct (State_eqb (mState d) Error).
  - intros H. inversion H. apply cmds_unchanged_safe. reflexivity.
  - intros H. apply pumpDecodeRequest_cmds in H.
    destruct H as [new [H1 H2]]. exists new. split; [| exact H2].
    rewrite H1. cbn.
    destruct (State_eqb (mState d) Idle); [rewrite setState_device |]; reflexivity.
Qed.

Lemma drain_cmds cb d c d' c' :
  drain cbs cb d c = Some (d', c') ->
  exists new, cmdsOf d' = cmdsOf d ++ new /\ Forall stopSeenWithEmptyInput new.
Proof.
  unfold drain. destruct (mState d).
  2:{ intros H. apply pumpDecodeRequest_cmds in H. exact H. }
  all: intros H; inversion H; apply cmds_unchanged_safe; reflexivity.
Qed.

Lemma pair_snd {A B} (x : A * B) (a : A) (b : B) : x = (a, b) -> b = snd x.
Proof. intros ->. reflexivity. Qed.

(** The commands the device has received are untouched by everything but
    [ioctl_DECODER_CMD]. *)
Lemma cmds_request dev : issuedDecoderCmds (snd (request dev)) = issuedDecoderCmds dev.
Proof. reflexivity. Qed.
Lemma cmds_getVisibleRect sz dev :
  issuedDecoderCmds (snd (getVisibleRect sz dev)) = issuedDecoderCmds dev.
Proof.
  unfold getVisibleRect, ioctl_G_SELECTION, ioctl_G_CROP, request. cbn.
  destruct (ok _); [reflexivity |]. cbn. destruct (ok _); reflexivity.
Qed.
Lemma cmds_setState s (d : D) : cmdsOf (setState s d) = cmdsOf d.
Proof. rewrite setState_device. reflexivity. Qed.
Lemma cmds_streamonInput (d : D) : cmdsOf (snd (streamonInput d)) = cmdsOf d.
Proof. reflexivity. Qed.
Lemma cmds_streamonOutput (d : D) : cmdsOf (snd (streamonOutput d)) = cmdsOf d.
Proof. reflexivity. Qed.
Lemma cmds_startPolling (d : D) : cmdsOf (snd (startPolling d)) = cmdsOf d.
Proof. unfold startPolling, request. cbn. destruct (ok _); reflexivity. Qed.
Lemma cmds_getFormatInfo (d : D) : cmdsOf (snd (getFormatInfo d)) = cmdsOf d.
Proof. reflexivity. Qed.
Lemma cmds_getNumOutputBuffers (d : D) :
  cmdsOf (snd (getNumOutputBuffers d)) = cmdsOf d.
Proof. reflexivity. Qed.
Lemma cmds_setupOutputFormat_loop fmts : forall d : D,
  cmdsOf (snd (setupOutputFormat_loop fmts d)) = cmdsOf d.
Proof.
  induction fmts as [|f rest IH]; intros d; cbn [setupOutputFormat_loop].
  - reflexivity.
  - destruct (negb _); [apply IH |].
    unfold request. cbn. destruct (ok _); [reflexivity |].
    rewrite IH. reflexivity.
Qed.
Lemma cmds_setupOutputFormat sz (d : D) :
  cmdsOf (snd (setupOutputFormat sz d)) = cmdsOf d.
Proof.
  unfold setupOutputFormat, request. cbn.
  rewrite cmds_setupOutputFormat_loop. reflexivity.
Qed.
Lemma cmds_dequeueResolutionChangeEvent (d : D) :
  cmdsOf (snd (dequeueResolutionChangeEvent d)) = cmdsOf d.
Proof.
  unfold dequeueResolutionChangeEvent.
  destruct (dequeueResolutionChangeEvent_loop _). reflexivity.
Qed.
Lemma onError_cmds d c d' c' :
  onError cbs d c = Some (d', c') -> cmdsOf d' = cmdsOf d.
Proof. intros H. apply onError_device in H. congruence. Qed.
Lemma tryFetchVideoFrame_cmds d c d' c' :
  tryFetchVideoFrame cbs d c = Some (d', c') -> cmdsOf d' = cmdsOf d.
Proof.
  unfold tryFetchVideoFrame. intros H.
  destruct (mVideoFramePool d) as [pool|].
  - destruct (freeBuffersCount (outputQueue d) =? 0).
    + inversion H. reflexivity.
    + destruct (getVideoFrame pool). inversion H. reflexivity.
  - apply onError_cmds in H. exact H.
Qed.

(* Setters and projections, which [cbn] may unfold. *)
Ltac cmds_cbn :=
  cbn [mDevice issuedDecoderCmds fst snd
       set_mState set_mDecodeRequests set_mPendingDecodeCbs set_mDrainCb
       set_mDevice set_mFrameAtDevice set_mBlockIdToV4L2Id set_mVideoFramePool
       set_mCodedSize set_mVisibleRect set_inputQueue set_outputQueue
       stopPolling set_mInputQueue set_mOutputQueue set_pendingEvents
       set_isPolling].

Ltac cmds_rewrite :=
  first [ rewrite cmds_request | rewrite cmds_getVisibleRect
        | rewrite cmds_setState | rewrite cmds_streamonInput
        | rewrite cmds_streamonOutput | rewrite cmds_startPolling
        | rewrite cmds_getFormatInfo | rewrite cmds_getNumOutputBuffers
        | rewrite cmds_setupOutputFormat
        | rewrite cmds_dequeueResolutionChangeEvent ].

(* Follows the commands of the state in the goal back through the
   equations that define it; [more] brings facts on further calls. *)
Ltac cmds_back_with more :=
  repeat first
    [ progress cmds_cbn
    | cmds_rewrite
    | match goal with
      | E : issuedDecoderCmds (mDevice ?v) = _
        |- context [issuedDecoderCmds (mDevice ?v)] => rewrite E; clear E
      | E : tryFetchVideoFrame _ _ _ = Some (?v, _) |- context [?v] =>
          apply tryFetchVideoFrame_cmds in E
      | E : onError _ _ _ = Some (?v, _) |- context [?v] =>
          apply onError_cmds in E
      | E : Some _ = Some _ |- _ => injection E; clear E; intros
      | E : (_, _) = (_, _) |- _ => injection E; clear E; intros
      | E : _ = (_, ?v) |- context [?v] =>
          is_var v; apply pair_snd in E; rewrite E; clear E
      | E : ?v = _ |- context [?v] => is_var v; rewrite E; clear E
      | E : _ = ?v |- context [?v] => is_var v; rewrite <- E; clear E
      | |- context [if ?b then _ else _] => destruct b; cbv iota
      end
    | more ];
  try reflexivity.

Ltac cmds_back := cmds_back_with fail.

Lemma flush_cmds d c d' c' :
  flush cbs d c = Some (d', c') -> cmdsOf d' = cmdsOf d.
Proof.
  unfold flush. intros H. split_cases H; cmds_back.
Qed.

Lemma changeResolution_cmds d c r d' c' :
  changeResolution cbs d c = Some (r, d', c') -> cmdsOf d' = cmdsOf d.
Proof.
  unfold changeResolution. intros H. split_cases H; cmds_back.
Qed.

Lemma onVideoFrameReady_cmds fr d c d' c' :
  onVideoFrameReady cbs fr d c = Some (d', c') -> cmdsOf d' = cmdsOf d.
Proof.
  unfold onVideoFrameReady. intros H. split_cases H; cmds_back.
Qed.

Lemma onlyStarts_safe new :
  onlyStarts new -> Forall stopSeenWithEmptyInput new.
Proof.
  unfold onlyStarts, stopSeenWithEmptyInput. rewrite !Forall_forall.
  intros H cmd Hin Hs. rewrite (H cmd Hin) in Hs. discriminate.
Qed.

Lemma serviceInputQueue_cmds ready : forall b d c e d' c',
  serviceInputQueue cbs ready b d c = Some (e, d', c') -> cmdsOf d' = cmdsOf d.
Proof.
  induction ready as [|r rest IH]; intros b d c e d' c' H;
    cbn [serviceInputQueue] in H; split_cases H;
    try (apply IH in H); cmds_back.
Qed.

Lemma cmds_sendV4L2DecoderCmd start (d : D) :
  cmdsOf (snd (sendV4L2DecoderCmd start d)) =
  cmdsOf d ++ [mkDecoderCmd start (queuedBuffersCount (inputQueue d))].
Proof. reflexivity. Qed.

Lemma serviceOutputQueue_cmds ready : forall b d c e d' c',
  serviceOutputQueue cbs ready b d c = Some (e, d', c') ->
  exists new, cmdsOf d' = cmdsOf d ++ new /\ onlyStarts new.
Proof.
  induction ready as [|r rest IH]; intros b d c e d' c' H;
    cbn [serviceOutputQueue] in H; split_cases H.
  all: repeat match goal with
         | E : _ = Some _ |- _ => progress (split_cases E)
         end.
  all: try (apply IH in H; destruct H as [new [H Hnew]]).
  all: first
    [ exists []; split;
      [rewrite app_nil_r; solve [cmds_back] | apply Forall_nil]
    | eexists; split;
      [ cmds_back_with ltac:(rewrite cmds_sendV4L2DecoderCmd);
        rewrite <- ?app_assoc; reflexivity
      | first [ exact Hnew
              | apply Forall_cons; [reflexivity | exact Hnew] ] ] ].
Qed.

Lemma serviceDeviceTask_cmds event d c d' c' :
  serviceDeviceTask cbs event d c = Some (d', c') ->
  exists new, cmdsOf d' = cmdsOf d ++ new /\ onlyStarts new.
Proof.
  unfold serviceDeviceTask. intros H. split_cases H.
  all: repeat match goal with
         | E : _ = Some _ |- _ => progress (split_cases E)
         end.
  all: repeat match goal with
         | E : serviceOutputQueue _ _ _ _ _ = Some _ |- _ =>
             apply serviceOutputQueue_cmds in E;
             let new := fresh "new" in
             let Hnew := fresh "Hnew" in
             destruct E as [new [E Hnew]]
         | E : serviceInputQueue _ _ _ _ _ = Some _ |- _ =>
             apply serviceInputQueue_cmds in E
         | E : changeResolution _ _ _ = Some _ |- _ =>
             apply changeResolution_cmds in E
         end.
  all: first
    [ exists []; split;
      [rewrite app_nil_r; solve [cmds_back] | apply Forall_nil]
    | eexists; split; [ cmds_back; reflexivity | eassumption ] ].
Qed.

Lemma DecoderStep_cmds s s' :
  DecoderStep cbs s s' ->
  exists new, cmdsOf (fst s') = cmdsOf (fst s) ++ new /\
              Forall stopSeenWithEmptyInput new.
Proof.
  intros Hstep. destruct Hstep as
    [buf cb d c [d' c'] H | cb d c [d' c'] H | d c [d' c'] H
    | d c [d' c'] H | event d c [d' c'] H | d c [d' c'] H
    | frame d c [d' c'] H | d c dev' H | d c c']; cbn [fst].
  - eapply decode_cmds; eassumption.
  - eapply drain_cmds; eassumption.
  - apply cmds_unchanged_safe. eapply flush_cmds; eassumption.
  - eapply pumpDecodeRequest_cmds; eassumption.
  - apply serviceDeviceTask_cmds in H. destruct H as [new [H Hnew]].
    exists new. split; [exact H | apply onlyStarts_safe; exact Hnew].
  - apply cmds_unchanged_safe. eapply tryFetchVideoFrame_cmds; eassumption.
  - apply cmds_unchanged_safe. eapply onVideoFrameReady_cmds; eassumption.
  - apply cmds_unchanged_safe. destruct H as [ri [ro [ev [fu H]]]].
    rewrite H. reflexivity.
  - apply cmds_unchanged_safe. reflexivity.
Qed.

Lemma Execution_cmds s s' :
  Execution cbs s s' ->
  Forall stopSeenWithEmptyInput (cmdsOf (fst s)) ->
  Forall stopSeenWithEmptyInput (cmdsOf (fst s')).
Proof.
  induction 1 as [s | s1 s2 s3 Hexec IH Hstep]; intros Hsafe.
  - exact Hsafe.
  - apply DecoderStep_cmds in Hstep. destruct Hstep as [new [E Hnew]].
    rewrite E. apply Forall_app. split; [apply IH; exact Hsafe | exact Hnew].
Qed.

Lemma pumpDecodeRequest_waits d c req rest :
  mState d = Decoding ->
  mDecodeRequests d = req :: rest ->
  buffer req = None ->
  (0 < queuedBuffersCount (inputQueue d))%nat ->
  pumpDecodeRequest cbs d c = Some (d, c).
Proof.
  intros Hs Hr Hb Hq. unfold pumpDecodeRequest. rewrite Hs, Hr.
  cbn [State_eqb negb pumpDecodeRequest_loop]. rewrite Hb.
  apply Nat.ltb_lt in Hq. rewrite Hq. reflexivity.
Qed.

(** C5: in every execution of the decoder that starts with no unsafe STOP
    on record, every DECODER_CMD STOP the device has received was issued
    while no buffer was queued on the input queue; and while a buffer is
    queued there, a pump that finds the drain request at the head of the
    decode requests leaves it there and sends nothing. *)
Theorem stop_only_when_input_queue_empty
    (s s' : V4L2Decoder DecodeCB * Client) :
  Forall stopSeenWithEmptyInput (issuedDecoderCmds (mDevice (fst s))) ->
  Execution cbs s s' ->
  Forall stopSeenWithEmptyInput (issuedDecoderCmds (mDevice (fst s'))) /\
  (forall (c : Client) (req : DecodeRequest DecodeCB)
          (rest : list (DecodeRequest DecodeCB)),
     mState (fst s') = Decoding ->
     mDecodeRequests (fst s') = req :: rest ->
     buffer req = None ->
     (0 < queuedBuffersCount (inputQueue (fst s')))%nat ->
     pumpDecodeRequest cbs (fst s') c = Some (fst s', c)).
Proof.
  intros Hsafe Hexec. split.
  - exact (Execution_cmds s s' Hexec Hsafe).
  - intros c req rest. apply pumpDecodeRequest_waits.
Qed.
End DecoderFacts.

Lemma stop_only_when_input_queue_empty_witness :
  let s : V4L2Decoder Z * list (ClientCall Z) :=
    (sampleDecoder Decoding acceptingDriver, []) in
  let s' := value_or (drain (recorder Z None) 9 (fst s) (snd s)) s in
  issuedDecoderCmds (mDevice (fst s')) = [mkDecoderCmd false 0] /\
  Forall stopSeenWithEmptyInput (issuedDecoderCmds (mDevice (fst s'))) /\
  (forall (c : list (ClientCall Z)) (req : DecodeRequest Z)
          (rest : list (DecodeRequest Z)),
     mState (fst s') = Decoding ->
     mDecodeRequests (fst s') = req :: rest ->
     buffer req = None ->
     (0 < queuedBuffersCount (inputQueue (fst s')))%nat ->
     pumpDecodeRequest (recorder Z None) (fst s') c = Some (fst s', c)).
Proof.
  cbv zeta. split; [reflexivity |].
  apply (stop_only_when_input_queue_empty (recorder Z None)
           (sampleDecoder Decoding acceptingDriver, [])).
  - apply Forall_nil.
  - apply (exec_step _ (sampleDecoder Decoding acceptingDriver, [])
                       (sampleDecoder Decoding acceptingDriver, []));
      [apply exec_start |].
    apply (step_drain _ 9). reflexivity.
Defined.

Section Recorded.
Context {DecodeCB : Type}.
Variable poolAnswer : option VideoFramePool.
Local Notation "'R'" := (recorder DecodeCB poolAnswer) (only parsing).

End Recorded.

Section RecordedDrain.
Context {DecodeCB : Type}.
Variable poolAnswer : option VideoFramePool.
Variable same : DecodeCB -> DecodeCB -> bool.


Local Notation "'R'" := (recorder DecodeCB poolAnswer) (only parsing).




End RecordedDrain.



Section FlushFacts.
Context {DecodeCB Client : Type}.
Variable cbs : Callbacks DecodeCB Client.

Lemma setState_Error_state (d : V4L2Decoder DecodeCB) :
  mState (setState Error d) = Error.
Proof.
  unfold setState. destruct (mState d) eqn:E; cbn; rewrite ?E; reflexivity.
Qed.

Lemma setState_Idle_state (d : V4L2Decoder DecodeCB) :
  mState (setState Idle d) = Idle \/ mState (setState Idle d) = Error.
Proof.
  unfold setState. destruct (mState d) eqn:E; cbn; rewrite ?E; auto.
Qed.

Lemma onError_state d c d' c' :
  onError cbs d c = Some (d', c') -> mState d' = Error.
Proof.
  unfold onError. destruct (mErrorCb cbs c); [| discriminate].
  intros H. inversion H. apply setState_Error_state.
Qed.

Lemma State_eqb_eq (a b : State) : State_eqb a b = true -> a = b.
Proof. destruct a, b; (reflexivity || discriminate). Qed.

Lemma flush_state d c d' c' :
  flush cbs d c = Some (d', c') -> mState d' = Idle \/ mState d' = Error.
Proof.
  unfold flush. intros H. split_cases H.
  all: try (apply onError_state in H; right; exact H).
  all: injection H; intros; subst d'.
  all: try apply setState_Idle_state.
  - left. apply State_eqb_eq. assumption.
  - right. apply State_eqb_eq. assumption.
Qed.

Lemma flush_settled d c :
  mState d = Idle \/ mState d = Error -> flush cbs d c = Some (d, c).
Proof.
  unfold flush. intros [-> | ->]; reflexivity.
Qed.
Lemma tryFetchVideoFrame_pool_device (d d' : V4L2Decoder DecodeCB)
    (c c' : Client) (p : VideoFramePool) :
  mVideoFramePool d = Some p ->
  tryFetchVideoFrame cbs d c = Some (d', c') ->
  mDevice d' = mDevice d /\ mState d' = mState d.
Proof.
  intros Hp. unfold tryFetchVideoFrame. rewrite Hp.
  destruct (_ =? 0); [intros H; injection H; intros; subst; auto |].
  destruct (getVideoFrame p). intros H; injection H; intros; subst. auto.
Qed.

Lemma flush_polling (d d' : V4L2Decoder DecodeCB) (c c' : Client) :
  flush cbs d c = Some (d', c') ->
  mState d = Decoding \/ mState d = Draining ->
  isPolling (mDevice d') = pollingRestarts d /\
  mState d' = if pollingRestarts d then Idle else Error.
Proof.
  intros H Hs. unfold flush in H.
  replace (State_eqb (mState d) Idle) with false in H
    by (destruct Hs as [-> | ->]; reflexivity).
  replace (State_eqb (mState d) Error) with false in H
    by (destruct Hs as [-> | ->]; reflexivity).
  cbv iota in H.
  destruct (runPendingDecodeCbs cbs _ kAborted c) as [c1|]; [| discriminate].
  set (d1 := set_mPendingDecodeCbs OMap.empty d) in H.
  assert (Hd2 : forall d2 c2,
    match mDrainCb d1 with
    | Some cb => c'0 <- runDecodeCb cbs cb kAborted c1 ;;
                 Some (set_mDrainCb None d1, c'0)
    | None => Some (d1, c1)
    end = Some (d2, c2) ->
    mDevice d2 = mDevice d /\ mState d2 = mState d).
  { intros d2 c2 E. destruct (mDrainCb d1) as [cb|] eqn:Ecb.
    - destruct (runDecodeCb cbs cb kAborted c1); [| discriminate].
      injection E; intros; subst. cbn. auto.
    - injection E; intros; subst. cbn in *. auto. }
  destruct (match mDrainCb d1 with Some _ => _ | None => _ end)
    as [[d2 c2]|]; [| discriminate].
  specialize (Hd2 d2 c2 eq_refl). destruct Hd2 as [Hdev Hst].
  cbv zeta in H.
  match type of H with
  | context [match mVideoFramePool ?x with _ => _ end] =>
      set (d8 := x) in H;
      assert (H8 : isPolling (mDevice d8) = false /\
                   answers (mDevice d8) = answers (mDevice d) /\
                   nextRequest (mDevice d8) =
                     (nextRequest (mDevice d) +
                      (if isStreaming (outputQueue d) then 2 else 1))%nat /\
                   mState d8 = mState d)
  end.
  { subst d8. unfold outputQueue. rewrite Hdev.
    destruct (isStreaming (mOutputQueue (mDevice d))); cbn; rewrite ?Hdev, ?Hst;
      repeat split; try reflexivity; lia. }
  clearbody d8. destruct H8 as [Hpoll [Hans [Hnext Hst8]]].
  assert (H9 : forall d9 c3,
    match mVideoFramePool d8 with
    | Some _ => tryFetchVideoFrame cbs d8 c2
    | None => Some (d8, c2)
    end = Some (d9, c3) ->
    mDevice d9 = mDevice d8 /\ mState d9 = mState d8).
  { intros d9 c3 E. destruct (mVideoFramePool d8) eqn:Ep.
    - exact (tryFetchVideoFrame_pool_device _ _ _ _ _ Ep E).
    - injection E; intros; subst. auto. }
  destruct (match mVideoFramePool d8 with Some _ => _ | None => _ end)
    as [[d9 c3]|]; [| discriminate].
  specialize (H9 d9 c3 eq_refl). destruct H9 as [Hdev9 Hst9].
  assert (Hpr : pollingRestarts d
                = ok (answers (mDevice d9) (nextRequest (mDevice d9)))).
  { unfold pollingRestarts. rewrite Hdev9, Hans, Hnext.
    reflexivity. }
  unfold startPolling, request in H. cbv beta iota zeta in H.
  rewrite <- Hpr in H.
  destruct (pollingRestarts d); cbn [negb] in H.
  - injection H; intros; subst. rewrite setState_device. cbn.
    split; [reflexivity |]. unfold setState. cbn [mState set_mDevice].
    rewrite Hst9, Hst8. destruct Hs as [-> | ->]; reflexivity.
  - pose proof (onError_device _ _ _ _ _ H) as Hd.
    rewrite Hd. cbn. split; [rewrite Hdev9; exact Hpoll |].
    unfold onError in H. destruct (mErrorCb cbs c3); [| discriminate].
    injection H; intros; subst. apply setState_Error_state.
Qed.
End FlushFacts.

Lemma reportAbandonedWorks_empty (c : Component) :
  mPendingWorks (reportAbandonedWorks c) = [] /\
  mWorksAtDecoder (reportAbandonedWorks c) = [].
Proof.
  unfold reportAbandonedWorks.
  destruct (map abandon _); [split; reflexivity |].
  cbn. destruct (mListener c); split; reflexivity.
Qed.

Lemma reportAbandonedWorks_nothing (c : Component) :
  mPendingWorks c = [] -> mWorksAtDecoder c = [] ->
  mIsDraining c = false ->
  set_mIsDraining false (reportAbandonedWorks c) = c.
Proof.
  intros Hp Hw Hd. unfold reportAbandonedWorks. rewrite Hp, Hw. cbn.
  destruct c; cbn in *; subst; reflexivity.
Qed.

(** C7, amended: when [flushTask] has run, a second run right after it
    changes nothing at all: no work is emitted to the listener,
    [mPendingWorks] and [mWorksAtDecoder] stay empty, [mIsDraining] stays
    false and the decoder keeps its state.  After the first flush that
    state is Idle, or Error when the decoder was in Error or could not
    restart polling: a decoder in Idle or Error keeps its state, and a
    decoder in Decoding or Draining is Idle and polling when the driver
    accepts the [startPolling] of the flush, and in Error and not polling
    when the driver refuses it. *)
Theorem flushTask_twice (d : Decoder) (c : Component) (d1 : Decoder)
    (c1 : Component) :
  flushTask d c = Some (d1, c1) ->
  flushTask d1 c1 = Some (d1, c1) /\
  (mState d1 = Idle \/ mState d1 = Error) /\
  mPendingWorks c1 = [] /\ mWorksAtDecoder c1 = [] /\ mIsDraining c1 = false /\
  mState d1 =
    match mState d with
    | Idle => Idle
    | Error => Error
    | Decoding | Draining => if pollingRestarts d then Idle else Error
    end /\
  (mState d = Decoding \/ mState d = Draining ->
   isPolling (mDevice d1) = pollingRestarts d).
Proof.
  unfold flushTask. intros H.
  destruct (flush componentCallbacks d c) as [[d' c']|] eqn:E; [| discriminate].
  injection H; intros Hc Hd; subst d'.
  pose proof (flush_state _ _ _ _ _ E) as Hs.
  destruct (reportAbandonedWorks_empty c') as [Hp Hw].
  assert (Hp1 : mPendingWorks c1 = []) by (rewrite <- Hc; exact Hp).
  assert (Hw1 : mWorksAtDecoder c1 = []) by (rewrite <- Hc; exact Hw).
  assert (Hd1 : mIsDraining c1 = false) by (rewrite <- Hc; reflexivity).
  rewrite (flush_settled componentCallbacks d1 c1 Hs).
  rewrite (reportAbandonedWorks_nothing c1 Hp1 Hw1 Hd1).
  repeat (split; [auto; fail |]).
  split.
  - destruct (mState d) eqn:Ed.
    + rewrite (flush_settled componentCallbacks d c (or_introl Ed)) in E.
      injection E; intros; subst. exact Ed.
    + apply (flush_polling _ _ _ _ _ E). auto.
    + apply (flush_polling _ _ _ _ _ E). auto.
    + rewrite (flush_settled componentCallbacks d c (or_intror Ed)) in E.
      injection E; intros; subst. exact Ed.
  - intros Hdd. apply (flush_polling _ _ _ _ _ E Hdd).
Qed.

Lemma flushTask_twice_witness :
  match flushTask (sampleDecoder Decoding acceptingDriver) flushInput with
  | Some (d1, c1) =>
      flushTask d1 c1 = Some (d1, c1) /\
      (mState d1 = Idle \/ mState d1 = Error) /\
      mPendingWorks c1 = [] /\ mWorksAtDecoder c1 = [] /\
      mIsDraining c1 = false /\
      mState d1 = Idle /\
      isPolling (mDevice d1) = true
  | None => False
  end.
Proof.
  destruct (flushTask (sampleDecoder Decoding acceptingDriver) flushInput)
    as [[d1 c1]|] eqn:E.
  - destruct (flushTask_twice _ _ _ _ E)
      as [H1 [H2 [H3 [H4 [H5 [H6 H7]]]]]].
    repeat split; try assumption.
    exact (H7 (or_introl eq_refl)).
  - vm_compute in E. discriminate E.
Defined.

(** C7, as stated, fails in its remark on the decoder state: a decoder
    in Error ignores the flush, so its state after the first flush is
    Error, not Idle. *)
Lemma flushTask_error_counterexample :
  let d : Decoder := sampleDecoder Error acceptingDriver in
  let c := sampleComponent ERROR (Some 7) in
  flushTask d c = Some (d, c) /\ mState d = Error /\ mState d <> Idle.
Proof.
  cbv zeta. split; [reflexivity |]. split; [reflexivity | discriminate].
Qed.





(** * Further properties of the code *)

(** ** Bitstream ids *)

(** X1: the bitstream id of a frame index is the index modulo 2^30: it lies
    in [0, 2^30), fits an [int32_t], and two frame indices that differ by
    2^30 get the same id. *)
Theorem frameIndexToBitstreamId_mod (frameIndex : Z) :
  frameIndexToBitstreamId frameIndex = frameIndex mod 2 ^ 30 /\
  0 <= frameIndexToBitstreamId frameIndex < 2 ^ 30 /\
  in_int32 (frameIndexToBitstreamId frameIndex) = true /\
  frameIndexToBitstreamId (frameIndex + 2 ^ 30)
    = frameIndexToBitstreamId frameIndex.
Proof.
  assert (E : forall i, frameIndexToBitstreamId i = i mod 2 ^ 30).
  { intros i. unfold frameIndexToBitstreamId, to_uint64.
    change 1073741823 with (Z.ones 30).
    rewrite Z.land_ones by lia.
    apply Z.mod_mod_divide. exists (2 ^ 34). reflexivity. }
  rewrite !E.
  pose proof (Z.mod_pos_bound frameIndex (2 ^ 30) ltac:(lia)) as Hb.
  split; [reflexivity |]. split; [exact Hb |]. split.
  - unfold in_int32, INT_MIN, INT_MAX.
    apply andb_true_iff. split; apply Z.leb_le; lia.
  - replace (frameIndex + 2 ^ 30) with (frameIndex + 1 * 2 ^ 30) by lia.
    apply Z_mod_plus_full.
Qed.

(** ** The state of the decoder *)

(** X2: [setState] never leaves Error; from any other state it reaches
    every state asked for but Draining; the result is Draining only when
    Draining was asked for in Decoding (or in Draining already), and
    asking for it in Idle ends in Error. *)
Theorem setState_transitions {DecodeCB} (newState : State)
    (d : V4L2Decoder DecodeCB) :
  (mState d = Error -> mState (setState newState d) = Error) /\
  (mState d <> Error -> newState <> Draining ->
   mState (setState newState d) = newState) /\
  (mState (setState newState d) = Draining ->
   newState = Draining /\ (mState d = Decoding \/ mState d = Draining)) /\
  (mState d = Idle -> mState (setState Draining d) = Error).
Proof.
  unfold setState.
  destruct (mState d) eqn:Hd, newState; cbn; rewrite ?Hd;
    repeat split; intros; try congruence; auto.
Qed.

Lemma setState_transitions_witness :
  mState (setState Decoding
            (sampleDecoder (DecodeCB := Z) Idle acceptingDriver)) = Decoding.
Proof.
  apply (proj1 (proj2 (setState_transitions Decoding
           (sampleDecoder (DecodeCB := Z) Idle acceptingDriver))));
    discriminate.
Defined.

(** ** Error reports *)

(** X3: [reportError] is idempotent: the component is in ERROR after the
    first report, a second report changes nothing, and together they call
    the listener at most once. *)
Theorem reportError_once (first second : c2_status_t) (c : Component) :
  reportError second (reportError first c) = reportError first c /\
  mComponentState (reportError first c) = ERROR /\
  (length (listenerCalls (reportError second (reportError first c)))
   <= S (length (listenerCalls c)))%nat.
Proof.
  assert (E : reportError second (reportError first c) = reportError first c).
  { unfold reportError at 1. rewrite reportError_state. reflexivity. }
  rewrite E. split; [reflexivity |]. split; [apply reportError_state |].
  rewrite reportError_calls, length_app.
  destruct (mComponentState c), (mListener c); cbn; lia.
Qed.

(** ** Following a field of the decoder through a computation *)

(* Follows the term in the goal back through the equations that define
   it; [norm] simplifies the field looked at, [more] brings facts on the
   calls made. *)
Ltac follow_back norm more :=
  repeat first
    [ norm
    | match goal with
      | E : Some _ = Some _ |- _ => injection E; clear E; intros
      | E : (_, _) = (_, _) |- _ => injection E; clear E; intros
      | E : _ = (_, ?v) |- context [?v] =>
          is_var v; apply pair_snd in E; rewrite E; clear E
      | E : ?v = _ |- context [?v] => is_var v; rewrite E; clear E
      | E : _ = ?v |- context [?v] => is_var v; rewrite <- E; clear E
      | |- context [if ?b then _ else _] => destruct b; cbv iota
      end
    | more ].

Section ErrorLatch.
Context {DecodeCB Client : Type}.
Variable cbs : Callbacks DecodeCB Client.

Lemma state_setState_Error s (d : V4L2Decoder DecodeCB) :
  mState d = Error -> mState (setState s d) = Error.
Proof.
  intros He. unfold setState. rewrite He. destruct s; cbn; exact He.
Qed.

Lemma state_setupOutputFormat_loop fmts : forall d : V4L2Decoder DecodeCB,
  mState (snd (setupOutputFormat_loop fmts d)) = mState d.
Proof.
  induction fmts as [|f rest IH]; intros d; cbn [setupOutputFormat_loop].
  - reflexivity.
  - destruct (negb _); [apply IH |].
    unfold request. cbn. destruct (ok _); [reflexivity |].
    rewrite IH. reflexivity.
Qed.

Lemma state_setupOutputFormat sz (d : V4L2Decoder DecodeCB) :
  mState (snd (setupOutputFormat sz d)) = mState d.
Proof.
  unfold setupOutputFormat, request. cbn.
  rewrite state_setupOutputFormat_loop. reflexivity.
Qed.

Lemma state_dequeueResolutionChangeEvent (d : V4L2Decoder DecodeCB) :
  mState (snd (dequeueResolutionChangeEvent d)) = mState d.
Proof.
  unfold dequeueResolutionChangeEvent.
  destruct (dequeueResolutionChangeEvent_loop _). reflexivity.
Qed.

Lemma state_startPolling (d : V4L2Decoder DecodeCB) :
  mState (snd (startPolling d)) = mState d.
Proof. reflexivity. Qed.

Ltac state_norm :=
  first
    [ progress cbn [mState fst snd
        set_mState set_mDecodeRequests set_mPendingDecodeCbs set_mDrainCb
        set_mDevice set_mFrameAtDevice set_mBlockIdToV4L2Id
        set_mVideoFramePool set_mCodedSize set_mVisibleRect set_inputQueue
        set_outputQueue stopPolling streamonInput streamonOutput
        getFormatInfo getNumOutputBuffers sendV4L2DecoderCmd]
    | rewrite state_setupOutputFormat
    | rewrite state_dequeueResolutionChangeEvent
    | rewrite state_startPolling ].

Lemma tryFetchVideoFrame_latch d c d' c' :
  tryFetchVideoFrame cbs d c = Some (d', c') ->
  mState d = Error -> mState d' = Error.
Proof.
  unfold tryFetchVideoFrame. intros H He. split_cases H.
  all: try (apply (onError_state cbs) in H; exact H).
  all: follow_back state_norm fail; exact He.
Qed.

Lemma onVideoFrameReady_latch fr d c d' c' :
  onVideoFrameReady cbs fr d c = Some (d', c') ->
  mState d = Error -> mState d' = Error.
Proof.
  unfold onVideoFrameReady. intros H He. split_cases H.
  all: try (apply (onError_state cbs) in H; exact H).
  all: apply tryFetchVideoFrame_latch in H; [exact H |].
  all: follow_back state_norm fail; exact He.
Qed.

Lemma DecoderStep_latch s s' :
  DecoderStep cbs s s' -> mState (fst s) = Error -> mState (fst s') = Error.
Proof.
  intros Hstep. destruct Hstep as
    [buf cb d c [d' c'] H | cb d c [d' c'] H | d c [d' c'] H
    | d c [d' c'] H | event d c [d' c'] H | d c [d' c'] H
    | frame d c [d' c'] H | d c dev' H | d c c']; cbn [fst]; intros He.
  - unfold decode in H. rewrite He in H. cbn in H. congruence.
  - unfold drain in H. rewrite He in H. congruence.
  - unfold flush in H. rewrite He in H. cbn in H. congruence.
  - unfold pumpDecodeRequest in H. rewrite He in H. cbn in H. congruence.
  - unfold serviceDeviceTask in H. rewrite He in H. cbn in H. congruence.
  - eapply tryFetchVideoFrame_latch; eassumption.
  - eapply onVideoFrameReady_latch; eassumption.
  - exact He.
  - exact He.
Qed.

(** X4: once the decoder is in Error it stays there along every
    execution, and then flush, pump and service do nothing, while decode
    and drain only post their callback with kError. *)
Theorem error_is_latched (s s' : V4L2Decoder DecodeCB * Client) :
  Execution cbs s s' -> mState (fst s) = Error ->
  mState (fst s') = Error /\
  forall c,
    flush cbs (fst s') c = Some (fst s', c) /\
    pumpDecodeRequest cbs (fst s') c = Some (fst s', c) /\
    (forall event, serviceDeviceTask cbs event (fst s') c = Some (fst s', c)) /\
    (forall buf cb,
       decode cbs buf cb (fst s') c
       = Some (fst s', postTask cbs (TaskRunDecodeCb cb kError) c)) /\
    (forall cb,
       drain cbs cb (fst s') c
       = Some (fst s', postTask cbs (TaskRunDecodeCb cb kError) c)).
Proof.
  intros Hexec He.
  assert (He' : mState (fst s') = Error).
  { induction Hexec as [s | s1 s2 s3 Hexec IH Hstep]; [exact He |].
    eapply DecoderStep_latch; [exact Hstep | apply IH; exact He]. }
  split; [exact He' |]. intros c.
  unfold flush, pumpDecodeRequest, serviceDeviceTask, decode, drain.
  rewrite He'. cbn. repeat split.
Qed.
End ErrorLatch.

Lemma error_is_latched_witness :
  let s : V4L2Decoder Z * list (ClientCall Z) :=
    (sampleDecoder Error acceptingDriver, []) in
  mState (fst s) = Error /\
  forall c,
    flush (recorder Z None) (fst s) c = Some (fst s, c) /\
    pumpDecodeRequest (recorder Z None) (fst s) c = Some (fst s, c) /\
    (forall event,
       serviceDeviceTask (recorder Z None) event (fst s) c = Some (fst s, c)) /\
    (forall buf cb,
       decode (recorder Z None) buf cb (fst s) c
       = Some (fst s, postTask (recorder Z None) (TaskRunDecodeCb cb kError) c)) /\
    (forall cb,
       drain (recorder Z None) cb (fst s) c
       = Some (fst s, postTask (recorder Z None) (TaskRunDecodeCb cb kError) c)).
Proof.
  apply (error_is_latched (recorder Z None)
           (sampleDecoder Error acceptingDriver, [])).
  - apply (exec_step _ (sampleDecoder Error acceptingDriver, [])
                       (sampleDecoder Error acceptingDriver, []));
      [apply exec_start |].
    apply step_flush. reflexivity.
  - reflexivity.
Defined.

(** ** Abandoned works *)

Lemma abandon_result (w : C2Work) :
  result (abandon w) = C2_NOT_FOUND /\
  (buffers (input w) = [] \/ hd_error (buffers (input (abandon w))) = Some None) /\
  length (buffers (input (abandon w))) = length (buffers (input w)) /\
  worklets (abandon w) = worklets w /\
  flags (input (abandon w)) = flags (input w) /\
  ordinal (input (abandon w)) = ordinal (input w).
Proof.
  unfold abandon. cbn [set_result input buffers].
  destruct (buffers (input w)) as [|b rest] eqn:E; cbn; rewrite ?E; auto 10.
Qed.

Lemma reportAbandonedWorks_calls (c : Component) :
  listenerCalls (reportAbandonedWorks c) =
    listenerCalls c ++
    match mPendingWorks c ++ OMap.values (mWorksAtDecoder c), mListener c with
    | _ :: _, Some l =>
        [onWorkDone_nb l
           (map abandon (mPendingWorks c ++ OMap.values (mWorksAtDecoder c)))]
    | _, _ => []
    end.
Proof.
  unfold reportAbandonedWorks.
  destruct (mPendingWorks c ++ OMap.values (mWorksAtDecoder c)) as [|w ws];
    cbn [map].
  - cbn. rewrite app_nil_r. reflexivity.
  - cbn. destruct (mListener c); cbn; rewrite ?app_nil_r; reflexivity.
Qed.

Lemma reportAbandonedWorks_listener (c : Component) :
  mListener (reportAbandonedWorks c) = mListener c.
Proof.
  unfold reportAbandonedWorks.
  destruct (map abandon _); [reflexivity |].
  cbn [mListener set_mWorksAtDecoder set_mPendingWorks].
  destruct (mListener c) eqn:E; cbn; auto.
Qed.

(** X5: [reportAbandonedWorks] empties the pending works and the works
    at the decoder and hands them to the listener in one call, pending
    works first and then the works at the decoder in the order of their
    ids, each with result C2_NOT_FOUND and its first input buffer, if it
    has one, released; with
    nothing to abandon the listener is not called.  The component state
    and the queue of output ids are untouched. *)
Theorem reportAbandonedWorks_batch (c : Component) :
  let abandoned := mPendingWorks c ++ OMap.values (mWorksAtDecoder c) in
  mPendingWorks (reportAbandonedWorks c) = [] /\
  mWorksAtDecoder (reportAbandonedWorks c) = [] /\
  listenerCalls (reportAbandonedWorks c) =
    listenerCalls c ++
    match abandoned, mListener c with
    | _ :: _, Some l => [onWorkDone_nb l (map abandon abandoned)]
    | _, _ => []
    end /\
  Forall (fun w => result w = C2_NOT_FOUND /\
                   (buffers (input w) = [] \/
                    hd_error (buffers (input w)) = Some None))
         (map abandon abandoned) /\
  mComponentState (reportAbandonedWorks c) = mComponentState c /\
  mOutputBitstreamIds (reportAbandonedWorks c) = mOutputBitstreamIds c.
Proof.
  cbv zeta. unfold reportAbandonedWorks.
  set (abandoned := mPendingWorks c ++ OMap.values (mWorksAtDecoder c)).
  repeat split.
  - destruct (map abandon abandoned); [reflexivity |].
    cbn. destruct (mListener c); reflexivity.
  - destruct (map abandon abandoned); [reflexivity |].
    cbn. destruct (mListener c); reflexivity.
  - destruct abandoned as [|w ws]; cbn [map].
    + cbn. rewrite app_nil_r. reflexivity.
    + cbn. destruct (mListener c); cbn; rewrite ?app_nil_r; reflexivity.
  - apply Forall_forall. intros w Hin. apply in_map_iff in Hin.
    destruct Hin as [w0 [<- _]].
    destruct (abandon_result w0) as [Hr [Hb [Hl _]]].
    split; [exact Hr |].
    destruct Hb as [Hb | Hb]; [| right; exact Hb].
    left. rewrite Hb in Hl. destruct (buffers (input (abandon w0)));
      [reflexivity | discriminate].
  - destruct (map abandon abandoned); [reflexivity |].
    cbn. destruct (mListener c); reflexivity.
  - destruct (map abandon abandoned); [reflexivity |].
    cbn. destruct (mListener c); reflexivity.
Qed.

(** ** Reports of finished works *)

Lemma reportWorkIfFinished_outcome (bitstreamId : Z) (c : Component)
    (reported : bool) (c' : Component) :
  reportWorkIfFinished bitstreamId c = Some (reported, c') ->
  c' = c \/
  exists (found work : C2Work) (worklet : C2Worklet),
    OMap.find bitstreamId (mWorksAtDecoder c) = Some found /\
    isWorkDone found = Some true /\
    mWorksAtDecoder c' = OMap.erase bitstreamId (mWorksAtDecoder c) /\
    result work = C2_OK /\
    workletsProcessed work = to_uint32 (Z.of_nat (length (worklets found))) /\
    input work = input found /\
    hd_error (buffers (input work)) = Some None /\
    Z.land (flags (input work)) FLAG_END_OF_STREAM = 0 /\
    hd_error (worklets work) = Some worklet /\
    Z.land (flags (output worklet)) FLAG_DROP_FRAME = 0 /\
    listenerCalls c' =
      listenerCalls c ++
      match mListener c with
      | Some l => [onWorkDone_nb l [work]]
      | None => []
      end /\
    reported = match mListener c with Some _ => true | None => false end.
Proof.
  unfold reportWorkIfFinished. intros H.
  destruct (mIsDraining c && (OMap.size (mWorksAtDecoder c) =? 1));
    [left; congruence |].
  destruct (OMap.find bitstreamId (mWorksAtDecoder c)) as [found|] eqn:Hf;
    [| left; congruence].
  destruct (isWorkDone found) as [[|]|] eqn:Hd; cbn [negb] in H;
    [| left; congruence | discriminate].
  right.
  assert (Hshape : exists rest worklet others,
             buffers (input found) = None :: rest /\
             worklets found = worklet :: others /\
             Z.land (flags (input found)) FLAG_END_OF_STREAM = 0).
  { unfold isWorkDone in Hd.
    destruct (has_flag (flags (input found)) FLAG_END_OF_STREAM) eqn:He;
      [discriminate |].
    apply has_flag_false in He.
    destruct (buffers (input found)) as [|[b|] rest]; cbn in Hd;
      try discriminate;
      destruct (worklets found) as [|worklet others]; cbn in Hd;
      try discriminate.
    eauto 6. }
  destruct Hshape as [rest [worklet [others [Hb [Hw He]]]]].
  cbn [set_workletsProcessed set_result worklets] in H.
  rewrite Hw in H. cbn [hd_error] in H.
  assert (Hfinish : forall work worklet',
            input work = input found ->
            result work = C2_OK ->
            workletsProcessed work
              = to_uint32 (Z.of_nat (length (worklets found))) ->
            hd_error (worklets work) = Some worklet' ->
            Z.land (flags (output worklet')) FLAG_DROP_FRAME = 0 ->
            Some (reportWork work
                    (set_mWorksAtDecoder
                       (OMap.erase bitstreamId (mWorksAtDecoder c)) c))
              = Some (reported, c') ->
            exists (found0 work0 : C2Work) (worklet0 : C2Worklet),
              Some found = Some found0 /\
              isWorkDone found0 = Some true /\
              mWorksAtDecoder c' = OMap.erase bitstreamId (mWorksAtDecoder c) /\
              result work0 = C2_OK /\
              workletsProcessed work0
                = to_uint32 (Z.of_nat (length (worklets found0))) /\
              input work0 = input found0 /\
              hd_error (buffers (input work0)) = Some None /\
              Z.land (flags (input work0)) FLAG_END_OF_STREAM = 0 /\
              hd_error (worklets work0) = Some worklet0 /\
              Z.land (flags (output worklet0)) FLAG_DROP_FRAME = 0 /\
              listenerCalls c' =
                listenerCalls c ++
                match mListener c with
                | Some l => [onWorkDone_nb l [work0]]
                | None => []
                end /\
              reported = match mListener c with
                         | Some _ => true
                         | None => false
                         end).
  { intros work worklet' Hi Hr Hp Hwl Hfl Hrep.
    exists found, work, worklet'.
    split; [reflexivity |]. split; [exact Hd |].
    unfold reportWork in Hrep. cbn [mListener set_mWorksAtDecoder] in Hrep.
    destruct (mListener c) as [l|]; injection Hrep; intros; subst;
      cbn; rewrite ?app_nil_r, ?Hi, ?Hb; cbn; auto 12. }
  destruct (has_flag (flags (output worklet)) FLAG_DROP_FRAME) eqn:Hdrop.
  - unfold map_front_output in H.
    cbn [worklets set_workletsProcessed set_result] in H. rewrite Hw in H.
    eapply Hfinish; [| | | | | exact H]; try reflexivity.
    cbn. rewrite Hw. reflexivity.
  - apply has_flag_false in Hdrop.
    eapply Hfinish; [| | | | | exact H]; try reflexivity.
    + cbn. rewrite Hw. reflexivity.
    + cbn. rewrite Hw. reflexivity.
    + exact Hdrop.
Qed.

(** X6: [reportWorkIfFinished] either leaves the component as it is, or
    takes the work with that id out of the works at the decoder: then the
    work was done, it is not the EOS work, its input buffer is released,
    its result is C2_OK, the DROP_FRAME flag of its output is cleared, and
    it goes to the listener in a call of its own (when there is a
    listener). *)
Theorem reportWorkIfFinished_reports_done (bitstreamId : Z) (c : Component)
    (reported : bool) (c' : Component) :
  reportWorkIfFinished bitstreamId c = Some (reported, c') ->
  c' = c \/
  exists (found work : C2Work) (worklet : C2Worklet),
    OMap.find bitstreamId (mWorksAtDecoder c) = Some found /\
    isWorkDone found = Some true /\
    mWorksAtDecoder c' = OMap.erase bitstreamId (mWorksAtDecoder c) /\
    result work = C2_OK /\
    workletsProcessed work = to_uint32 (Z.of_nat (length (worklets found))) /\
    input work = input found /\
    hd_error (buffers (input work)) = Some None /\
    Z.land (flags (input work)) FLAG_END_OF_STREAM = 0 /\
    hd_error (worklets work) = Some worklet /\
    Z.land (flags (output worklet)) FLAG_DROP_FRAME = 0 /\
    listenerCalls c' =
      listenerCalls c ++
      match mListener c with
      | Some l => [onWorkDone_nb l [work]]
      | None => []
      end /\
    reported = match mListener c with Some _ => true | None => false end.
Proof. apply reportWorkIfFinished_outcome. Qed.

(** ** The report of the EOS work *)

Lemma find_if_first (p : C2Work -> bool) (m : OMap.t C2Work) (k : Z)
    (w : C2Work) :
  find_if p m = Some (k, w) ->
  p w = true /\
  exists before after,
    m = before ++ (k, w) :: after /\
    Forall (fun kv => p (snd kv) = false) before.
Proof.
  induction m as [|[k0 w0] m IH]; cbn [find_if]; [discriminate |].
  destruct (p w0) eqn:E0.
  - intros H. injection H; intros; subst. split; [exact E0 |].
    exists [], m. split; [reflexivity | constructor].
  - intros H. destruct (IH H) as [Hp [before [after [-> Hall]]]].
    split; [exact Hp |].
    exists ((k0, w0) :: before), after. split; [reflexivity |].
    constructor; [exact E0 | exact Hall].
Qed.

Lemma reportEOSWork_outcome (c : Component) (reported : bool)
    (c' : Component) :
  reportEOSWork c = Some (reported, c') ->
  (find_if (fun w => has_flag (flags (input w)) FLAG_END_OF_STREAM)
           (mWorksAtDecoder c) = None /\ reported = false /\ c' = c) \/
  exists (k : Z) (found eos : C2Work) (worklet : C2Worklet),
    find_if (fun w => has_flag (flags (input w)) FLAG_END_OF_STREAM)
            (mWorksAtDecoder c) = Some (k, found) /\
    mWorksAtDecoder c' = [] /\
    result eos = C2_OK /\
    hd_error (worklets eos) = Some worklet /\
    flags (output worklet) = FLAG_END_OF_STREAM /\
    (buffers (input found) = [] \/
     hd_error (buffers (input eos)) = Some None) /\
    listenerCalls c' =
      listenerCalls c ++
      match mListener c with
      | Some l =>
          match OMap.erase k (mWorksAtDecoder c) with
          | [] => []
          | others =>
              [onWorkDone_nb l
                 (map abandon (mPendingWorks c ++ OMap.values others))]
          end ++ [onWorkDone_nb l [eos]]
      | None => []
      end /\
    reported = match mListener c with Some _ => true | None => false end /\
    reportedAsEOS found eos /\
    has_flag (flags (input found)) FLAG_END_OF_STREAM = true /\
    exists before after,
      mWorksAtDecoder c = before ++ (k, found) :: after /\
      Forall (fun kv => has_flag (flags (input (snd kv))) FLAG_END_OF_STREAM
                        = false) before.
Proof.
  unfold reportEOSWork. intros H.
  destruct (find_if _ (mWorksAtDecoder c)) as [[k found]|] eqn:Hf.
  2:{ left. injection H; intros; subst. auto. }
  right. unfold map_front_output in H.
  cbn [worklets set_workletsProcessed set_result] in H.
  destruct (worklets found) as [|worklet others] eqn:Hw; [discriminate |].
  cbv zeta in H.
  set (c1 := set_mWorksAtDecoder (OMap.erase k (mWorksAtDecoder c)) c) in *.
  match type of H with
  | Some (reportWork ?e ?c2) = _ => set (eos := e) in *; set (cc := c2) in *
  end.
  assert (Hcc : mWorksAtDecoder cc = [] /\ mListener cc = mListener c /\
                listenerCalls cc =
                  listenerCalls c ++
                  match mListener c with
                  | Some l =>
                      match OMap.erase k (mWorksAtDecoder c) with
                      | [] => []
                      | others =>
                          [onWorkDone_nb l
                             (map abandon
                                (mPendingWorks c ++ OMap.values others))]
                      end
                  | None => []
                  end).
  { subst cc.
    assert (E1 : mWorksAtDecoder c1 = OMap.erase k (mWorksAtDecoder c))
      by reflexivity.
    rewrite E1.
    destruct (OMap.erase k (mWorksAtDecoder c)) as [|kv m] eqn:He.
    - split; [exact E1 |]. split; [reflexivity |].
      subst c1. cbn. destruct (mListener c); rewrite app_nil_r; reflexivity.
    - split; [apply reportAbandonedWorks_empty |].
      split; [rewrite reportAbandonedWorks_listener; reflexivity |].
      rewrite reportAbandonedWorks_calls. rewrite E1.
      change (mPendingWorks c1) with (mPendingWorks c).
      change (mListener c1) with (mListener c).
      change (listenerCalls c1) with (listenerCalls c).
      destruct (mPendingWorks c ++ OMap.values (kv :: m)) eqn:Ha.
      + apply app_eq_nil in Ha. destruct Ha as [_ Ha]. discriminate.
      + destruct (mListener c); rewrite ?app_nil_r; reflexivity. }
  destruct Hcc as [Hcw [Hcl Hcc]].
  exists k, found, eos, (mkWorklet (set_flags FLAG_END_OF_STREAM (output worklet))).
  split; [reflexivity |].
  assert (Heos : result eos = C2_OK /\
                 hd_error (worklets eos)
                   = Some (mkWorklet
                             (set_flags FLAG_END_OF_STREAM (output worklet))) /\
                 (buffers (input found) = [] \/
                  hd_error (buffers (input eos)) = Some None)).
  { subst eos. cbn [input set_worklets set_workletsProcessed set_result buffers].
    destruct (buffers (input found)) as [|b rest] eqn:Hb; cbn; auto. }
  destruct Heos as [Hr [Hwl Hbuf]].
  assert (Has : reportedAsEOS found eos).
  { subst eos. unfold reportedAsEOS. rewrite Hw.
    cbn [input set_worklets set_workletsProcessed set_result buffers].
    destruct (buffers (input found)) as [|b rest] eqn:Hb;
      unfold set_worklets, set_workletsProcessed, set_result, set_input,
        set_buffers, set_flags;
      cbn [result workletsProcessed input worklets flags ordinal buffers
           output];
      rewrite ?Hb; repeat split; reflexivity. }
  pose proof (find_if_first _ _ _ _ Hf) as [Hflag Hfirst].
  unfold reportWork in H. rewrite Hcl in H.
  destruct (mListener c) as [l|]; injection H; intros; subst c' reported.
  - cbn [mWorksAtDecoder callListener set_listenerCalls listenerCalls].
    rewrite Hcw, Hcc, <- app_assoc. auto 12.
  - rewrite Hcw, Hcc. auto 12.
Qed.

(** X7: [reportEOSWork] either finds no EOS work and changes nothing, or
    leaves no work at the decoder: the works that remained are abandoned
    together with the pending works in one call, and the EOS work is
    reported after them, with result C2_OK and output flags
    FLAG_END_OF_STREAM.  The work reported is the first work at the
    decoder (in id order) that carries END_OF_STREAM, with its input flags
    and ordinal, its other worklets and the ordinal and buffers of its
    first output as they were, and its first input buffer released. *)
Theorem reportEOSWork_last (c : Component) (reported : bool)
    (c' : Component) :
  reportEOSWork c = Some (reported, c') ->
  (find_if (fun w => has_flag (flags (input w)) FLAG_END_OF_STREAM)
           (mWorksAtDecoder c) = None /\ reported = false /\ c' = c) \/
  exists (k : Z) (found eos : C2Work) (worklet : C2Worklet),
    find_if (fun w => has_flag (flags (input w)) FLAG_END_OF_STREAM)
            (mWorksAtDecoder c) = Some (k, found) /\
    mWorksAtDecoder c' = [] /\
    result eos = C2_OK /\
    hd_error (worklets eos) = Some worklet /\
    flags (output worklet) = FLAG_END_OF_STREAM /\
    (buffers (input found) = [] \/
     hd_error (buffers (input eos)) = Some None) /\
    listenerCalls c' =
      listenerCalls c ++
      match mListener c with
      | Some l =>
          match OMap.erase k (mWorksAtDecoder c) with
          | [] => []
          | others =>
              [onWorkDone_nb l
                 (map abandon (mPendingWorks c ++ OMap.values others))]
          end ++ [onWorkDone_nb l [eos]]
      | None => []
      end /\
    reported = match mListener c with Some _ => true | None => false end /\
    reportedAsEOS found eos /\
    has_flag (flags (input found)) FLAG_END_OF_STREAM = true /\
    exists before after,
      mWorksAtDecoder c = before ++ (k, found) :: after /\
      Forall (fun kv => has_flag (flags (input (snd kv))) FLAG_END_OF_STREAM
                        = false) before.
Proof. apply reportEOSWork_outcome. Qed.

(** ** The queue of output ids *)

Lemma reportWorkIfFinished_keeps (bitstreamId : Z) (c : Component)
    (reported : bool) (c' : Component) :
  reportWorkIfFinished bitstreamId c = Some (reported, c') ->
  mOutputBitstreamIds c' = mOutputBitstreamIds c /\
  mPendingWorks c' = mPendingWorks c /\
  mComponentState c' = mComponentState c /\
  mIsDraining c' = mIsDraining c /\
  mListener c' = mListener c.
Proof.
  unfold reportWorkIfFinished, reportWork. intros H. split_cases H.
  all: try (injection H; intros; subst; cbn; now auto).
  all: match type of H with
       | context [mListener ?x] => destruct (mListener x) eqn:El
       end; injection H; intros; subst; cbn in *; auto.
Qed.

Lemma pumpReportWork_loop_fifo ids : forall c c',
  pumpReportWork_loop ids c = Some c' ->
  mOutputBitstreamIds c = ids ->
  exists popped new,
    ids = popped ++ mOutputBitstreamIds c' /\
    listenerCalls c' = listenerCalls c ++ new /\
    (length new <= length popped)%nat /\
    Forall reportsOneFinishedWork new /\
    mPendingWorks c' = mPendingWorks c /\
    mComponentState c' = mComponentState c /\
    mIsDraining c' = mIsDraining c.
Proof.
  induction ids as [|front rest IH]; intros c c' H Hids;
    cbn [pumpReportWork_loop] in H.
  - injection H; intros; subst c'. exists [], [].
    rewrite Hids, !app_nil_r. cbn [app length].
    repeat split; auto.
  - destruct (reportWorkIfFinished front c) as [[reported c1]|] eqn:E;
      [| discriminate].
    pose proof (reportWorkIfFinished_keeps _ _ _ _ E)
      as [Hk1 [Hk2 [Hk3 [Hk4 Hk5]]]].
    pose proof (reportWorkIfFinished_outcome _ _ _ _ E) as Hout.
    destruct reported; cbn [negb] in H.
    + apply IH in H; [| reflexivity].
      destruct H as [popped [new [Hp [Hc [Hl [Hf [H1 [H2 H3]]]]]]]].
      cbn [listenerCalls set_mOutputBitstreamIds mPendingWorks
           mComponentState mIsDraining] in Hc, H1, H2, H3.
      destruct Hout as [-> | Hout].
      * exists (front :: popped), new. cbn [app length].
        rewrite <- Hp. repeat split; auto; try congruence; try lia.
      * destruct Hout as [found [work [worklet Hout]]].
        destruct Hout as [_ [_ [_ [Hr [_ [_ [Hb [_ [_ [_ [Hcalls _]]]]]]]]]]].
        destruct (mListener c) as [l|].
        -- exists (front :: popped), (onWorkDone_nb l [work] :: new).
           cbn [app length]. rewrite <- Hp.
           repeat split; try congruence.
           ++ rewrite Hc, Hcalls, <- app_assoc. reflexivity.
           ++ lia.
           ++ constructor; [| exact Hf]. exists l, work. auto.
        -- exists (front :: popped), new. cbn [app length]. rewrite <- Hp.
           rewrite app_nil_r in Hcalls.
           repeat split; try congruence; try lia; auto.
    + injection H; intros; subst c'. exists [].
      destruct Hout as [-> | Hout].
      * exists []. rewrite Hids, !app_nil_r. cbn [app length].
        repeat split; auto.
      * destruct Hout as [found [work [worklet Hout]]].
        destruct Hout as [_ [_ [_ [_ [_ [_ [_ [_ [_ [_ [Hcalls Hrep]]]]]]]]]]].
        destruct (mListener c) as [l|]; [discriminate |].
        exists []. rewrite app_nil_r in *. cbn [app length].
        repeat split; try congruence; auto.
Qed.

(** X8: [pumpReportWork] consumes a prefix of the queue of output ids
    and leaves the rest in order; every call it makes to the listener
    returns exactly one work, finished with C2_OK and with its input
    released, and there are at most as many calls as ids consumed. *)
Theorem pumpReportWork_fifo (c c' : Component) :
  pumpReportWork c = Some c' ->
  exists (popped : list Z) (new : list ListenerCall),
    mOutputBitstreamIds c = popped ++ mOutputBitstreamIds c' /\
    listenerCalls c' = listenerCalls c ++ new /\
    (length new <= length popped)%nat /\
    Forall reportsOneFinishedWork new /\
    mPendingWorks c' = mPendingWorks c /\
    mComponentState c' = mComponentState c /\
    mIsDraining c' = mIsDraining c.
Proof.
  unfold pumpReportWork. intros H.
  destruct (pumpReportWork_loop_fifo _ _ _ H eq_refl) as [popped [new Hr]].
  exists popped, new. exact Hr.
Qed.

(** ** Queueing a work *)

Lemma reportError_keeps (error : c2_status_t) (c : Component) :
  mPendingWorks (reportError error c) = mPendingWorks c /\
  mWorksAtDecoder (reportError error c) = mWorksAtDecoder c /\
  mOutputBitstreamIds (reportError error c) = mOutputBitstreamIds c /\
  mIsDraining (reportError error c) = mIsDraining c /\
  postedTasks (reportError error c) = postedTasks c.
Proof.
  unfold reportError.
  destruct (ComponentState_eqb (mComponentState c) ERROR); [auto |].
  cbn. destruct (mListener c); cbn; auto.
Qed.

(** X9: a work with one worklet, no input buffer and neither the EOS nor
    the CSD flag is rejected by [queueTask]: the component goes to ERROR
    with C2_BAD_VALUE, and the work is neither queued nor returned to the
    listener. *)
Theorem queueTask_empty_input_rejected (work : C2Work) (d : Decoder)
    (c : Component) :
  length (worklets work) = 1%nat ->
  buffers (input work) = [] ->
  Z.land (flags (input work)) FLAG_END_OF_STREAM = 0 ->
  Z.land (flags (input work)) FLAG_CODEC_CONFIG = 0 ->
  exists c',
    queueTask work d c = Some (d, c') /\
    mComponentState c' = ERROR /\
    mPendingWorks c' = mPendingWorks c /\
    mWorksAtDecoder c' = mWorksAtDecoder c /\
    postedTasks c' = postedTasks c /\
    listenerCalls c' =
      listenerCalls c ++
      match mComponentState c, mListener c with
      | ERROR, _ | _, None => []
      | _, Some l => [onError_nb l C2_BAD_VALUE]
      end.
Proof.
  intros Hw Hb He Hc. exists (reportError C2_BAD_VALUE c).
  destruct (reportError_keeps C2_BAD_VALUE c) as [Hp [Hm [_ [_ Ht]]]].
  repeat split; auto using reportError_state, reportError_calls.
  unfold queueTask. rewrite Hw, Hb. cbn [length Z.of_nat Z.eqb Pos.eqb negb orb Z.ltb Z.compare].
  unfold map_front_output.
  destruct (worklets work) as [|wl rest]; [discriminate |].
  cbn [input set_worklets buffers flags]. rewrite Hb, He, Hc. reflexivity.
Qed.

Lemma queueTask_empty_input_rejected_witness :
  exists c',
    queueTask (sampleWork 5 0 0 []) (sampleDecoder Idle acceptingDriver)
      (sampleComponent RUNNING (Some 7)) =
      Some (sampleDecoder Idle acceptingDriver, c') /\
    mComponentState c' = ERROR /\
    mPendingWorks c' = [] /\
    mWorksAtDecoder c' = [] /\
    postedTasks c' = [] /\
    listenerCalls c' = [onError_nb 7 C2_BAD_VALUE].
Proof.
  apply (queueTask_empty_input_rejected (sampleWork 5 0 0 [])
           (sampleDecoder Idle acceptingDriver)
           (sampleComponent RUNNING (Some 7))); reflexivity.
Defined.

(** X10: while the component is draining, or not RUNNING, [queueTask]
    only appends a valid work to the pending works, with its output
    initialised and a null input buffer in place of a missing one; the
    decoder is not touched. *)
Theorem queueTask_deferred (work : C2Work) (d : Decoder) (c : Component) :
  length (worklets work) = 1%nat ->
  (length (buffers (input work)) <= 1)%nat ->
  (buffers (input work) = [] ->
   Z.land (flags (input work)) FLAG_END_OF_STREAM <> 0 \/
   Z.land (flags (input work)) FLAG_CODEC_CONFIG <> 0) ->
  mIsDraining c = true \/ mComponentState c <> RUNNING ->
  exists queued,
    asQueued work queued /\
    queueTask work d c =
      Some (d, set_mPendingWorks (mPendingWorks c ++ [queued]) c).
Proof.
  intros Hw Hb Hf Hwait.
  assert (Hpump : forall q,
    pumpPendingWorks d (set_mPendingWorks (mPendingWorks c ++ [q]) c) =
    Some (d, set_mPendingWorks (mPendingWorks c ++ [q]) c)).
  { intros q. unfold pumpPendingWorks. cbn [mComponentState set_mPendingWorks].
    destruct (ComponentState_eqb (mComponentState c) RUNNING) eqn:Hs;
      cbn [negb]; [| reflexivity].
    destruct Hwait as [Hd | Hn].
    - cbn [mPendingWorks].
      destruct (mPendingWorks c ++ [q]) eqn:E;
        [destruct (mPendingWorks c); discriminate |].
      cbn [pumpPendingWorks_loop mIsDraining mPendingWorks set_mPendingWorks]. rewrite Hd. reflexivity.
    - destruct (mComponentState c); try discriminate. contradiction. }
  unfold queueTask. rewrite Hw.
  cbn [Z.of_nat Pos.of_succ_nat Z.eqb Pos.eqb negb orb].
  replace (1 <? Z.of_nat (length (buffers (input work)))) with false
    by (symmetry; apply Z.ltb_ge; lia).
  unfold map_front_output.
  destruct (worklets work) as [|wl rest] eqn:Ew; [discriminate |].
  cbn [input set_worklets buffers flags].
  destruct (buffers (input work)) as [|b bufs] eqn:Eb.
  - destruct (Hf eq_refl) as [He | Hc].
    + apply Z.eqb_neq in He. rewrite He. cbn [andb].
      eexists. split; [| apply Hpump].
      eexists. cbn. rewrite Eb. repeat split; reflexivity.
    + apply Z.eqb_neq in Hc. rewrite Hc, andb_false_r.
      eexists. split; [| apply Hpump].
      eexists. cbn. rewrite Eb. repeat split; reflexivity.
  - eexists. split; [| apply Hpump].
    eexists. cbn. rewrite Eb. repeat split; reflexivity.
Qed.

Lemma queueTask_deferred_witness :
  exists queued,
    asQueued (sampleWork 5 0 0 [sampleInput]) queued /\
    queueTask (sampleWork 5 0 0 [sampleInput])
      (sampleDecoder Decoding acceptingDriver)
      (set_mIsDraining true (sampleComponent RUNNING (Some 7))) =
    Some (sampleDecoder Decoding acceptingDriver,
          set_mPendingWorks [queued]
            (set_mIsDraining true (sampleComponent RUNNING (Some 7)))).
Proof.
  apply (queueTask_deferred (sampleWork 5 0 0 [sampleInput])
           (sampleDecoder Decoding acceptingDriver)
           (set_mIsDraining true (sampleComponent RUNNING (Some 7)))).
  - reflexivity.
  - simpl. lia.
  - intros H. discriminate H.
  - left. reflexivity.
Defined.

(** ** No-show frames *)

(** X11: the detection of no-show frames keeps the ids of the works at
    the decoder, leaves every work that is not a no-show frame as it is,
    and marks a work only if it has no output buffer, is neither EOS nor
    CSD nor already dropped, and is older than the current ordinal in
    timestamp and in frame index; a marked work has exactly the
    DROP_FRAME flag on its output and its input unchanged. *)
Theorem detectNoShowFrameWorks_sound (currOrdinal : C2WorkOrdinalStruct)
    (m : OMap.t C2Work) : forall (m1 : OMap.t C2Work) (ids : list Z),
  detectNoShowFrameWorks m currOrdinal = Some (m1, ids) ->
  map fst m1 = map fst m /\
  (forall k w, In (k, w) m ->
     isNoShowFrameWork w currOrdinal = Some false -> In (k, w) m1) /\
  (forall k, In k ids ->
     exists w worklet w1 worklet1,
       In (k, w) m /\
       hd_error (worklets w) = Some worklet /\
       buffers (output worklet) = [] /\
       Z.land (flags (input w)) FLAG_END_OF_STREAM = 0 /\
       Z.land (flags (input w)) FLAG_CODEC_CONFIG = 0 /\
       Z.land (flags (output worklet)) FLAG_DROP_FRAME = 0 /\
       cntr64_lt (timestamp (ordinal (input w))) (timestamp currOrdinal)
         = true /\
       cntr64_lt (frameIndex (ordinal (input w))) (frameIndex currOrdinal)
         = true /\
       In (k, w1) m1 /\
       input w1 = input w /\
       hd_error (worklets w1) = Some worklet1 /\
       flags (output worklet1) = FLAG_DROP_FRAME /\
       buffers (output worklet1) = []).
Proof.
  induction m as [|[k0 w0] m' IH]; intros m1 ids H;
    cbn [detectNoShowFrameWorks] in H.
  - injection H; intros; subst. repeat split; auto.
    intros k [].
  - destruct (isNoShowFrameWork w0 currOrdinal) as [noShow|] eqn:En;
      [| discriminate].
    cbn [option_map] in H.
    destruct (if noShow then map_front_output (set_flags FLAG_DROP_FRAME) w0
              else Some w0) as [w0'|] eqn:Ew; [| discriminate].
    destruct (detectNoShowFrameWorks m' currOrdinal) as [[m1' ids']|] eqn:Er;
      [| discriminate].
    injection H; intros; subst m1 ids.
    destruct (IH _ _ eq_refl) as [Hk [Hkeep Hdrop]].
    split; [cbn [map fst]; f_equal; exact Hk |].
    split.
    + intros k w [Hin | Hin] Hno.
      * injection Hin; intros; subst k0 w0.
        rewrite Hno in En. injection En; intros; subst noShow.
        injection Ew; intros; subst w0'. left. reflexivity.
      * right. eapply Hkeep; eassumption.
    + intros k Hin.
      assert (Hrest : In k ids' ->
        exists w worklet w1 worklet1,
          In (k, w) ((k0, w0) :: m') /\
          hd_error (worklets w) = Some worklet /\
          buffers (output worklet) = [] /\
          Z.land (flags (input w)) FLAG_END_OF_STREAM = 0 /\
          Z.land (flags (input w)) FLAG_CODEC_CONFIG = 0 /\
          Z.land (flags (output worklet)) FLAG_DROP_FRAME = 0 /\
          cntr64_lt (timestamp (ordinal (input w))) (timestamp currOrdinal)
            = true /\
          cntr64_lt (frameIndex (ordinal (input w))) (frameIndex currOrdinal)
            = true /\
          In (k, w1) ((k0, w0') :: m1') /\
          input w1 = input w /\
          hd_error (worklets w1) = Some worklet1 /\
          flags (output worklet1) = FLAG_DROP_FRAME /\
          buffers (output worklet1) = []).
      { intros Hi. destruct (Hdrop k Hi) as [w [wl [w1 [wl1 Hr]]]].
        exists w, wl, w1, wl1.
        destruct Hr as [H1 [H2 [H3 [H4 [H5 [H6 [H7 [H8 [H9 H10]]]]]]]]].
        repeat split; try tauto; right; assumption. }
      destruct noShow; [| exact (Hrest Hin)].
      destruct Hin as [<- | Hin]; [| exact (Hrest Hin)].
      unfold isNoShowFrameWork in En. unfold map_front_output in Ew.
      destruct (worklets w0) as [|wl rest] eqn:Ewl; [discriminate |].
      cbn [hd_error] in En. injection En as En.
      injection Ew; intros; subst w0'.
      apply andb_prop in En. destruct En as [En Hspecial].
      apply andb_prop in En. destruct En as [Hsmall Hout].
      apply andb_prop in Hsmall. destruct Hsmall as [Hts Hfi].
      apply negb_true_iff in Hspecial.
      apply orb_false_elim in Hspecial. destruct Hspecial as [Hs Hd].
      apply orb_false_elim in Hs. destruct Hs as [He Hc].
      unfold has_flag in He, Hc, Hd.
      apply negb_false_iff, Z.eqb_eq in He.
      apply negb_false_iff, Z.eqb_eq in Hc.
      apply negb_false_iff, Z.eqb_eq in Hd.
      rewrite negb_involutive in Hout.
      destruct (buffers (output wl)) eqn:Eb; [| discriminate].
      exists w0, wl,
        (set_worklets
           (mkWorklet (set_flags FLAG_DROP_FRAME (output wl)) :: rest) w0),
        (mkWorklet (set_flags FLAG_DROP_FRAME (output wl))).
      rewrite Ewl.
      repeat split; try assumption; try (left; reflexivity).
Qed.

(** ** Dequeueing input buffers *)

Lemma ranCallbacks_app {DecodeCB} (a b : list (ClientCall DecodeCB)) :
  ranCallbacks (a ++ b) = ranCallbacks a ++ ranCallbacks b.
Proof.
  induction a as [|x a IH]; [reflexivity |].
  destruct x; cbn [app ranCallbacks]; rewrite IH; reflexivity.
Qed.

Lemma OMap_find_erase {V} (k : Z) (m : OMap.t V) (v : V) :
  OMap.find k m = Some v ->
  In v (OMap.values m) /\
  S (length (OMap.erase k m)) = length m /\
  forall x, In x (OMap.values (OMap.erase k m)) -> In x (OMap.values m).
Proof.
  induction m as [|[k' v'] m IH]; cbn [OMap.find OMap.erase OMap.values map
                                       length snd]; [discriminate |].
  destruct (k' =? k).
  - intros H. injection H; intros; subst. cbn. auto.
  - intros H. destruct (IH H) as [Hin [Hlen Hsub]].
    cbn [length map snd]. repeat split; [right; exact Hin | lia |].
    intros x [Hx | Hx]; [left; exact Hx | right; apply Hsub; exact Hx].
Qed.

Section Bookkeeping.
Context {DecodeCB Client : Type}.
Variable cbs : Callbacks DecodeCB Client.

Lemma setState_keeps (s : State) (d : V4L2Decoder DecodeCB) :
  mPendingDecodeCbs (setState s d) = mPendingDecodeCbs d /\
  mDrainCb (setState s d) = mDrainCb d /\
  mFrameAtDevice (setState s d) = mFrameAtDevice d /\
  mDecodeRequests (setState s d) = mDecodeRequests d.
Proof.
  unfold setState.
  destruct (State_eqb (mState d) s); [auto |].
  destruct (State_eqb (mState d) Error); [auto |].
  cbn. auto.
Qed.

Lemma onError_keeps (d d' : V4L2Decoder DecodeCB) (c c' : Client) :
  onError cbs d c = Some (d', c') ->
  mPendingDecodeCbs d' = mPendingDecodeCbs d /\
  mDrainCb d' = mDrainCb d /\
  mFrameAtDevice d' = mFrameAtDevice d /\
  mDecodeRequests d' = mDecodeRequests d.
Proof.
  unfold onError. destruct (mErrorCb cbs c); [| discriminate].
  intros H. injection H; intros; subst. apply setState_keeps.
Qed.
End Bookkeeping.

Section InputLoop.
Context {DecodeCB : Type}.
Variable poolAnswer : option VideoFramePool.

Local Notation "'R'" := (recorder DecodeCB poolAnswer) (only parsing).

(** X13: the input loop of [serviceDeviceTask] only runs decode
    callbacks that were pending, each with kOk, and removes each of them
    as it runs it; the decode requests, the drain callback and the frames
    at the device are untouched. *)
Theorem serviceInputQueue_completes_pending (ready : list DqResult) :
  forall (inputDequeued : bool) (d : V4L2Decoder DecodeCB)
         (calls : list (ClientCall DecodeCB)) (exit : LoopExit)
         (d' : V4L2Decoder DecodeCB) (calls' : list (ClientCall DecodeCB)),
  serviceInputQueue R ready inputDequeued d calls = Some (exit, d', calls') ->
  exists new,
    calls' = calls ++ new /\
    Forall (fun call => call = ErrorReported \/ exists cb, call = Ran cb kOk)
           new /\
    Forall (fun p => In (fst p) (OMap.values (mPendingDecodeCbs d)))
           (ranCallbacks new) /\
    (length (mPendingDecodeCbs d') + length (ranCallbacks new))%nat
      = length (mPendingDecodeCbs d) /\
    mDecodeRequests d' = mDecodeRequests d /\
    mDrainCb d' = mDrainCb d /\
    mFrameAtDevice d' = mFrameAtDevice d.
Proof.
  induction ready as [|r rest IH]; intros inputDequeued d calls exit d' calls' H;
    cbn [serviceInputQueue] in H.
  - split_cases H.
    all: injection H; intros; subst; exists []; rewrite app_nil_r;
      cbn; repeat split; auto.
  - destruct (negb _).
    { injection H; intros; subst; exists []; rewrite app_nil_r;
        cbn; repeat split; auto. }
    destruct (dequeueBuffer (inputQueue d)) as [[success buf] q1].
    destruct success.
    + destruct buf as [dequeuedBuffer|].
      2:{ injection H; intros; subst; exists []; rewrite app_nil_r;
            cbn; repeat split; auto. }
      cbv zeta in H.
      set (id := to_int32 (timestampSec dequeuedBuffer)) in H.
      cbn [mPendingDecodeCbs set_inputQueue set_mDevice] in H.
      destruct (OMap.find id (mPendingDecodeCbs d)) as [cb|] eqn:Ef.
      * cbn [runDecodeCb recorder] in H. apply IH in H.
        destruct H as [new [Hc [Hall [Hin [Hlen [Hr [Hdc Hf]]]]]]].
        cbn in Hin, Hlen, Hr, Hdc, Hf.
        destruct (OMap_find_erase _ _ _ Ef) as [Hcb [Hl Hsub]].
        exists (Ran cb kOk :: new). rewrite Hc, <- app_assoc.
        cbn [app ranCallbacks length]. repeat split; auto.
        -- constructor; [right; eauto | exact Hall].
        -- constructor; [exact Hcb |].
           eapply Forall_impl; [| exact Hin]. intros p Hp. apply Hsub, Hp.
        -- lia.
      * apply IH in H.
        destruct H as [new [Hc [Hall [Hin [Hlen [Hr [Hdc Hf]]]]]]].
        cbn in Hin, Hlen, Hr, Hdc, Hf.
        exists new. repeat split; auto.
    + destruct (onError R (set_inputQueue q1 d) calls) as [[d1 c1]|] eqn:E;
        [| discriminate].
      injection H; intros; subst.
      pose proof (onError_keeps _ _ _ _ _ E) as [Hp [Hd [Hf Hr]]].
      unfold onError in E. cbn [mErrorCb recorder] in E.
      injection E; intros; subst.
      exists [ErrorReported]. cbn [ranCallbacks length].
      rewrite Hp, Hd, Hf, Hr, Nat.add_0_r. cbn.
      repeat split; auto.
Qed.
End InputLoop.

(** ** What a flush leaves behind, and what it tells the client *)

Section FlushFields.
Context {DecodeCB Client : Type}.
Variable cbs : Callbacks DecodeCB Client.

Lemma tryFetchVideoFrame_keeps (d d' : V4L2Decoder DecodeCB) (c c' : Client) :
  tryFetchVideoFrame cbs d c = Some (d', c') ->
  mPendingDecodeCbs d' = mPendingDecodeCbs d /\
  mDrainCb d' = mDrainCb d /\
  mFrameAtDevice d' = mFrameAtDevice d /\
  mDecodeRequests d' = mDecodeRequests d.
Proof.
  unfold tryFetchVideoFrame. intros H.
  destruct (mVideoFramePool d); [| apply onError_keeps in H; exact H].
  destruct (_ =? 0); [injection H; intros; subst; auto |].
  destruct (getVideoFrame _). injection H; intros; subst. cbn. auto.
Qed.

Lemma flush_fields (d d' : V4L2Decoder DecodeCB) (c c' : Client) :
  flush cbs d c = Some (d', c') ->
  mState d = Decoding \/ mState d = Draining ->
  mPendingDecodeCbs d' = [] /\
  mDrainCb d' = None /\
  mFrameAtDevice d' = [] /\
  mDecodeRequests d' = mDecodeRequests d.
Proof.
  intros H Hs. unfold flush in H.
  replace (State_eqb (mState d) Idle) with false in H
    by (destruct Hs as [-> | ->]; reflexivity).
  replace (State_eqb (mState d) Error) with false in H
    by (destruct Hs as [-> | ->]; reflexivity).
  cbv iota in H.
  destruct (runPendingDecodeCbs cbs _ kAborted c) as [c1|]; [| discriminate].
  set (d1 := set_mPendingDecodeCbs OMap.empty d) in H.
  assert (Hd2 : forall d2 c2,
    match mDrainCb d1 with
    | Some cb => c'0 <- runDecodeCb cbs cb kAborted c1 ;;
                 Some (set_mDrainCb None d1, c'0)
    | None => Some (d1, c1)
    end = Some (d2, c2) ->
    mPendingDecodeCbs d2 = [] /\ mDrainCb d2 = None /\
    mFrameAtDevice d2 = mFrameAtDevice d /\
    mDecodeRequests d2 = mDecodeRequests d /\
    mDevice d2 = mDevice d /\ mVideoFramePool d2 = mVideoFramePool d).
  { intros d2 c2 E. destruct (mDrainCb d1) as [cb|] eqn:Ecb.
    - destruct (runDecodeCb cbs cb kAborted c1); [| discriminate].
      injection E; intros; subst. cbn. auto 10.
    - injection E; intros; subst. cbn in *. auto 10. }
  destruct (match mDrainCb d1 with Some _ => _ | None => _ end)
    as [[d2 c2]|]; [| discriminate].
  specialize (Hd2 d2 c2 eq_refl).
  destruct Hd2 as [Hp [Hc [Hf [Hr _]]]].
  cbv zeta in H.
  match type of H with
  | context [match mVideoFramePool ?x with _ => _ end] =>
      set (d8 := x) in H;
      assert (H8 : mPendingDecodeCbs d8 = [] /\ mDrainCb d8 = None /\
                   mFrameAtDevice d8 = [] /\
                   mDecodeRequests d8 = mDecodeRequests d)
  end.
  { subst d8. destruct (isStreaming _); cbn; auto. }
  clearbody d8.
  assert (H9 : forall d9 c3,
    match mVideoFramePool d8 with
    | Some _ => tryFetchVideoFrame cbs d8 c2
    | None => Some (d8, c2)
    end = Some (d9, c3) ->
    mPendingDecodeCbs d9 = [] /\ mDrainCb d9 = None /\
    mFrameAtDevice d9 = [] /\ mDecodeRequests d9 = mDecodeRequests d).
  { intros d9 c3 E. destruct (mVideoFramePool d8).
    - apply tryFetchVideoFrame_keeps in E.
      destruct E as [-> [-> [-> ->]]]. exact H8.
    - injection E; intros; subst. exact H8. }
  destruct (match mVideoFramePool d8 with Some _ => _ | None => _ end)
    as [[d9 c3]|]; [| discriminate].
  specialize (H9 d9 c3 eq_refl).
  unfold startPolling, request in H. cbv beta iota zeta in H.
  match type of H with
  | (if negb ?b then _ else _) = _ => destruct b; cbn [negb] in H
  end.
  - injection H; intros; subst.
    destruct (setState_keeps Idle
                (set_mDevice (set_isPolling true
                   (mkDevice (mInputQueue (mDevice d9))
                      (mOutputQueue (mDevice d9)) (pendingEvents (mDevice d9))
                      (isPolling (mDevice d9)) (S (nextRequest (mDevice d9)))
                      (answers (mDevice d9))
                      (issuedDecoderCmds (mDevice d9)))) d9))
      as [-> [-> [-> ->]]].
    exact H9.
  - apply onError_keeps in H. destruct H as [-> [-> [-> ->]]]. exact H9.
Qed.
End FlushFields.

Section FlushCalls.
Context {DecodeCB : Type}.
Variable poolAnswer : option VideoFramePool.

Local Notation "'R'" := (recorder DecodeCB poolAnswer) (only parsing).

Lemma runPendingDecodeCbs_recorded (status : DecodeStatus)
    (cs : OMap.t DecodeCB) : forall calls,
  runPendingDecodeCbs R cs status calls =
  Some (calls ++ map (fun kv => Ran (snd kv) status) cs).
Proof.
  induction cs as [|[k cb] cs IH]; intros calls; cbn [runPendingDecodeCbs map].
  - rewrite app_nil_r. reflexivity.
  - cbn [runDecodeCb recorder snd]. rewrite IH, <- app_assoc. reflexivity.
Qed.

Lemma tryFetchVideoFrame_pool (d : V4L2Decoder DecodeCB)
    (calls : list (ClientCall DecodeCB)) (p : VideoFramePool) :
  mVideoFramePool d = Some p ->
  exists d', tryFetchVideoFrame R d calls = Some (d', calls) /\
             mState d' = mState d.
Proof.
  intros Hp. unfold tryFetchVideoFrame. rewrite Hp.
  destruct (_ =? 0); [eauto |].
  destruct (getVideoFrame p). eexists. split; reflexivity.
Qed.

Lemma flush_finish (d9 : V4L2Decoder DecodeCB)
    (calls : list (ClientCall DecodeCB)) :
  mState d9 = Decoding \/ mState d9 = Draining ->
  exists d' tail,
    (let (polling, d10) := startPolling d9 in
     if negb polling then onError R d10 calls
     else Some (setState Idle d10, calls)) = Some (d', calls ++ tail) /\
    (tail = [] /\ mState d' = Idle \/
     tail = [ErrorReported] /\ mState d' = Error).
Proof.
  intros Hs. unfold startPolling, request. cbv beta iota zeta.
  destruct (ok _); cbn [negb].
  - eexists _, []. rewrite app_nil_r. split; [reflexivity |]. left.
    split; [reflexivity |]. unfold setState. cbn [mState set_mDevice].
    destruct Hs as [-> | ->]; reflexivity.
  - unfold onError. cbn [mErrorCb recorder].
    eexists _, [ErrorReported]. split; [reflexivity |]. right.
    split; [reflexivity |]. unfold setState. cbn [mState set_mDevice].
    destruct Hs as [-> | ->]; reflexivity.
Qed.

(** X12: a flush of a decoder that is Decoding or Draining runs every
    pending decode callback with kAborted, in the order of their ids, then
    the drain callback if there is one, and reports an error only when
    polling cannot be restarted: when the driver accepts the
    [startPolling] of the flush nothing more is reported, the state is
    Idle and the device polls; when it refuses, the error is reported, the
    state is Error and the device does not poll.  Afterwards no callback
    is pending, no frame is at the device, and the decode requests not yet
    sent to the device are still queued. *)
Theorem flush_aborts_pending (d : V4L2Decoder DecodeCB)
    (calls : list (ClientCall DecodeCB)) :
  mState d = Decoding \/ mState d = Draining ->
  exists d' tail,
    flush R d calls =
      Some (d',
            calls ++
            map (fun kv => Ran (snd kv) kAborted) (mPendingDecodeCbs d) ++
            match mDrainCb d with
            | Some cb => [Ran cb kAborted]
            | None => []
            end ++ tail) /\
    (tail = [] /\ mState d' = Idle \/
     tail = [ErrorReported] /\ mState d' = Error) /\
    mPendingDecodeCbs d' = [] /\
    mDrainCb d' = None /\
    mFrameAtDevice d' = [] /\
    mDecodeRequests d' = mDecodeRequests d /\
    tail = (if pollingRestarts d then [] else [ErrorReported]) /\
    mState d' = (if pollingRestarts d then Idle else Error) /\
    isPolling (mDevice d') = pollingRestarts d.
Proof.
  intros Hs.
  assert (Hrun : exists d' tail,
    flush R d calls =
      Some (d',
            calls ++
            map (fun kv => Ran (snd kv) kAborted) (mPendingDecodeCbs d) ++
            match mDrainCb d with
            | Some cb => [Ran cb kAborted]
            | None => []
            end ++ tail) /\
    (tail = [] /\ mState d' = Idle \/
     tail = [ErrorReported] /\ mState d' = Error)).
  { unfold flush.
    replace (State_eqb (mState d) Idle) with false
      by (destruct Hs as [-> | ->]; reflexivity).
    replace (State_eqb (mState d) Error) with false
      by (destruct Hs as [-> | ->]; reflexivity).
    rewrite runPendingDecodeCbs_recorded. cbv iota beta.
    cbn [mDrainCb set_mPendingDecodeCbs].
    set (aborted := map (fun kv => Ran (snd kv) kAborted)
                        (mPendingDecodeCbs d)).
    assert (Hlast : forall d2 calls2 new,
      mState d2 = mState d ->
      calls2 = calls ++ aborted ++ new ->
      exists d' tail,
        (let isOutputStreaming := isStreaming (outputQueue d2) in
         let d3 := stopPolling d2 in
         let d4 := set_outputQueue (streamoff (outputQueue d3)) d3 in
         let d5 := set_mFrameAtDevice OMap.empty d4 in
         let d6 := set_inputQueue (streamoff (inputQueue d5)) d5 in
         let d7 := snd (streamonInput d6) in
         let d8 := if isOutputStreaming then snd (streamonOutput d7)
                   else d7 in
         '(d9, c3) <- match mVideoFramePool d8 with
                      | Some _ => tryFetchVideoFrame R d8 calls2
                      | None => Some (d8, calls2)
                      end ;;
         let (polling, d10) := startPolling d9 in
         if negb polling then onError R d10 c3
         else Some (setState Idle d10, c3)) =
        Some (d', calls ++ aborted ++ new ++ tail) /\
        (tail = [] /\ mState d' = Idle \/
         tail = [ErrorReported] /\ mState d' = Error)).
    { intros d2 calls2 new Hs2 ->. cbv zeta.
      match goal with
      | |- context [match mVideoFramePool ?x with _ => _ end] =>
          set (d8 := x);
          assert (H8 : mState d8 = mState d)
            by (subst d8; destruct (isStreaming _); exact Hs2);
          clearbody d8
      end.
      destruct (mVideoFramePool d8) as [p|] eqn:Ep.
      - destruct (tryFetchVideoFrame_pool d8 (calls ++ aborted ++ new) p Ep)
          as [d9 [E9 Hs9]].
        rewrite E9.
        destruct (flush_finish d9 (calls ++ aborted ++ new))
          as [d' [tail [E Ht]]]; [rewrite Hs9, H8; exact Hs |].
        exists d', tail. rewrite E, <- !app_assoc. auto.
      - destruct (flush_finish d8 (calls ++ aborted ++ new))
          as [d' [tail [E Ht]]]; [rewrite H8; exact Hs |].
        exists d', tail. rewrite E, <- !app_assoc. auto. }
    destruct (mDrainCb d) as [cb|]; cbn [runDecodeCb recorder].
    - apply Hlast; [reflexivity | rewrite <- app_assoc; reflexivity].
    - apply (Hlast _ _ []); [reflexivity | rewrite app_nil_r; reflexivity]. }
  destruct Hrun as [d' [tail [E Ht]]].
  exists d', tail. split; [exact E |]. split; [exact Ht |].
  destruct (flush_fields R d d' _ _ E Hs) as [F1 [F2 [F3 F4]]].
  destruct (flush_polling R d d' _ _ E Hs) as [Hpoll Hstate].
  repeat (split; [assumption |]).
  split; [| split; [exact Hstate | exact Hpoll]].
  destruct (pollingRestarts d);
    destruct Ht as [[-> Hi] | [-> He]]; congruence.
Qed.
End FlushCalls.

Lemma flush_aborts_pending_witness :
  exists d' tail,
    flush (recorder Z None)
      (set_mPendingDecodeCbs [(1, 11); (2, 12)]
         (set_mDrainCb (Some 13) (sampleDecoder Draining acceptingDriver)))
      [] =
      Some (d', [Ran 11 kAborted; Ran 12 kAborted; Ran 13 kAborted] ++ tail) /\
    (tail = [] /\ mState d' = Idle \/
     tail = [ErrorReported] /\ mState d' = Error) /\
    mPendingDecodeCbs d' = [] /\
    mDrainCb d' = None /\
    mFrameAtDevice d' = [] /\
    mDecodeRequests d' = [] /\
    tail = [] /\
    mState d' = Idle /\
    isPolling (mDevice d') = true.
Proof.
  apply (flush_aborts_pending None
           (set_mPendingDecodeCbs [(1, 11); (2, 12)]
              (set_mDrainCb (Some 13)
                 (sampleDecoder Draining acceptingDriver))) []).
  right. reflexivity.
Defined.

(** ** Dequeueing output buffers *)

Section OutputLoop.
Context {DecodeCB : Type}.
Variable poolAnswer : option VideoFramePool.

Local Notation "'R'" := (recorder DecodeCB poolAnswer) (only parsing).

Lemma sendV4L2DecoderCmd_keeps (start : bool) (d : V4L2Decoder DecodeCB) :
  mPendingDecodeCbs (snd (sendV4L2DecoderCmd start d)) = mPendingDecodeCbs d /\
  mDrainCb (snd (sendV4L2DecoderCmd start d)) = mDrainCb d /\
  mFrameAtDevice (snd (sendV4L2DecoderCmd start d)) = mFrameAtDevice d /\
  mDecodeRequests (snd (sendV4L2DecoderCmd start d)) = mDecodeRequests d.
Proof.
  unfold sendV4L2DecoderCmd. destruct (ioctl_DECODER_CMD _ _). cbn. auto.
Qed.

Lemma drained_keeps (d : V4L2Decoder DecodeCB) :
  let d' := setState Idle
              (set_mDrainCb None (snd (sendV4L2DecoderCmd true d))) in
  mPendingDecodeCbs d' = mPendingDecodeCbs d /\
  mDecodeRequests d' = mDecodeRequests d /\
  mDrainCb d' = None.
Proof.
  cbv zeta.
  destruct (setState_keeps Idle
              (set_mDrainCb None (snd (sendV4L2DecoderCmd true d))))
    as [-> [-> [_ ->]]].
  destruct (sendV4L2DecoderCmd_keeps true d) as [Hp [_ [_ Hr]]].
  cbn [mPendingDecodeCbs mDecodeRequests mDrainCb set_mDrainCb].
  auto.
Qed.

Ltac calls_norm :=
  repeat match goal with
    | E : mOutputCb (recorder _ _) _ _ = Some _ |- _ =>
        cbn [mOutputCb recorder] in E; injection E as E; subst
    | E : runDecodeCb (recorder _ _) _ _ _ = Some _ |- _ =>
        cbn [runDecodeCb recorder] in E; injection E as E; subst
    end.

Ltac fields_cbn H :=
  cbn [mPendingDecodeCbs mDecodeRequests mDrainCb set_outputQueue
       set_mFrameAtDevice set_mDevice set_mDrainCb] in H.

(** X14: the output loop of [serviceDeviceTask] runs no decode callback
    but the drain callback, at most once and with kOk, and then clears it;
    the pending decode callbacks and the decode requests are untouched. *)
Theorem serviceOutputQueue_completes_drain_once (ready : list DqResult) :
  forall (outputDequeued : bool) (d : V4L2Decoder DecodeCB)
         (calls : list (ClientCall DecodeCB)) (exit : LoopExit)
         (d' : V4L2Decoder DecodeCB) (calls' : list (ClientCall DecodeCB)),
  serviceOutputQueue R ready outputDequeued d calls = Some (exit, d', calls') ->
  exists new,
    calls' = calls ++ new /\
    mPendingDecodeCbs d' = mPendingDecodeCbs d /\
    mDecodeRequests d' = mDecodeRequests d /\
    (ranCallbacks new = [] /\ mDrainCb d' = mDrainCb d \/
     exists cb, mDrainCb d = Some cb /\ ranCallbacks new = [(cb, kOk)] /\
                mDrainCb d' = None).
Proof.
  induction ready as [|r rest IH]; intros outputDequeued d calls exit d' calls' H;
    cbn [serviceOutputQueue] in H.
  - split_cases H.
    all: injection H; intros; subst; exists []; rewrite app_nil_r;
      cbn; repeat split; auto.
  - destruct (negb _).
    { injection H; intros; subst; exists []; rewrite app_nil_r;
        cbn; repeat split; auto. }
    destruct (dequeueBuffer (outputQueue d)) as [[success buf] q1].
    destruct success.
    + destruct buf as [dequeuedBuffer|].
      2:{ injection H; intros; subst; exists []; rewrite app_nil_r;
            cbn; repeat split; auto. }
      cbv zeta in H.
      cbn [mFrameAtDevice set_outputQueue set_mDevice] in H.
      destruct (OMap.find _ (mFrameAtDevice d)) as [frame|]; [| discriminate].
      split_cases H.
      all: calls_norm.
      all: try match goal with
           | E : mDrainCb _ = _ |- _ => fields_cbn E
           end.
      all: try (apply IH in H; destruct H as [new [Hc [Hp [Hr Hd]]]]).
      all: try match type of Hp with
           | context [setState Idle (set_mDrainCb None
                        (snd (sendV4L2DecoderCmd true ?x)))] =>
               destruct (drained_keeps x) as [Kp [Kr Kd]];
               rewrite Kp in Hp; rewrite Kr in Hr; rewrite Kd in Hd
           end.
      all: try (fields_cbn Hp; fields_cbn Hr; fields_cbn Hd).
      all: try clear Kp Kr Kd.
      all: try (subst calls'; eexists;
                split; [rewrite <- ?app_assoc; reflexivity |];
                split; [exact Hp |]; split; [exact Hr |];
                rewrite ?ranCallbacks_app; cbn [ranCallbacks app];
                first
                  [ match goal with
                    | E : mDrainCb _ = Some ?cb0, Hd : _ \/ (exists cb, None = Some cb /\ _) |- _ =>
                        right; exists cb0;
                        destruct Hd as [[Hn Hd] | [cb [Hx _]]];
                        [| discriminate Hx]; rewrite Hn; now auto
                    end
                  | destruct Hd as [[Hn Hd] | [cb [Hcb [Hn Hd]]]];
                    [left | right; exists cb]; rewrite Hn; now auto ]).
      injection H; intros; subst.
      pose proof (onError_keeps _ _ _ _ _ Heqo0) as [Kp [Kd [_ Kr]]].
      unfold onError in Heqo0. cbn [mErrorCb recorder] in Heqo0.
      injection Heqo0; intros; subst.
      exists [ErrorReported]. rewrite Kp, Kd, Kr.
      cbn [ranCallbacks mPendingDecodeCbs mDecodeRequests mDrainCb
           set_mDevice set_mFrameAtDevice set_outputQueue].
      auto 10.
    + destruct (onError R (set_outputQueue q1 d) calls) as [[d1 c1]|] eqn:E;
        [| discriminate].
      injection H; intros; subst.
      pose proof (onError_keeps _ _ _ _ _ E) as [Kp [Kd [_ Kr]]].
      unfold onError in E. cbn [mErrorCb recorder] in E.
      injection E; intros; subst.
      exists [ErrorReported]. rewrite Kp, Kd, Kr.
      cbn [ranCallbacks mPendingDecodeCbs mDecodeRequests mDrainCb
           set_mDevice set_mFrameAtDevice set_outputQueue].
      auto 10.
Qed.

End OutputLoop.

(** ** A change of resolution *)

Section Resolution.
Context {DecodeCB Client : Type}.
Variable cbs : Callbacks DecodeCB Client.








End Resolution.


(** ** The end of a drain *)

Lemma reportAbandonedWorks_keeps (c : Component) :
  mComponentState (reportAbandonedWorks c) = mComponentState c /\
  postedTasks (reportAbandonedWorks c) = postedTasks c /\
  mIsDraining (reportAbandonedWorks c) = mIsDraining c /\
  mListener (reportAbandonedWorks c) = mListener c.
Proof.
  unfold reportAbandonedWorks.
  destruct (map abandon _); [cbn; auto |].
  cbn. destruct (mListener c) eqn:El; cbn; auto.
Qed.

Lemma reportEOSWork_keeps (c : Component) (reported : bool) (c' : Component) :
  reportEOSWork c = Some (reported, c') ->
  mComponentState c' = mComponentState c /\
  postedTasks c' = postedTasks c /\
  mIsDraining c' = mIsDraining c.
Proof.
  unfold reportEOSWork. intros H.
  destruct (find_if _ (mWorksAtDecoder c)) as [[k found]|].
  2:{ injection H; intros; subst. auto. }
  destruct (map_front_output _ _) as [eos|]; [| discriminate].
  cbv zeta in H.
  match type of H with
  | Some (reportWork ?w ?x) = _ =>
      assert (Hx : mComponentState x = mComponentState c /\
                   postedTasks x = postedTasks c /\
                   mIsDraining x = mIsDraining c);
      [| let y := fresh "y" in
         set (y := x) in *; clearbody y; unfold reportWork in H;
         destruct (mListener y); injection H; intros; subst; cbn; exact Hx ]
  end.
  destruct (mWorksAtDecoder _); [cbn; auto |].
    destruct (reportAbandonedWorks_keeps
                (set_mWorksAtDecoder (OMap.erase k (mWorksAtDecoder c)) c))
      as [-> [-> [-> _]]].
  cbn. auto.
Qed.

(** X16: [onDrainDone] with kOk ends the drain.  Either the EOS work is
    reported to the listener last, no work is left at the decoder and a
    pump of the pending works is posted; or there was no EOS work or no
    listener, and the component goes to ERROR and posts nothing.  The work
    reported is the first work at the decoder that carries END_OF_STREAM,
    as [reportEOSWork] reports it. *)
Theorem onDrainDone_outcome (c c' : Component) :
  onDrainDone kOk c = Some c' ->
  mIsDraining c' = false /\
  (mComponentState c' = ERROR /\
   postedTasks c' = postedTasks c /\
   (find_if (fun w => has_flag (flags (input w)) FLAG_END_OF_STREAM)
            (mWorksAtDecoder c) = None \/ mListener c = None)
   \/
   exists (k : Z) (found eos : C2Work) (worklet : C2Worklet) (l : Listener)
          (earlier : list ListenerCall),
     find_if (fun w => has_flag (flags (input w)) FLAG_END_OF_STREAM)
             (mWorksAtDecoder c) = Some (k, found) /\
     mListener c = Some l /\
     mWorksAtDecoder c' = [] /\
     mComponentState c' = mComponentState c /\
     postedTasks c' = postedTasks c ++ [TaskPumpPendingWorks] /\
     listenerCalls c' = listenerCalls c ++ earlier ++ [onWorkDone_nb l [eos]] /\
     result eos = C2_OK /\
     hd_error (worklets eos) = Some worklet /\
     flags (output worklet) = FLAG_END_OF_STREAM /\
     reportedAsEOS found eos /\
     has_flag (flags (input found)) FLAG_END_OF_STREAM = true).
Proof.
  unfold onDrainDone. intros H.
  destruct (reportEOSWork (set_mIsDraining false c)) as [[reported c2]|] eqn:E;
    [| discriminate].
  pose proof (reportEOSWork_keeps _ _ _ E) as [Ks [Kt Kd]].
  pose proof (reportEOSWork_outcome _ _ _ E) as Hout.
  cbn [mComponentState postedTasks mIsDraining mWorksAtDecoder mListener
       listenerCalls set_mIsDraining] in Ks, Kt, Kd, Hout.
  destruct reported; cbn [negb] in H; injection H; intros; subst c'.
  - split; [exact Kd |]. right.
    destruct Hout as [[_ [Hf _]] | Hout]; [discriminate |].
    destruct Hout as [k [found [eos [worklet Hout]]]].
    destruct Hout
      as [Hfind [Hw [Hr [Hwl [Hfl [_ [Hcalls [Hrep [Has [Hflag _]]]]]]]]]].
    destruct (mListener c) as [l|]; [| discriminate].
    eexists k, found, eos, worklet, l, _.
    cbn [PostTask mWorksAtDecoder mComponentState postedTasks listenerCalls
         set_postedTasks].
    rewrite Kt. repeat (split; [eassumption || reflexivity |]).
    exact Hflag.
  - destruct (reportError_keeps C2_CORRUPTED c2) as [_ [_ [_ [Hd Ht]]]].
    split; [rewrite Hd; exact Kd |]. left.
    split; [apply reportError_state |].
    split; [rewrite Ht; exact Kt |].
    destruct Hout as [[Hf _] | Hout]; [left; exact Hf |].
    destruct Hout as [k [found [eos [worklet Hout]]]].
    destruct Hout as [_ [_ [_ [_ [_ [_ [_ [Hrep _]]]]]]]].
    destruct (mListener c); [discriminate | right; reflexivity].
Qed.

(** ** Posting works *)

Lemma post_all (items : list C2Work) : forall c : Component,
  fold_left (fun c w => PostTask (TaskQueueTask w) c) items c =
  set_postedTasks (postedTasks c ++ map TaskQueueTask items) c.
Proof.
  induction items as [|w items IH]; intros c; cbn [fold_left map].
  - rewrite app_nil_r. destruct c; reflexivity.
  - rewrite IH. unfold PostTask. cbn. rewrite <- app_assoc. reflexivity.
Qed.

(** X17: [queue_nb] on a RUNNING component posts one queue task per work,
    in the order of the list, and changes nothing else; in any other state
    it returns C2_BAD_STATE and posts nothing. *)
Theorem queue_nb_posts_in_order (items : list C2Work) (c : Component) :
  (mComponentState c = RUNNING ->
   queue_nb items c =
     (C2_OK,
      set_postedTasks (postedTasks c ++ map TaskQueueTask items) c)) /\
  (mComponentState c <> RUNNING -> queue_nb items c = (C2_BAD_STATE, c)).
Proof.
  unfold queue_nb. split.
  - intros ->. cbn. rewrite post_all. reflexivity.
  - intros Hs. destruct (mComponentState c); try reflexivity. contradiction.
Qed.

Lemma queue_nb_posts_in_order_witness :
  queue_nb [sampleWork 1 0 0 [sampleInput]; sampleWork 2 0 0 [sampleInput]]
    (sampleComponent RUNNING (Some 7)) =
  (C2_OK,
   set_postedTasks
     [TaskQueueTask (sampleWork 1 0 0 [sampleInput]);
      TaskQueueTask (sampleWork 2 0 0 [sampleInput])]
     (sampleComponent RUNNING (Some 7))).
Proof.
  apply (proj1 (queue_nb_posts_in_order
                  [sampleWork 1 0 0 [sampleInput];
                   sampleWork 2 0 0 [sampleInput]]
                  (sampleComponent RUNNING (Some 7)))).
  reflexivity.
Defined.

(** ** The pump of decode requests *)

Lemma OMap_insert_keeps {V} (k : Z) (v : V) (m : OMap.t V) (kv : Z * V) :
  In kv m -> In kv (fst (OMap.insert k v m)).
Proof.
  induction m as [|[k' v'] m IH]; cbn [OMap.insert]; [intros [] |].
  intros Hin. destruct (k <? k'); [right; exact Hin |].
  destruct (k =? k'); [exact Hin |].
  destruct (OMap.insert k v m) as [r b]. cbn [fst] in *.
  destruct Hin as [<- | Hin]; [left; reflexivity | right; apply IH, Hin].
Qed.

Section Pump.
Context {DecodeCB : Type}.
Variable poolAnswer : option VideoFramePool.

Local Notation "'R'" := (recorder DecodeCB poolAnswer) (only parsing).

Lemma onError_recorded (d : V4L2Decoder DecodeCB)
    (calls : list (ClientCall DecodeCB)) :
  onError R d calls = Some (setState Error d, calls ++ [ErrorReported]).
Proof. reflexivity. Qed.

Lemma pumpDecodeRequest_loop_fifo (reqs : list (DecodeRequest DecodeCB)) :
  forall (d : V4L2Decoder DecodeCB) (calls : list (ClientCall DecodeCB)),
  mDecodeRequests d = reqs ->
  mState d = Decoding ->
  exists d' new popped,
    pumpDecodeRequest_loop R reqs d calls = Some (d', calls ++ new) /\
    reqs = popped ++ mDecodeRequests d' /\
    (new = [] \/
     mState d' = Error /\
     (new = [ErrorReported] \/
      exists cb, new = [Ran cb kError; ErrorReported] /\
                 In (mkRequest None cb) popped)) /\
    (mDrainCb d' = mDrainCb d \/
     exists cb, mDrainCb d' = Some cb /\ mState d' = Draining /\
                In (mkRequest None cb) popped) /\
    (forall kv, In kv (mPendingDecodeCbs d) -> In kv (mPendingDecodeCbs d')).
Proof.
  induction reqs as [|req rest IH]; intros d calls Hreqs Hs;
    cbn [pumpDecodeRequest_loop].
  - exists d, [], []. rewrite app_nil_r, Hreqs. auto 10.
  - assert (Hstay : exists d' new popped,
      Some (d, calls) = Some (d', calls ++ new) /\
      req :: rest = popped ++ mDecodeRequests d' /\
      (new = [] \/
       mState d' = Error /\
       (new = [ErrorReported] \/
        exists cb, new = [Ran cb kError; ErrorReported] /\
                   In (mkRequest None cb) popped)) /\
      (mDrainCb d' = mDrainCb d \/
       exists cb, mDrainCb d' = Some cb /\ mState d' = Draining /\
                  In (mkRequest None cb) popped) /\
      (forall kv, In kv (mPendingDecodeCbs d) -> In kv (mPendingDecodeCbs d'))).
    { exists d, [], []. rewrite app_nil_r, Hreqs. auto 10. }
    destruct (buffer req) as [buf|] eqn:Hb.
    + destruct (getFreeBuffer (inputQueue d)) as [[b q1]|]; [| exact Hstay].
      unfold request. cbv beta iota zeta.
      destruct (_ <? size buf).
      { rewrite onError_recorded.
        eexists _, [ErrorReported], [req].
        split; [reflexivity |].
        match goal with
        | |- context [setState Error ?x] =>
            destruct (setState_keeps Error x) as [Kp [Kd [_ Kr]]];
            rewrite Kp, Kd, Kr
        end.
        cbn. repeat split; auto.
        right. split; [| auto]. unfold setState. cbn. rewrite Hs. reflexivity. }
      destruct (negb _).
      { rewrite onError_recorded.
        eexists _, [ErrorReported], [req].
        split; [reflexivity |].
        match goal with
        | |- context [setState Error ?x] =>
            destruct (setState_keeps Error x) as [Kp [Kd [_ Kr]]];
            rewrite Kp, Kd, Kr
        end.
        cbn. repeat split; auto.
        right. split; [| auto]. unfold setState. cbn. rewrite Hs. reflexivity. }
      match goal with
      | |- context [pumpDecodeRequest_loop _ rest ?x calls] =>
          destruct (IH x calls eq_refl Hs)
            as [d' [new [popped [E [Hp [Hn [Hd Hk]]]]]]]
      end.
      exists d', new, (req :: popped). rewrite E.
      split; [reflexivity |]. split; [cbn [app]; rewrite <- Hp; reflexivity |].
      split.
      { destruct Hn as [-> | [He [-> | [cb [-> Hin]]]]]; auto.
        right. split; [exact He |]. right. exists cb. split; [reflexivity |].
        right. exact Hin. }
      split.
      { destruct Hd as [Hd | [cb [Hd [Hst Hin]]]]; [left; exact Hd |].
        right. exists cb. repeat split; auto. right. exact Hin. }
      intros kv Hin. apply Hk. cbn. apply OMap_insert_keeps. exact Hin.
    + destruct (Nat.ltb 0 _); [exact Hstay |].
      cbv zeta. unfold sendV4L2DecoderCmd.
      destruct (ioctl_DECODER_CMD false _) as [sent dev'].
      assert (Hreq : req = mkRequest None (decodeCb req))
        by (destruct req; cbn in Hb; subst; reflexivity).
      destruct sent; cbn [negb].
      * eexists _, [], [req]. rewrite app_nil_r.
        split; [reflexivity |].
        match goal with
        | |- context [setState Draining ?x] =>
            destruct (setState_keeps Draining x) as [Kp [Kd [_ Kr]]];
            rewrite Kp, Kd, Kr
        end.
        cbn. repeat split; auto.
        right. exists (decodeCb req). split; [reflexivity |].
        split; [unfold setState; cbn; rewrite Hs; reflexivity |].
        left. exact Hreq.
      * cbn [runDecodeCb recorder]. rewrite onError_recorded.
        eexists _, [Ran (decodeCb req) kError; ErrorReported], [req].
        rewrite <- app_assoc. split; [reflexivity |].
        match goal with
        | |- context [setState Error ?x] =>
            destruct (setState_keeps Error x) as [Kp [Kd [_ Kr]]];
            rewrite Kp, Kd, Kr
        end.
        cbn. repeat split; auto.
        right. split; [unfold setState; cbn; rewrite Hs; reflexivity |].
        right. exists (decodeCb req). split; [reflexivity |].
        left. exact Hreq.
Qed.

(** X18: a pump of the decode requests of a Decoding decoder takes
    requests from the front of the queue and leaves the rest in order; it
    tells the client nothing, or it reports an error and leaves the decoder
    in Error, having run at most the callback of a drain request with
    kError; the drain callback changes only when a drain request was
    taken, and then the decoder is Draining; no pending decode callback is
    lost. *)
Theorem pumpDecodeRequest_fifo (d : V4L2Decoder DecodeCB)
    (calls : list (ClientCall DecodeCB)) :
  mState d = Decoding ->
  exists d' new popped,
    pumpDecodeRequest R d calls = Some (d', calls ++ new) /\
    mDecodeRequests d = popped ++ mDecodeRequests d' /\
    (new = [] \/
     mState d' = Error /\
     (new = [ErrorReported] \/
      exists cb, new = [Ran cb kError; ErrorReported] /\
                 In (mkRequest None cb) popped)) /\
    (mDrainCb d' = mDrainCb d \/
     exists cb, mDrainCb d' = Some cb /\ mState d' = Draining /\
                In (mkRequest None cb) popped) /\
    (forall kv, In kv (mPendingDecodeCbs d) -> In kv (mPendingDecodeCbs d')).
Proof.
  intros Hs. unfold pumpDecodeRequest. rewrite Hs. cbn [State_eqb negb].
  apply pumpDecodeRequest_loop_fifo; [reflexivity | exact Hs].
Qed.
End Pump.

(** ** A frame from the pool *)

Lemma OMap_find_insert_new {V} (k : Z) (v : V) (m : OMap.t V) :
  OMap.find k m = None -> OMap.find k (fst (OMap.insert k v m)) = Some v.
Proof.
  induction m as [|[k' v'] m IH]; cbn [OMap.find OMap.insert fst].
  - intros _. rewrite Z.eqb_refl. reflexivity.
  - destruct (k' =? k) eqn:Ek; [discriminate |]. intros Hf.
    destruct (k <? k'); cbn [fst OMap.find].
    + rewrite Z.eqb_refl. reflexivity.
    + rewrite Z.eqb_sym, Ek.
      destruct (OMap.insert k v m) as [r b]. cbn [fst OMap.find] in *.
      rewrite Ek. apply IH, Hf.
Qed.

Lemma getFreeBufferById_id (b b' : Z) (q q' : V4L2Queue) :
  getFreeBufferById b q = Some (b', q') -> b' = b.
Proof.
  unfold getFreeBufferById. destruct (existsb _ _); [| discriminate].
  intros H. injection H; intros; subst. reflexivity.
Qed.

Section FrameReady.
Context {DecodeCB : Type}.
Variable poolAnswer : option VideoFramePool.

Local Notation "'R'" := (recorder DecodeCB poolAnswer) (only parsing).

(** X19: a frame handed over by the pool is either queued at the
    device, under the V4L2 buffer bound to its block id (the buffer it had
    before, or the next unused one below the number of allocated buffers)
    and with no other frame under that buffer, or an error is reported and
    the decoder is in Error. *)
Theorem onVideoFrameReady_queues (frame : VideoFrame) (blockId : Z)
    (d d' : V4L2Decoder DecodeCB) (calls calls' : list (ClientCall DecodeCB)) :
  onVideoFrameReady R (Some (frame, blockId)) d calls = Some (d', calls') ->
  (calls' = calls ++ [ErrorReported] /\ mState d' = Error) \/
  (calls' = calls /\
   mState d' = mState d /\
   exists v4l2Id,
     OMap.find blockId (mBlockIdToV4L2Id d') = Some v4l2Id /\
     OMap.find v4l2Id (mFrameAtDevice d') = Some frame /\
     OMap.find v4l2Id (mFrameAtDevice d) = None /\
     (OMap.find blockId (mBlockIdToV4L2Id d) = Some v4l2Id \/
      OMap.find blockId (mBlockIdToV4L2Id d) = None /\
      v4l2Id = OMap.size (mBlockIdToV4L2Id d) /\
      v4l2Id < allocatedBuffersCount (outputQueue d))).
Proof.
  unfold onVideoFrameReady. intros H. split_cases H.
  all: try (cbn [onError mErrorCb recorder] in H; injection H; intros; subst;
            left; split; [reflexivity | apply setState_Error_state]).
  all: cbn [mBlockIdToV4L2Id mFrameAtDevice outputQueue mDevice
            set_mVideoFramePool set_mDevice set_mBlockIdToV4L2Id
            set_outputQueue] in *.
  all: match goal with
       | E : getFreeBufferById _ _ = Some (?z, _) |- _ =>
           pose proof (getFreeBufferById_id _ _ _ _ E); subst z
       end.
  all: unfold tryFetchVideoFrame in H;
    cbn [mVideoFramePool set_mFrameAtDevice set_mDevice
         set_mVideoFramePool set_mBlockIdToV4L2Id] in H;
    destruct (mVideoFramePool d) as [pool|]; cbv iota beta in H;
    [| cbn [onError mErrorCb recorder] in H; injection H; intros; subst;
       left; split; [reflexivity | apply setState_Error_state] ].
  all: split_cases H.
  all: injection H; intros; subst; right;
    (split; [reflexivity |]); (split; [reflexivity |]).
  all: cbn [mBlockIdToV4L2Id mFrameAtDevice set_mFrameAtDevice
            set_mVideoFramePool set_mDevice set_mBlockIdToV4L2Id].
  all: eexists; split; [eassumption || (apply OMap_find_insert_new; eassumption) |];
    (split; [apply OMap_find_insert_new; eassumption |]);
    (split; [eassumption |]).
  all: first [ left; assumption
             | right; split; [assumption |]; split; [reflexivity |];
               apply Z.ltb_lt; assumption ].
Qed.
End FrameReady.

(** ** Starting the decoder *)

Section StartFacts.
Context {DecodeCB : Type}.

Lemma deviceCall_device (d : V4L2Decoder DecodeCB) :
  snd (deviceCall d) = set_mDevice (snd (request (mDevice d))) d.
Proof. reflexivity. Qed.

Lemma existsb_eqb_In (x : Z) (l : list Z) :
  existsb (Z.eqb x) l = true -> In x l.
Proof.
  intros H. apply existsb_exists in H. destruct H as [y [Hin Heq]].
  apply Z.eqb_eq in Heq. subst y. exact Hin.
Qed.

Lemma setupInputFormat_done (inputPixelFormat inputBufferSize : Z)
    (d d' : V4L2Decoder DecodeCB) :
  setupInputFormat inputPixelFormat inputBufferSize d = (true, d') ->
  In inputPixelFormat
     (pixelformats (answers (mDevice d) (nextRequest (mDevice d)))) /\
  isStreaming (inputQueue d') = true /\
  allocatedBuffersCount (inputQueue d') <> 0 /\
  queuedBuffersCount (inputQueue d') = 0%nat /\
  exists dev, d' = set_mDevice dev d.
Proof.
  unfold setupInputFormat, deviceCall, streamonInput, request.
  cbv beta iota zeta.
  destruct (existsb _ _) eqn:Hfmt; cbn [negb]; [| discriminate].
  destruct (ok _); cbn [negb]; [| discriminate].
  cbn [mDevice set_mDevice].
  destruct (value _ =? 0) eqn:Hn; [discriminate |].
  destruct (ok _) eqn:Hok; cbn [negb]; [| discriminate].
  intros H. injection H; intros; subst d'.
  split; [apply existsb_eqb_In; exact Hfmt |].
  cbn. apply Z.eqb_neq in Hn. repeat split; auto. eexists. reflexivity.
Qed.

Lemma startPolling_done (d d' : V4L2Decoder DecodeCB) :
  startPolling d = (true, d') ->
  isPolling (mDevice d') = true /\
  inputQueue d' = inputQueue d /\
  exists dev, d' = set_mDevice dev d.
Proof.
  unfold startPolling, request. cbv beta iota zeta.
  destruct (ok _); [| discriminate].
  intros H. injection H; intros; subst d'. cbn. repeat split.
  eexists. reflexivity.
Qed.

(** X20: a decoder that [Create] returns is Idle and polls its device,
    its input queue is streaming with buffers allocated and none queued,
    it keeps the minimum number of output buffers it was given, and the
    device listed the pixel format of the codec; a decoder in Error is
    never started. *)
Theorem Create_started (codec : VideoCodec)
    (inputBufferSize minNumOutputBuffers : Z)
    (fresh d : V4L2Decoder DecodeCB) :
  Create codec inputBufferSize minNumOutputBuffers fresh = Some d ->
  mState fresh <> Error /\
  mState d = Idle /\
  mMinNumOutputBuffers d = minNumOutputBuffers /\
  isPolling (mDevice d) = true /\
  isStreaming (inputQueue d) = true /\
  allocatedBuffersCount (inputQueue d) <> 0 /\
  queuedBuffersCount (inputQueue d) = 0%nat /\
  In (VideoCodecToV4L2PixFmt codec)
     (pixelformats
        (answers (mDevice fresh) (6 + nextRequest (mDevice fresh))%nat)) /\
  mDecodeRequests d = mDecodeRequests fresh /\
  mPendingDecodeCbs d = mPendingDecodeCbs fresh /\
  mDrainCb d = mDrainCb fresh.
Proof.
  unfold Create. intros H.
  destruct (start _ _ _ fresh) as [started d0] eqn:E.
  destruct started; [| discriminate]. injection H; intros; subst d0.
  unfold start in E. split_cases E.
  all: try (injection E; intros; discriminate).
  injection E; intros; subst d. clear E H.
  cbn [mState set_mMinNumOutputBuffers] in Heqb.
  repeat match goal with
    | E : deviceCall ?x = (_, ?v) |- _ =>
        tryif is_var x then fail else
          (apply pair_snd in E; rewrite deviceCall_device in E;
           unfold request in E; cbn [snd mDevice set_mDevice
             set_mMinNumOutputBuffers mInputQueue mOutputQueue pendingEvents
             isPolling nextRequest answers issuedDecoderCmds] in E; subst v)
    end.
  match goal with
  | E : setupInputFormat _ _ _ = (?b, _), Hb : negb ?b = false |- _ =>
      apply negb_false_iff in Hb; subst b;
      apply setupInputFormat_done in E;
      destruct E as [Hfmt [Hstream [Halloc [Hq [dev ->]]]]]
  end.
  match goal with
  | E : startPolling _ = (?b, _), Hb : negb ?b = false |- _ =>
      apply negb_false_iff in Hb; subst b;
      apply startPolling_done in E;
      destruct E as [Hpoll [Hin [dev' ->]]]
  end.
  cbn [mDevice set_mDevice nextRequest answers] in Hfmt.
  unfold inputQueue in *. rewrite !setState_device.
  cbn [mDevice set_mDevice] in *. rewrite Hin.
  assert (Hs : mState fresh <> Error)
    by (destruct (mState fresh); (discriminate || congruence)).
  repeat split; auto.
  all: unfold setState; cbn [mState set_mDevice set_mMinNumOutputBuffers];
    destruct (mState fresh) eqn:Ef; cbn; rewrite ?Ef; congruence.
Qed.
End StartFacts.

Lemma Create_started_witness :
  exists d : V4L2Decoder Z,
    Create H264 1048576 9 (sampleDecoder Idle h264Driver) = Some d /\
    mState d = Idle /\ mMinNumOutputBuffers d = 9.
Proof.
  eexists. split; [vm_compute; reflexivity |].
  match goal with
  | |- mState ?d = Idle /\ _ =>
      pose proof (Create_started H264 1048576 9
                    (sampleDecoder Idle h264Driver) d) as H
  end.
  split; apply H; vm_compute; reflexivity.
Defined.

(** ** An output frame *)

Lemma reportEachIfFinished_reports ids : forall c c',
  reportEachIfFinished ids c = Some c' ->
  exists new,
    listenerCalls c' = listenerCalls c ++ new /\
    Forall reportsOneFinishedWork new /\
    mOutputBitstreamIds c' = mOutputBitstreamIds c /\
    mPendingWorks c' = mPendingWorks c /\
    mComponentState c' = mComponentState c /\
    mIsDraining c' = mIsDraining c.
Proof.
  induction ids as [|id rest IH]; intros c c' H;
    cbn [reportEachIfFinished] in H.
  - injection H; intros; subst. exists []. rewrite app_nil_r. auto 10.
  - destruct (reportWorkIfFinished id c) as [[reported c1]|] eqn:E;
      [| discriminate].
    pose proof (reportWorkIfFinished_keeps _ _ _ _ E)
      as [K1 [K2 [K3 [K4 K5]]]].
    pose proof (reportWorkIfFinished_outcome _ _ _ _ E) as Hout.
    apply IH in H. destruct H as [new [Hc [Hf [H1 [H2 [H3 H4]]]]]].
    assert (Hfirst : exists first,
              listenerCalls c1 = listenerCalls c ++ first /\
              Forall reportsOneFinishedWork first).
    { destruct Hout as [-> | [found [work [worklet Hout]]]].
      - exists []. rewrite app_nil_r. auto.
      - destruct Hout as [_ [_ [_ [Hr [_ [_ [Hb [_ [_ [_ [Hcalls _]]]]]]]]]]].
        destruct (mListener c) as [l|].
        + exists [onWorkDone_nb l [work]]. split; [exact Hcalls |].
          constructor; [| constructor]. exists l, work. auto.
        + exists []. split; [exact Hcalls | constructor]. }
    destruct Hfirst as [first [Hc1 Hf1]].
    exists (first ++ new). rewrite Hc, Hc1, <- app_assoc.
    repeat split; try congruence. apply Forall_app. auto.
Qed.

(** X21: an output frame whose work is not at the decoder makes the
    component report C2_CORRUPTED; otherwise the component state, the
    pending works and the draining flag stay as they are, and every call
    made to the listener returns one work, finished with C2_OK and with
    its input released. *)
Theorem onOutputFrameReady_reports (frame : VideoFrame) (c c' : Component) :
  onOutputFrameReady frame c = Some c' ->
  (OMap.find (frameBitstreamId frame) (mWorksAtDecoder c) = None /\
   c' = reportError C2_CORRUPTED c) \/
  (exists work,
     OMap.find (frameBitstreamId frame) (mWorksAtDecoder c) = Some work /\
     mComponentState c' = mComponentState c /\
     mPendingWorks c' = mPendingWorks c /\
     mIsDraining c' = mIsDraining c /\
     exists new,
       listenerCalls c' = listenerCalls c ++ new /\
       Forall reportsOneFinishedWork new).
Proof.
  unfold onOutputFrameReady. intros H.
  destruct (OMap.find _ (mWorksAtDecoder c)) as [work|] eqn:Ef.
  2:{ left. injection H; intros; subst. auto. }
  right. exists work. split; [reflexivity |].
  cbv zeta in H.
  match type of H with
  | context [mkGraphicBuffer frame (mCurrentColorAspects ?x)] =>
      set (c1 := x) in H;
      assert (H1 : listenerCalls c1 = listenerCalls c /\
                   mComponentState c1 = mComponentState c /\
                   mPendingWorks c1 = mPendingWorks c /\
                   mIsDraining c1 = mIsDraining c)
  end.
  { subst c1. destruct (_ && _); [| auto].
    destruct (queryColorAspects _); cbn; auto. }
  clearbody c1.
  destruct (map_front_output _ work) as [work1|]; [| discriminate].
  match type of H with
  | context [set_mWorksAtDecoder ?m c1] =>
      set (c2 := set_mWorksAtDecoder m c1) in H;
      assert (H2 : listenerCalls c2 = listenerCalls c /\
                   mComponentState c2 = mComponentState c /\
                   mPendingWorks c2 = mPendingWorks c /\
                   mIsDraining c2 = mIsDraining c)
        by (subst c2; cbn; exact H1)
  end.
  clearbody c2. clear H1.
  match type of H with
  | (c3 <- ?e ;; _) = _ =>
      destruct e as [c3|] eqn:E3; [| discriminate]
  end.
  assert (H3 : exists new3,
            listenerCalls c3 = listenerCalls c ++ new3 /\
            Forall reportsOneFinishedWork new3 /\
            mComponentState c3 = mComponentState c /\
            mPendingWorks c3 = mPendingWorks c /\
            mIsDraining c3 = mIsDraining c).
  { destruct H2 as [Hl [Hs [Hp Hd]]].
    assert (Hsame : Some c2 = Some c3 ->
              exists new3,
                listenerCalls c3 = listenerCalls c ++ new3 /\
                Forall reportsOneFinishedWork new3 /\
                mComponentState c3 = mComponentState c /\
                mPendingWorks c3 = mPendingWorks c /\
                mIsDraining c3 = mIsDraining c).
    { intros E. injection E; intros; subst c3. exists [].
      rewrite app_nil_r. auto 10. }
    assert (Hdetect :
              detectNoShowFrameWorksAndReportIfFinished
                (ordinal (input work1)) c2 = Some c3 ->
              exists new3,
                listenerCalls c3 = listenerCalls c ++ new3 /\
                Forall reportsOneFinishedWork new3 /\
                mComponentState c3 = mComponentState c /\
                mPendingWorks c3 = mPendingWorks c /\
                mIsDraining c3 = mIsDraining c).
    { unfold detectNoShowFrameWorksAndReportIfFinished. intros E.
      destruct (detectNoShowFrameWorks _ _) as [[m1 ids]|]; [| discriminate].
      apply reportEachIfFinished_reports in E.
      destruct E as [new [Hc [Hf [_ [K2 [K3 K4]]]]]].
      cbn [listenerCalls mPendingWorks mComponentState mIsDraining
           set_mWorksAtDecoder] in Hc, K2, K3, K4.
      exists new. repeat split; try congruence. }
    destruct (getVideoCodec _) as [[]|]; auto. }
  destruct H3 as [new3 [Hc3 [Hf3 [Hs3 [Hp3 Hd3]]]]].
  unfold pumpReportWork in H.
  apply pumpReportWork_loop_fifo in H; [| reflexivity].
  destruct H as [popped [new [_ [Hc [_ [Hf [Hp [Hs Hd]]]]]]]].
  cbn [listenerCalls mPendingWorks mComponentState mIsDraining
       set_mOutputBitstreamIds] in Hc, Hp, Hs, Hd.
  repeat split; try congruence.
  exists (new3 ++ new). rewrite Hc, Hc3, <- app_assoc.
  split; [reflexivity | apply Forall_app; auto].
Qed.

(** ** The end of a decode *)

(** X22: [onDecodeDone] is defined only for the id of a work at the
    decoder.  With kError it reports C2_CORRUPTED; with kOk or kAborted the
    work has an input buffer, the component state, the pending works and
    the draining flag stay as they are, and every call made to the
    listener returns one work, finished with C2_OK and with its input
    released. *)
Theorem onDecodeDone_reports (bitstreamId : Z) (status : DecodeStatus)
    (c c' : Component) :
  onDecodeDone bitstreamId status c = Some c' ->
  exists work,
    OMap.find bitstreamId (mWorksAtDecoder c) = Some work /\
    match status with
    | kError => c' = reportError C2_CORRUPTED c
    | _ =>
        buffers (input work) <> [] /\
        mComponentState c' = mComponentState c /\
        mPendingWorks c' = mPendingWorks c /\
        mIsDraining c' = mIsDraining c /\
        exists new,
          listenerCalls c' = listenerCalls c ++ new /\
          Forall reportsOneFinishedWork new
    end.
Proof.
  unfold onDecodeDone. intros H.
  destruct (OMap.find bitstreamId (mWorksAtDecoder c)) as [work|];
    [| discriminate].
  exists work. split; [reflexivity |].
  destruct status.
  - (* kOk *)
    unfold reset_front_input in H.
    destruct (buffers (input work)) as [|b bufs] eqn:Eb; [discriminate |].
    cbv zeta in H. unfold pumpReportWork in H.
    apply pumpReportWork_loop_fifo in H; [| reflexivity].
    destruct H as [popped [new [_ [Hc [_ [Hf [Hp [Hs Hd]]]]]]]].
    destruct (has_flag _ FLAG_CODEC_CONFIG);
      cbn [listenerCalls mPendingWorks mComponentState mIsDraining
           set_mOutputBitstreamIds set_mWorksAtDecoder] in Hc, Hp, Hs, Hd.
    all: split; [discriminate |]; repeat split; try assumption; eauto.
  - (* kAborted *)
    unfold reset_front_input in H.
    destruct (buffers (input work)) as [|b bufs] eqn:Eb; [discriminate |].
    destruct (map_front_output _ _) as [work1|]; [| discriminate].
    cbv zeta in H. unfold pumpReportWork in H.
    apply pumpReportWork_loop_fifo in H; [| reflexivity].
    destruct H as [popped [new [_ [Hc [_ [Hf [Hp [Hs Hd]]]]]]]].
    cbn [listenerCalls mPendingWorks mComponentState mIsDraining
         set_mOutputBitstreamIds set_mWorksAtDecoder] in Hc, Hp, Hs, Hd.
    split; [discriminate |]; repeat split; try assumption; eauto.
  - injection H; intros; subst. reflexivity.
Qed.

(** ** The pump of pending works *)

Lemma runDecodeCb_error_keeps (cb : ComponentCb) (c c' : Component) :
  runDecodeCb componentCallbacks cb kError c = Some c' ->
  mPendingWorks c' = mPendingWorks c /\ mIsDraining c' = mIsDraining c.
Proof.
  destruct cb as [id|]; cbn [runDecodeCb componentCallbacks].
  - unfold onDecodeDone. destruct (OMap.find id _); [| discriminate].
    intros H. injection H; intros; subst.
    destruct (reportError_keeps C2_CORRUPTED c) as [-> [_ [_ [-> _]]]]. auto.
  - cbn [onDrainDone]. intros H. injection H; intros; subst.
    destruct (reportError_keeps C2_CORRUPTED c) as [-> [_ [_ [-> _]]]]. auto.
Qed.

Lemma onError_component_keeps (d d' : Decoder) (c c' : Component) :
  onError componentCallbacks d c = Some (d', c') ->
  mPendingWorks c' = mPendingWorks c /\ mIsDraining c' = mIsDraining c.
Proof.
  unfold onError. cbn [mErrorCb componentCallbacks].
  intros H. injection H; intros; subst.
  destruct (reportError_keeps C2_CORRUPTED c) as [-> [_ [_ [-> _]]]]. auto.
Qed.

Lemma pumpDecodeRequest_loop_component_keeps reqs :
  forall (d d' : Decoder) (c c' : Component),
  pumpDecodeRequest_loop componentCallbacks reqs d c = Some (d', c') ->
  mPendingWorks c' = mPendingWorks c /\ mIsDraining c' = mIsDraining c.
Proof.
  induction reqs as [|req rest IH]; intros d d' c c' H;
    cbn [pumpDecodeRequest_loop] in H.
  - injection H; intros; subst. auto.
  - destruct (buffer req) as [buf|].
    + destruct (getFreeBuffer (inputQueue d)) as [[b q1]|].
      2:{ injection H; intros; subst. auto. }
      unfold request in H. cbv beta iota zeta in H.
      destruct (_ <? size buf);
        [apply onError_component_keeps in H; exact H |].
      destruct (negb _); [apply onError_component_keeps in H; exact H |].
      apply IH in H. exact H.
    + destruct (Nat.ltb 0 _); [injection H; intros; subst; auto |].
      cbv zeta in H. destruct (sendV4L2DecoderCmd false _) as [sent d2].
      destruct sent; cbn [negb] in H; [injection H; intros; subst; auto |].
      destruct (runDecodeCb componentCallbacks (decodeCb req) kError c)
        as [c1|] eqn:E; [| discriminate].
      apply runDecodeCb_error_keeps in E. destruct E as [E1 E2].
      apply onError_component_keeps in H. destruct H as [-> ->]. auto.
Qed.

Lemma decode_component_keeps buf cb (d d' : Decoder) (c c' : Component) :
  decode componentCallbacks buf cb d c = Some (d', c') ->
  mPendingWorks c' = mPendingWorks c /\ mIsDraining c' = mIsDraining c.
Proof.
  unfold decode. destruct (State_eqb (mState d) Error).
  - intros H. injection H; intros; subst. auto.
  - unfold pumpDecodeRequest. destruct (negb _).
    + intros H. injection H; intros; subst. auto.
    + apply pumpDecodeRequest_loop_component_keeps.
Qed.

Lemma drain_component_keeps cb (d d' : Decoder) (c c' : Component) :
  drain componentCallbacks cb d c = Some (d', c') ->
  mPendingWorks c' = mPendingWorks c /\ mIsDraining c' = mIsDraining c.
Proof.
  unfold drain. destruct (mState d).
  all: try (intros H; injection H; intros; subst; auto; fail).
  unfold pumpDecodeRequest. destruct (negb _).
  - intros H. injection H; intros; subst. auto.
  - apply pumpDecodeRequest_loop_component_keeps.
Qed.

Lemma pumpPendingWorks_loop_drains works :
  forall (d d' : Decoder) (c c' : Component),
  pumpPendingWorks_loop works d c = Some (d', c') ->
  mPendingWorks c = works ->
  (exists popped, works = popped ++ mPendingWorks c') /\
  (mPendingWorks c' = [] \/ mIsDraining c' = true \/
   mComponentState c' = ERROR).
Proof.
  induction works as [|pendingWork rest IH]; intros d d' c c' H Hp;
    cbn [pumpPendingWorks_loop] in H.
  - injection H; intros; subst. split; [exists []; auto | auto].
  - destruct (mIsDraining c) eqn:Hd.
    { injection H; intros; subst. split; [exists []; auto | auto]. }
    cbv zeta in H.
    destruct (hd_error (buffers (input pendingWork))) as [front|];
      [| discriminate].
    destruct (OMap.insert _ pendingWork _) as [works1 inserted].
    match type of H with
    | (r <- ?e ;; _) = _ => destruct e as [[[stop d1] c1]|] eqn:Er;
                            [| discriminate]
    end.
    assert (Hr : mPendingWorks c1 = rest /\
                 (stop = true -> mComponentState c1 = ERROR) /\
                 mIsDraining c1 = false).
    { destruct front as [inputBuffer|].
      - destruct (negb inserted); [discriminate |].
        destruct (hd_error _) as [linearBlock|]; [| discriminate].
        cbv zeta in Er.
        match type of Er with
        | match ?p with Some _ => _ | None => _ end = _ => destruct p
        end.
        + destruct (negb _).
          * injection Er; intros; subst.
            split; [| split; [intros _; apply reportError_state |] ].
            -- match goal with
               | |- context [reportError ?e ?x] =>
                   destruct (reportError_keeps e x) as [-> _]
               end. reflexivity.
            -- match goal with
               | |- context [reportError ?e ?x] =>
                   destruct (reportError_keeps e x) as [_ [_ [_ [-> _]]]]
               end. exact Hd.
          * destruct (decode _ _ _ _ _) as [[d2 c2]|] eqn:Ed; [| discriminate].
            injection Er; intros; subst.
            apply decode_component_keeps in Ed. destruct Ed as [-> ->].
            cbn. split; [reflexivity |]. split; [discriminate | exact Hd].
        + destruct (decode _ _ _ _ _) as [[d2 c2]|] eqn:Ed; [| discriminate].
          injection Er; intros; subst.
          apply decode_component_keeps in Ed. destruct Ed as [-> ->].
          cbn. split; [reflexivity |]. split; [discriminate | exact Hd].
      - injection Er; intros; subst. cbn.
        split; [reflexivity |]. split; [discriminate | exact Hd]. }
    destruct Hr as [Hp1 [Hstop Hd1]].
    destruct stop.
    { injection H; intros; subst d' c'.
      split; [exists [pendingWork]; rewrite Hp1; reflexivity |].
      right. right. apply Hstop. reflexivity. }
    assert (Htail : forall d2 c2,
      mPendingWorks c2 = rest ->
      (c0 <- (if has_flag (flags (input pendingWork)) FLAG_CODEC_CONFIG &&
                 match front with None => true | Some _ => false end
              then '(_, c4) <- reportWorkIfFinished
                                 (frameIndexToBitstreamId
                                    (frameIndex (ordinal (input pendingWork))))
                                 c2 ;;
                   Some c4
              else Some c2) ;;
       pumpPendingWorks_loop rest d2 c0) = Some (d', c') ->
      (exists popped, pendingWork :: rest = popped ++ mPendingWorks c') /\
      (mPendingWorks c' = [] \/ mIsDraining c' = true \/
       mComponentState c' = ERROR)).
    { intros d2 c2 H2 Hrun.
      match type of Hrun with
      | (c0 <- ?e ;; _) = _ => destruct e as [c3|] eqn:E3; [| discriminate]
      end.
      assert (H3 : mPendingWorks c3 = rest).
      { match type of E3 with
        | (if ?b then _ else _) = _ => destruct b
        end.
        - destruct (reportWorkIfFinished _ c2) as [[reported c4]|] eqn:Erep;
            [| discriminate].
          injection E3; intros; subst c3.
          apply reportWorkIfFinished_keeps in Erep.
          destruct Erep as [_ [E _]]. rewrite E. exact H2.
        - injection E3; intros; subst c3. exact H2. }
      apply IH in Hrun; [| exact H3].
      destruct Hrun as [[popped Hpop] Hend].
      split; [exists (pendingWork :: popped); rewrite Hpop; reflexivity |].
      exact Hend. }
    destruct (has_flag (flags (input pendingWork)) FLAG_END_OF_STREAM).
    + destruct (drain componentCallbacks OnDrainDone d1 c1)
        as [[d3 c3]|] eqn:Edrain; [| discriminate].
      apply drain_component_keeps in Edrain. destruct Edrain as [E _].
      apply (Htail d3 (set_mIsDraining true c3)); [| exact H].
      cbn. rewrite E. exact Hp1.
    + apply (Htail d1 c1 Hp1). exact H.
Qed.

(** X23: [pumpPendingWorks] on a RUNNING component takes works from the
    front of the pending works and leaves the rest in order; it leaves a
    work pending only if the component is draining or has gone to
    ERROR. *)
Theorem pumpPendingWorks_drains_queue (d d' : Decoder) (c c' : Component) :
  pumpPendingWorks d c = Some (d', c') ->
  mComponentState c = RUNNING ->
  (exists popped, mPendingWorks c = popped ++ mPendingWorks c') /\
  (mPendingWorks c' = [] \/ mIsDraining c' = true \/
   mComponentState c' = ERROR).
Proof.
  unfold pumpPendingWorks. intros H Hs. rewrite Hs in H. cbn in H.
  apply (pumpPendingWorks_loop_drains _ _ _ _ _ H eq_refl).
Qed.

(** ** The drain task and the pump *)






(** ** The theorems above at sample states *)

Lemma reportWorkIfFinished_reports_done_witness :
  exists reported c',
    reportWorkIfFinished 1 droppedAtDecoder = Some (reported, c') /\
    (c' = droppedAtDecoder \/ mWorksAtDecoder c' = []).
Proof.
  destruct (reportWorkIfFinished 1 droppedAtDecoder) as [[reported c']|] eqn:E;
    [| vm_compute in E; discriminate E].
  exists reported, c'. split; [reflexivity |].
  destruct (reportWorkIfFinished_reports_done _ _ _ _ E)
    as [H | [found [work [worklet H]]]]; [left; exact H | right].
  destruct H as [_ [_ [Hm _]]]. rewrite Hm. reflexivity.
Defined.

Lemma reportEOSWork_last_witness :
  exists reported c',
    reportEOSWork drainingAtDecoder = Some (reported, c') /\
    mWorksAtDecoder c' = [].
Proof.
  destruct (reportEOSWork drainingAtDecoder) as [[reported c']|] eqn:E;
    [| vm_compute in E; discriminate E].
  exists reported, c'. split; [reflexivity |].
  destruct (reportEOSWork_last _ _ _ E)
    as [[Hf _] | [k [found [eos [worklet [_ [Hm _]]]]]]];
    [vm_compute in Hf; discriminate Hf | exact Hm].
Defined.

Lemma pumpReportWork_fifo_witness :
  exists c' popped,
    pumpReportWork droppedAtDecoder = Some c' /\
    mOutputBitstreamIds droppedAtDecoder = popped ++ mOutputBitstreamIds c'.
Proof.
  destruct (pumpReportWork droppedAtDecoder) as [c'|] eqn:E;
    [| vm_compute in E; discriminate E].
  destruct (pumpReportWork_fifo _ _ E) as [popped [new [Hp _]]].
  exists c', popped. split; [reflexivity | exact Hp].
Defined.

Lemma detectNoShowFrameWorks_sound_witness :
  exists m1 ids,
    detectNoShowFrameWorks (mWorksAtDecoder drainingAtDecoder) (mkOrdinal 3 3)
      = Some (m1, ids) /\
    map fst m1 = [1; 2].
Proof.
  destruct (detectNoShowFrameWorks (mWorksAtDecoder drainingAtDecoder)
              (mkOrdinal 3 3)) as [[m1 ids]|] eqn:E;
    [| vm_compute in E; discriminate E].
  exists m1, ids. split; [reflexivity |].
  rewrite (proj1 (detectNoShowFrameWorks_sound _ _ _ _ E)). reflexivity.
Defined.

Lemma serviceInputQueue_completes_pending_witness :
  exists exit d' calls',
    serviceInputQueue (recorder Z None)
      (readyToDequeue (inputQueue inputAtDevice)) false inputAtDevice []
      = Some (exit, d', calls') /\
    (length (mPendingDecodeCbs d') + length (ranCallbacks calls'))%nat = 1%nat.
Proof.
  destruct (serviceInputQueue (recorder Z None)
              (readyToDequeue (inputQueue inputAtDevice)) false
              inputAtDevice []) as [[[exit d'] calls']|] eqn:E;
    [| vm_compute in E; discriminate E].
  exists exit, d', calls'. split; [reflexivity |].
  destruct (serviceInputQueue_completes_pending None _ _ _ _ _ _ _ E)
    as [new [Hc [_ [_ [Hl _]]]]].
  cbn [app] in Hc. subst new. exact Hl.
Defined.

Lemma serviceOutputQueue_completes_drain_once_witness :
  exists exit d' calls',
    serviceOutputQueue (recorder Z None)
      (readyToDequeue (outputQueue lastOutputAtDevice)) false
      lastOutputAtDevice [] = Some (exit, d', calls') /\
    mPendingDecodeCbs d' = [].
Proof.
  destruct (serviceOutputQueue (recorder Z None)
              (readyToDequeue (outputQueue lastOutputAtDevice)) false
              lastOutputAtDevice []) as [[[exit d'] calls']|] eqn:E;
    [| vm_compute in E; discriminate E].
  exists exit, d', calls'. split; [reflexivity |].
  destruct (serviceOutputQueue_completes_drain_once None _ _ _ _ _ _ _ E)
    as [new [_ [Hp _]]].
  exact Hp.
Defined.

Lemma onDrainDone_outcome_witness :
  exists c', onDrainDone kOk drainingAtDecoder = Some c' /\
             mIsDraining c' = false.
Proof.
  destruct (onDrainDone kOk drainingAtDecoder) as [c'|] eqn:E;
    [| vm_compute in E; discriminate E].
  exists c'. split; [reflexivity |].
  exact (proj1 (onDrainDone_outcome _ _ E)).
Defined.

Lemma pumpDecodeRequest_fifo_witness :
  exists d' new popped,
    pumpDecodeRequest (recorder Z None) stuckBeforeDrain [] = Some (d', new) /\
    mDecodeRequests stuckBeforeDrain = popped ++ mDecodeRequests d'.
Proof.
  destruct (pumpDecodeRequest_fifo None stuckBeforeDrain [] eq_refl)
    as [d' [new [popped [E [Hp _]]]]].
  exists d', new, popped. split; [exact E | exact Hp].
Defined.

Lemma onVideoFrameReady_queues_witness :
  exists d' calls',
    onVideoFrameReady (recorder Z None)
      (Some (mkVideoFrame [3] 0 (Rect_wh 0 0), 77)) waitingForFrame []
      = Some (d', calls') /\
    (mState d' = Error \/ calls' = []).
Proof.
  destruct (onVideoFrameReady (recorder Z None)
              (Some (mkVideoFrame [3] 0 (Rect_wh 0 0), 77)) waitingForFrame [])
    as [[d' calls']|] eqn:E; [| vm_compute in E; discriminate E].
  exists d', calls'. split; [reflexivity |].
  destruct (onVideoFrameReady_queues None _ _ _ _ _ _ E)
    as [[_ He] | [Hc _]]; [left; exact He | right; exact Hc].
Defined.

Lemma onOutputFrameReady_reports_witness :
  exists c',
    onOutputFrameReady (mkVideoFrame [3] 1 (Rect_wh 0 0)) flushInput = Some c' /\
    mComponentState c' = RUNNING.
Proof.
  destruct (onOutputFrameReady (mkVideoFrame [3] 1 (Rect_wh 0 0)) flushInput)
    as [c'|] eqn:E; [| vm_compute in E; discriminate E].
  exists c'. split; [reflexivity |].
  destruct (onOutputFrameReady_reports _ _ _ E)
    as [[Hf _] | [work [_ [Hs _]]]];
    [vm_compute in Hf; discriminate Hf | exact Hs].
Defined.

Lemma onDecodeDone_reports_witness :
  exists c' work,
    onDecodeDone 1 kOk abortedAtDecoder = Some c' /\
    OMap.find 1 (mWorksAtDecoder abortedAtDecoder) = Some work.
Proof.
  destruct (onDecodeDone 1 kOk abortedAtDecoder) as [c'|] eqn:E;
    [| vm_compute in E; discriminate E].
  destruct (onDecodeDone_reports _ _ _ _ E) as [work [Hf _]].
  exists c', work. split; [reflexivity | exact Hf].
Defined.

Lemma pumpPendingWorks_drains_queue_witness :
  exists d' c',
    pumpPendingWorks (sampleDecoder Decoding acceptingDriver) flushInput
      = Some (d', c') /\
    (mPendingWorks c' = [] \/ mIsDraining c' = true \/
     mComponentState c' = ERROR).
Proof.
  destruct (pumpPendingWorks (sampleDecoder Decoding acceptingDriver)
              flushInput) as [[d' c']|] eqn:E;
    [| vm_compute in E; discriminate E].
  exists d', c'. split; [reflexivity |].
  exact (proj2 (pumpPendingWorks_drains_queue _ _ _ _ E eq_refl)).
Defined.
